(** * Webhook signature verification: a shallow embedding of the FastAPI examples

    The repository is a catalogue of independent webhook receivers, one per
    provider, each made of a verification routine and an HTTP handler.  This
    file embeds the verification routines and the parts of the handlers that
    decide the HTTP status, together with a model of the Python library
    functions they call (hashlib, hmac, base64, str and bytes methods), and
    states the properties of the specification over them. *)

From Stdlib Require Import String Ascii NArith ZArith Bool Lia List Permutation.
Import ListNotations.

Local Open Scope N_scope.

(** * Python values and library functions *)

Module Py.

(** A [bytes] object is a sequence of octets, a [str] a sequence of Unicode
    code points.  Both are lists of numbers; a byte is below 256 and a code
    point is at most 0x10FFFF. *)
Definition bytes := list N.
Definition str := list N.

(** String literals of the source. *)
Definition lit (s : string) : str :=
  map N_of_ascii (list_ascii_of_string s).

Definition is_byte (b : N) : bool := b <? 256.
Definition wf_bytes (bs : bytes) : bool := forallb is_byte bs.

(** ** Exceptions, and the comparisons a routine performs on secrets *)

Inductive exn : Type :=
| AttributeError
| TypeError
| ValueError
| IndexError
| UnicodeDecodeError
| UnicodeEncodeError
| BinasciiError
| InvalidTokenError
| PyJWTError
| HTTPException (status_code : N).

(** [except ValueError] also catches the subclasses of ValueError. *)
Definition is_ValueError (e : exn) : bool :=
  match e with
  | ValueError | UnicodeDecodeError | UnicodeEncodeError | BinasciiError => true
  | _ => false
  end.

Definition is_HTTPException (e : exn) : bool :=
  match e with HTTPException _ => true | _ => false end.

Inductive outcome (A : Type) : Type :=
| Return (a : A)
| Raise (e : exn).
Arguments Return {A} a.
Arguments Raise {A} e.

(** How a secret-derived value was compared with a value of the request:
    through [hmac.compare_digest] / [secrets.compare_digest], or with the
    ordinary operators [==], [!=] and [in]. *)
Inductive comparison : Type :=
| ConstantTime
| Ordinary.

(** A computation yields an outcome and the list of comparisons on secrets
    it performed, in order. *)
Definition M (A : Type) : Type := (list comparison * outcome A)%type.

Definition ret {A} (a : A) : M A := ([], Return a).
Definition raise {A} (e : exn) : M A := ([], Raise e).
Definition lift {A} (o : outcome A) : M A := ([], o).

Definition bind {A B} (m : M A) (k : A -> M B) : M B :=
  match m with
  | (l, Return a) => let (l', o) := k a in (l ++ l', o)
  | (l, Raise e) => (l, Raise e)
  end.

(** [try: m  except <those e with sel e>: h e]. *)
Definition catch {A} (sel : exn -> bool) (m : M A) (h : exn -> M A) : M A :=
  match m with
  | (l, Return a) => (l, Return a)
  | (l, Raise e) =>
      if sel e then let (l', o) := h e in (l ++ l', o) else (l, Raise e)
  end.

Definition any_exn (e : exn) : bool := true.

Definition result {A} (m : M A) : outcome A := snd m.
Definition comparisons {A} (m : M A) : list comparison := fst m.

Declare Scope py_scope.
Delimit Scope py_scope with py.
Notation "x <- m ;; k" := (bind m (fun x => k))
  (at level 61, m at next level, right associativity) : py_scope.
Local Open Scope py_scope.

(** ** Words of 32 bits *)

Definition w32 (x : N) : N := N.land x 0xFFFFFFFF.
Definition add32 (x y : N) : N := w32 (x + y).
Definition not32 (x : N) : N := N.lxor x 0xFFFFFFFF.
Definition rotr (n x : N) : N :=
  N.lor (N.shiftr x n) (w32 (N.shiftl x (32 - n))).
Definition rotl (n x : N) : N :=
  N.lor (w32 (N.shiftl x n)) (N.shiftr x (32 - n)).

(** Big-endian conversions. *)
Definition be32 (a b c d : N) : N :=
  N.lor (N.shiftl a 24) (N.lor (N.shiftl b 16) (N.lor (N.shiftl c 8) d)).

Definition be32_bytes (w : N) : bytes :=
  [N.land (N.shiftr w 24) 255; N.land (N.shiftr w 16) 255;
   N.land (N.shiftr w 8) 255; N.land w 255].

Definition be64_bytes (w : N) : bytes :=
  be32_bytes (N.shiftr w 32) ++ be32_bytes (w32 w).

Fixpoint words_of (fuel : nat) (bs : bytes) : list N :=
  match fuel, bs with
  | S fuel', a :: b :: c :: d :: rest => be32 a b c d :: words_of fuel' rest
  | _, _ => []
  end.

Fixpoint chunks (fuel : nat) (n : nat) (bs : bytes) : list bytes :=
  match fuel, bs with
  | S fuel', _ :: _ => firstn n bs :: chunks fuel' n (skipn n bs)
  | _, _ => []
  end.

(** Merkle-Damgard padding shared by SHA-1 and SHA-256: a 0x80 octet, zero
    octets up to 56 modulo 64, and the bit length on 8 octets. *)
Definition md_pad (msg : bytes) : bytes :=
  let len := N.of_nat (length msg) in
  let zeros := N.to_nat ((119 - (len mod 64)) mod 64) in
  msg ++ [128] ++ repeat 0 zeros ++ be64_bytes (8 * len).

Definition blocks (msg : bytes) : list (list N) :=
  let p := md_pad msg in
  map (words_of 16) (chunks (length p) 64 p).

(** ** hashlib.sha256 *)

Definition sha256_K : list N :=
  [1116352408; 1899447441; 3049323471; 3921009573; 961987163; 1508970993;
   2453635748; 2870763221; 3624381080; 310598401; 607225278; 1426881987;
   1925078388; 2162078206; 2614888103; 3248222580; 3835390401; 4022224774;
   264347078; 604807628; 770255983; 1249150122; 1555081692; 1996064986;
   2554220882; 2821834349; 2952996808; 3210313671; 3336571891; 3584528711;
   113926993; 338241895; 666307205; 773529912; 1294757372; 1396182291;
   1695183700; 1986661051; 2177026350; 2456956037; 2730485921; 2820302411;
   3259730800; 3345764771; 3516065817; 3600352804; 4094571909; 275423344;
   430227734; 506948616; 659060556; 883997877; 958139571; 1322822218;
   1537002063; 1747873779; 1955562222; 2024104815; 2227730452; 2361852424;
   2428436474; 2756734187; 3204031479; 3329325298].

Definition sha256_H0 : list N :=
  [1779033703; 3144134277; 1013904242; 2773480762; 1359893119; 2600822924;
   528734635; 1541459225].

Definition sigma0 (x : N) : N :=
  N.lxor (rotr 7 x) (N.lxor (rotr 18 x) (N.shiftr x 3)).
Definition sigma1 (x : N) : N :=
  N.lxor (rotr 17 x) (N.lxor (rotr 19 x) (N.shiftr x 10)).
Definition Sigma0 (x : N) : N :=
  N.lxor (rotr 2 x) (N.lxor (rotr 13 x) (rotr 22 x)).
Definition Sigma1 (x : N) : N :=
  N.lxor (rotr 6 x) (N.lxor (rotr 11 x) (rotr 25 x)).
Definition Ch (x y z : N) : N :=
  N.lxor (N.land x y) (N.land (not32 x) z).
Definition Maj (x y z : N) : N :=
  N.lxor (N.land x y) (N.lxor (N.land x z) (N.land y z)).

(** The message schedule, most recent word first. *)
Fixpoint sha256_schedule (n : nat) (rev_w : list N) : list N :=
  match n with
  | O => rev_w
  | S n' =>
      let w := add32 (add32 (sigma1 (nth 1 rev_w 0)) (nth 6 rev_w 0))
                     (add32 (sigma0 (nth 14 rev_w 0)) (nth 15 rev_w 0)) in
      sha256_schedule n' (w :: rev_w)
  end.

Definition sha256_round (st : list N) (kw : N * N) : list N :=
  match st with
  | [a; b; c; d; e; f; g; h] =>
      let t1 := add32 (add32 (add32 h (Sigma1 e)) (add32 (Ch e f g) (fst kw)))
                      (snd kw) in
      let t2 := add32 (Sigma0 a) (Maj a b c) in
      [add32 t1 t2; a; b; c; add32 d t1; e; f; g]
  | _ => st
  end.

Definition sha256_compress (st : list N) (block : list N) : list N :=
  let w := rev (sha256_schedule 48 (rev block)) in
  let st' := fold_left sha256_round (combine sha256_K w) st in
  map (fun p => add32 (fst p) (snd p)) (combine st st').

Definition sha256 (msg : bytes) : bytes :=
  flat_map be32_bytes (fold_left sha256_compress (blocks msg) sha256_H0).

(** ** hashlib.sha1 *)

Definition sha1_H0 : list N :=
  [1732584193; 4023233417; 2562383102; 271733878; 3285377520].

Fixpoint sha1_schedule (n : nat) (rev_w : list N) : list N :=
  match n with
  | O => rev_w
  | S n' =>
      let w := rotl 1 (N.lxor (N.lxor (nth 2 rev_w 0) (nth 7 rev_w 0))
                              (N.lxor (nth 13 rev_w 0) (nth 15 rev_w 0))) in
      sha1_schedule n' (w :: rev_w)
  end.

Definition sha1_f (t : nat) (b c d : N) : N * N :=
  if (t <? 20)%nat then (N.lor (N.land b c) (N.land (not32 b) d), 0x5A827999)
  else if (t <? 40)%nat then (N.lxor b (N.lxor c d), 0x6ED9EBA1)
  else if (t <? 60)%nat then
    (N.lor (N.land b c) (N.lor (N.land b d) (N.land c d)), 0x8F1BBCDC)
  else (N.lxor b (N.lxor c d), 0xCA62C1D6).

Definition sha1_round (st : list N) (tw : nat * N) : list N :=
  match st with
  | [a; b; c; d; e] =>
      let (f, k) := sha1_f (fst tw) b c d in
      let tmp := add32 (add32 (add32 (rotl 5 a) f) (add32 e k)) (snd tw) in
      [tmp; a; rotl 30 b; c; d]
  | _ => st
  end.

Definition sha1_compress (st : list N) (block : list N) : list N :=
  let w := rev (sha1_schedule 64 (rev block)) in
  let st' := fold_left sha1_round (combine (seq 0 80) w) st in
  map (fun p => add32 (fst p) (snd p)) (combine st st').

Definition sha1 (msg : bytes) : bytes :=
  flat_map be32_bytes (fold_left sha1_compress (blocks msg) sha1_H0).

(** ** hmac.new(key, msg, digestmod) *)

Record digestmod : Type := {
  digest_of : bytes -> bytes;
  block_size : nat
}.

Definition hashlib_sha256 : digestmod :=
  {| digest_of := sha256; block_size := 64 |}.
Definition hashlib_sha1 : digestmod :=
  {| digest_of := sha1; block_size := 64 |}.

Definition hmac_key (key : bytes) (h : digestmod) : bytes :=
  let k := if (block_size h <? length key)%nat then digest_of h key else key in
  k ++ repeat 0 (block_size h - length k).

(** The digest of [hmac.new(key, msg, digestmod)]. *)
Definition hmac_digest (key msg : bytes) (h : digestmod) : bytes :=
  let k := hmac_key key h in
  digest_of h (map (N.lxor 0x5c) k ++ digest_of h (map (N.lxor 0x36) k ++ msg)).

(** ** Hexadecimal digests *)

Definition hex_digit (d : N) : N :=
  if d <? 10 then 48 + d else 87 + d.

Definition hex_of_byte (b : N) : str :=
  [hex_digit (N.land (N.shiftr b 4) 15); hex_digit (N.land b 15)].

Definition hex (bs : bytes) : str := flat_map hex_of_byte bs.

Definition hmac_hexdigest (key msg : bytes) (h : digestmod) : str :=
  hex (hmac_digest key msg h).

Definition is_hex_char (c : N) : bool :=
  ((48 <=? c) && (c <=? 57)) || ((97 <=? c) && (c <=? 102)).

(** ** Methods of [str] *)

Definition str_eqb (a b : str) : bool :=
  if list_eq_dec N.eq_dec a b then true else false.

Fixpoint startswith (pre s : str) : bool :=
  match pre, s with
  | [], _ => true
  | p :: pre', c :: s' => (p =? c) && startswith pre' s'
  | _ :: _, [] => false
  end.

(** [c in s] for a one-character [c]. *)
Definition contains (c : N) (s : str) : bool := existsb (N.eqb c) s.

(** [s[:s.index(c)]] and [s[s.index(c) + 1:]]. *)
Fixpoint before (c : N) (s : str) : str :=
  match s with
  | [] => []
  | x :: r => if x =? c then [] else x :: before c r
  end.

Fixpoint after (c : N) (s : str) : str :=
  match s with
  | [] => []
  | x :: r => if x =? c then r else after c r
  end.

(** [s.split(sep)] for a one-character separator: never empty. *)
Fixpoint split (sep : N) (s : str) : list str :=
  match s with
  | [] => [[]]
  | c :: r =>
      if c =? sep then [] :: split sep r
      else match split sep r with
           | h :: t => (c :: h) :: t
           | [] => [[c]]
           end
  end.

(** [s.split(sep, 1)]. *)
Definition split1 (sep : N) (s : str) : list str :=
  if contains sep s then [before sep s; after sep s] else [s].

(** [str.isspace] on one character. *)
Definition isspace (c : N) : bool :=
  ((9 <=? c) && (c <=? 13)) || ((28 <=? c) && (c <=? 32))
  || (c =? 0x85) || (c =? 0xA0) || (c =? 0x1680)
  || ((0x2000 <=? c) && (c <=? 0x200A))
  || (c =? 0x2028) || (c =? 0x2029) || (c =? 0x202F) || (c =? 0x205F)
  || (c =? 0x3000).

(** [s.split()]: the maximal runs of non-blank characters. *)
Fixpoint split_ws_from (word : str) (s : str) : list str :=
  match s with
  | [] => match word with [] => [] | _ => [rev word] end
  | c :: r =>
      if isspace c then
        match word with
        | [] => split_ws_from [] r
        | _ => rev word :: split_ws_from [] r
        end
      else split_ws_from (c :: word) r
  end.

Definition split_ws (s : str) : list str := split_ws_from [] s.

(** [s.replace(old, new)] for a non-empty [old]: the occurrences of [old]
    are found from the left and do not overlap; [skip] counts the characters
    of a found occurrence that remain to be dropped. *)
Fixpoint replace_from (old new : str) (skip : nat) (s : str) : str :=
  match s with
  | [] => []
  | c :: r =>
      match skip with
      | S k => replace_from old new k r
      | O =>
          if startswith old s
          then new ++ replace_from old new (length old - 1) r
          else c :: replace_from old new 0 r
      end
  end.

Definition replace (old new s : str) : str := replace_from old new 0 s.

(** [sep.join(l)]. *)
Fixpoint join (sep : str) (l : list str) : str :=
  match l with
  | [] => []
  | [x] => x
  | x :: rest => x ++ sep ++ join sep rest
  end.

(** Truth value of an [Optional[str]]: [None] and [""] are false. *)
Definition truthy (o : option str) : bool :=
  match o with
  | Some (_ :: _) => true
  | _ => false
  end.

Definition nonempty (s : str) : bool :=
  match s with [] => false | _ => true end.

(** [str(x)] inside an f-string, for an [Optional[str]]. *)
Definition format_opt (o : option str) : str :=
  match o with
  | Some s => s
  | None => lit "None"
  end.

Definition is_ascii (s : list N) : bool := forallb (fun c => c <? 128) s.

(** ** UTF-8 *)

Definition cons_out {A} (x : A) (o : outcome (list A)) : outcome (list A) :=
  match o with
  | Return l => Return (x :: l)
  | Raise e => Raise e
  end.

Definition app_out {A} (x : list A) (o : outcome (list A)) : outcome (list A) :=
  match o with
  | Return l => Return (x ++ l)
  | Raise e => Raise e
  end.

Definition is_surrogate (c : N) : bool := (0xD800 <=? c) && (c <=? 0xDFFF).

Definition encode_char (c : N) : option bytes :=
  if c <? 0x80 then Some [c]
  else if c <? 0x800 then Some [0xC0 + c / 64; 0x80 + c mod 64]
  else if c <? 0x10000 then
    if is_surrogate c then None
    else Some [0xE0 + c / 4096; 0x80 + (c / 64) mod 64; 0x80 + c mod 64]
  else if c <=? 0x10FFFF then
    Some [0xF0 + c / 262144; 0x80 + (c / 4096) mod 64;
          0x80 + (c / 64) mod 64; 0x80 + c mod 64]
  else None.

(** [s.encode()] and [s.encode('utf-8')]: surrogates cannot be encoded. *)
Fixpoint encode (s : str) : outcome bytes :=
  match s with
  | [] => Return []
  | c :: r =>
      match encode_char c with
      | Some bs => app_out bs (encode r)
      | None => Raise UnicodeEncodeError
      end
  end.

Definition is_cont (b : N) : bool := (0x80 <=? b) && (b <=? 0xBF).

(** [b.decode()] and [b.decode('utf-8')], strict: over-long forms, surrogates
    and values above 0x10FFFF are errors. *)
Fixpoint decode (bs : bytes) : outcome str :=
  match bs with
  | [] => Return []
  | b0 :: r0 =>
      if b0 <? 0x80 then cons_out b0 (decode r0)
      else if (0xC2 <=? b0) && (b0 <=? 0xDF) then
        match r0 with
        | b1 :: r1 =>
            if is_cont b1
            then cons_out ((b0 - 0xC0) * 64 + (b1 - 0x80)) (decode r1)
            else Raise UnicodeDecodeError
        | _ => Raise UnicodeDecodeError
        end
      else if (0xE0 <=? b0) && (b0 <=? 0xEF) then
        match r0 with
        | b1 :: b2 :: r2 =>
            let c := (b0 - 0xE0) * 4096 + (b1 - 0x80) * 64 + (b2 - 0x80) in
            if is_cont b1 && is_cont b2 && (0x800 <=? c) && negb (is_surrogate c)
            then cons_out c (decode r2)
            else Raise UnicodeDecodeError
        | _ => Raise UnicodeDecodeError
        end
      else if (0xF0 <=? b0) && (b0 <=? 0xF4) then
        match r0 with
        | b1 :: b2 :: b3 :: r3 =>
            let c := (b0 - 0xF0) * 262144 + (b1 - 0x80) * 4096
                     + (b2 - 0x80) * 64 + (b3 - 0x80) in
            if is_cont b1 && is_cont b2 && is_cont b3
               && (0x10000 <=? c) && (c <=? 0x10FFFF)
            then cons_out c (decode r3)
            else Raise UnicodeDecodeError
        | _ => Raise UnicodeDecodeError
        end
      else Raise UnicodeDecodeError
  end.

(** ** base64 *)

Definition b64_char (i : N) : N :=
  if i <? 26 then 65 + i
  else if i <? 52 then 71 + i
  else if i <? 62 then i - 4
  else if i =? 62 then 43
  else 47.

Definition b64_value (c : N) : option N :=
  if (65 <=? c) && (c <=? 90) then Some (c - 65)
  else if (97 <=? c) && (c <=? 122) then Some (c - 71)
  else if (48 <=? c) && (c <=? 57) then Some (c + 4)
  else if c =? 43 then Some 62
  else if c =? 47 then Some 63
  else None.

Definition b64_pad : N := 61.


(** [base64.b64encode(bs)]. *)
Fixpoint b64encode (bs : bytes) : bytes :=
  match bs with
  | a :: b :: c :: rest =>
      b64_char (a / 4) :: b64_char ((a mod 4) * 16 + b / 16)
      :: b64_char ((b mod 16) * 4 + c / 64) :: b64_char (c mod 64)
      :: b64encode rest
  | [a; b] =>
      [b64_char (a / 4); b64_char ((a mod 4) * 16 + b / 16);
       b64_char ((b mod 16) * 4); b64_pad]
  | [a] => [b64_char (a / 4); b64_char ((a mod 4) * 16); b64_pad; b64_pad]
  | [] => []
  end.

(** [binascii.a2b_base64] without strict mode: characters outside the
    alphabet are skipped, a completed run of padding ends the input, and an
    unfinished quadruple is an error.  [quad_pos] is the position in the
    current quadruple, [leftchar] the bits carried over, [pads] the padding
    characters seen since the last data character. *)
Fixpoint a2b_base64 (s : list N) (quad_pos leftchar pads : N) : outcome bytes :=
  match s with
  | [] => if quad_pos =? 0 then Return [] else Raise BinasciiError
  | ch :: rest =>
      if ch =? b64_pad then
        if 2 <=? quad_pos then
          if 4 <=? quad_pos + (pads + 1) then Return []
          else a2b_base64 rest quad_pos leftchar (pads + 1)
        else a2b_base64 rest quad_pos leftchar pads
      else
        match b64_value ch with
        | None => a2b_base64 rest quad_pos leftchar pads
        | Some v =>
            if quad_pos =? 0 then a2b_base64 rest 1 v 0
            else if quad_pos =? 1 then
              cons_out (leftchar * 4 + v / 16) (a2b_base64 rest 2 (v mod 16) 0)
            else if quad_pos =? 2 then
              cons_out (leftchar * 16 + v / 4) (a2b_base64 rest 3 (v mod 4) 0)
            else cons_out (leftchar * 64 + v) (a2b_base64 rest 0 0 0)
        end
  end.

(** [base64.b64decode(s)] on a [str]: the string must be ASCII. *)
Definition b64decode (s : str) : outcome bytes :=
  if is_ascii s then a2b_base64 s 0 0 0 else Raise ValueError.

(** ** Comparisons on secrets *)

(** [hmac.compare_digest(a, b)] and [secrets.compare_digest(a, b)] on two
    [str]: both must be ASCII, otherwise TypeError is raised before anything
    is compared. *)
Definition compare_digest (a b : str) : M bool :=
  if is_ascii a && is_ascii b then ([ConstantTime], Return (str_eqb a b))
  else raise TypeError.

(** The same call when the first argument may be [None]. *)
Definition compare_digest_opt (a : option str) (b : str) : M bool :=
  match a with
  | Some a' => compare_digest a' b
  | None => raise TypeError
  end.

(** [a == b] where one side is derived from the secret. *)
Definition ordinary_eq (a b : str) : M bool :=
  ([Ordinary], Return (str_eqb a b)).

(** [a != b] where [a] may be [None], which differs from every [str]. *)
Definition ordinary_eq_opt (a : option str) (b : str) : M bool :=
  ([Ordinary],
   Return match a with
          | Some a' => str_eqb a' b
          | None => false
          end).

(** [x in l] where [x] is derived from the secret. *)
Definition ordinary_in (x : str) (l : list str) : M bool :=
  ([Ordinary], Return (existsb (str_eqb x) l)).

(** ** int(s) *)

Definition is_digit (c : N) : bool := (48 <=? c) && (c <=? 57).

(** Blanks that [int] skips at both ends. *)
Definition int_space (c : N) : bool :=
  ((9 <=? c) && (c <=? 13)) || (c =? 32) || ((128 <=? c) && isspace c).

Fixpoint lstrip (s : str) : str :=
  match s with
  | c :: r => if int_space c then lstrip r else s
  | [] => []
  end.

Definition strip (s : str) : str := rev (lstrip (rev (lstrip s))).

(** The digits zero of the scripts of Unicode 14.0, the version of CPython
    3.11: each is followed by the digits one to nine of its script. *)
Definition decimal_zeros : list N :=
  [48; 1632; 1776; 1984; 2406; 2534; 2662; 2790; 2918; 3046; 3174; 3302;
   3430; 3558; 3664; 3792; 3872; 4160; 4240; 6112; 6160; 6470; 6608; 6784;
   6800; 6992; 7088; 7232; 7248; 42528; 43216; 43264; 43472; 43504; 43600;
   44016; 65296; 66720; 68912; 69734; 69872; 69942; 70096; 70384; 70736;
   70864; 71248; 71360; 71472; 71904; 72016; 72784; 73040; 73120; 92768;
   92864; 93008; 120782; 120792; 120802; 120812; 120822; 123200; 123632;
   125264; 130032].

(** [unicodedata.decimal(c)]: the value of a decimal digit of any script. *)
Definition decimal (c : N) : option N :=
  match find (fun z => (z <=? c) && (c <=? z + 9)) decimal_zeros with
  | Some z => Some (c - z)
  | None => None
  end.

Definition is_decimal (c : N) : bool :=
  match decimal c with
  | Some _ => true
  | None => false
  end.

(** Digits with single underscores between them; [prev] tells whether the
    previous character was a digit. *)
Fixpoint digits_value (s : str) (acc : Z) (prev : bool) : option Z :=
  match s with
  | [] => if prev then Some acc else None
  | c :: r =>
      match decimal c with
      | Some d => digits_value r (10 * acc + Z.of_N d)%Z true
      | None =>
          if (c =? 95) && prev then
            match r with
            | d :: _ => if is_decimal d then digits_value r acc false else None
            | [] => None
            end
          else None
      end
  end.

(** [sys.get_int_max_str_digits()], which the code leaves at its default:
    a text with more digits is not converted. *)
Definition int_max_str_digits : N := 4300.

Definition count_digits (s : str) : N :=
  N.of_nat (length (filter is_decimal s)).

(** [int(s)] for a [str]: optional blanks, an optional sign, decimal digits
    of any script with single underscores between them, at most
    [int_max_str_digits] digits. *)
Definition int_of_str (s : str) : outcome Z :=
  let (negative, digits) :=
    match strip s with
    | 45 :: r => (true, r)
    | 43 :: r => (false, r)
    | r => (false, r)
    end in
  match digits_value digits 0%Z false with
  | Some z =>
      if int_max_str_digits <? count_digits digits then Raise ValueError
      else Return (if negative then - z else z)%Z
  | None => Raise ValueError
  end.

(** [secret.encode()] when [secret] may be [None]. *)
Definition encode_opt (s : option str) : M bytes :=
  match s with
  | Some s' => lift (encode s')
  | None => raise AttributeError
  end.

(** [any(f(x) for x in l)]: stops at the first true value. *)
Fixpoint any_m {A} (f : A -> M bool) (l : list A) : M bool :=
  match l with
  | [] => ret false
  | x :: rest => b <- f x ;; if b then ret true else any_m f rest
  end.

(** [[f(x) for x in l]]. *)
Fixpoint map_m {A B} (f : A -> M B) (l : list A) : M (list B) :=
  match l with
  | [] => ret []
  | x :: rest => y <- f x ;; ys <- map_m f rest ;; ret (y :: ys)
  end.

(** [l[1]]. *)
Definition item1 (l : list str) : M str :=
  match l with
  | _ :: x :: _ => ret x
  | _ => raise IndexError
  end.

(** [base64.b64encode(d).decode()]. *)
Definition b64encode_str (d : bytes) : M str := lift (decode (b64encode d)).

(** ** Requests *)

(** The parts of a request the handlers read.  Header names are in lower
    case, as [request.headers.get] and [Header] look them up. *)
Record Request : Type := {
  headers : list (string * str);
  query : list (string * str);
  body : bytes
}.

Fixpoint lookup (name : string) (l : list (string * str)) : option str :=
  match l with
  | [] => None
  | (k, v) :: rest => if String.eqb k name then Some v else lookup name rest
  end.

Definition header (name : string) (r : Request) : option str :=
  lookup name (headers r).

Definition query_param (name : string) (r : Request) : option str :=
  lookup name (query r).

(** A handler either raises or passes the request on to the parsing and the
    dispatch of its payload, which are not modelled. *)
Definition handler := M unit.

Definition http_error {A} (status_code : N) : M A :=
  raise (HTTPException status_code).

(** The status FastAPI answers with when the handler raised: the status of
    an HTTPException, 500 for any other exception.  [None] when the handler
    went on to process the payload. *)
Definition status (h : handler) : option N :=
  match result h with
  | Return _ => None
  | Raise (HTTPException c) => Some c
  | Raise _ => Some 500
  end.

End Py.

Import Py.
Local Open Scope py_scope.

(** * The verification routines and handlers, one module per provider *)

(** ** GitHub: HMAC-SHA256, hexadecimal, [sha256=] prefix *)

Module Github.

Definition verify_github_webhook
  (raw_body : bytes) (signature_header : option str) (secret : option str)
  : M bool :=
  match signature_header with
  | Some ((_ :: _) as hdr) =>
      let signature := replace (lit "sha256=") [] hdr in
      key <- encode_opt secret ;;
      let expected_signature := hmac_hexdigest key raw_body hashlib_sha256 in
      compare_digest signature expected_signature
  | _ => ret false
  end.

Definition github_webhook (github_secret : option str) (request : Request)
  : handler :=
  let raw_body := body request in
  let signature_header := header "x-hub-signature-256" request in
  ok <- verify_github_webhook raw_body signature_header github_secret ;;
  if negb ok then http_error 401 else ret tt.


(** The signature a sender attaches (helper of the tests), on the bytes of
    the payload. *)
Definition generate_github_signature (payload : bytes) (secret : str)
  : M str :=
  key <- lift (encode secret) ;;
  let signature := hmac_hexdigest key payload hashlib_sha256 in
  ret (lit "sha256=" ++ signature).

End Github.

(** ** Shopify: HMAC-SHA256, base64 *)

Module Shopify.

Definition verify_shopify_webhook
  (raw_body : bytes) (hmac_header : option str) (secret : option str)
  : M bool :=
  key <- encode_opt secret ;;
  computed_hmac <- b64encode_str (hmac_digest key raw_body hashlib_sha256) ;;
  match hmac_header with
  | Some h => compare_digest computed_hmac h
  | None => raise TypeError
  end.

Definition shopify_webhook (shopify_secret : option str) (request : Request)
  : handler :=
  let raw_body := body request in
  let hmac_header := header "x-shopify-hmac-sha256" request in
  if negb (truthy hmac_header) then http_error 400
  else
    ok <- verify_shopify_webhook raw_body hmac_header shopify_secret ;;
    if negb ok then http_error 400 else ret tt.


Definition generate_shopify_signature (payload : bytes) (secret : str)
  : M str :=
  key <- lift (encode secret) ;;
  b64encode_str (hmac_digest key payload hashlib_sha256).

End Shopify.

(** ** Vercel: HMAC-SHA1, hexadecimal *)

Module Vercel.

Definition verify_signature (body : bytes) (signature : str) (secret : str)
  : M bool :=
  if negb (nonempty secret) then ret false
  else
    key <- lift (encode secret) ;;
    let expected_signature := hmac_hexdigest key body hashlib_sha1 in
    compare_digest signature expected_signature.

(** [WEBHOOK_SECRET] is read with the default [""], so it is never [None]. *)
Definition handle_vercel_webhook (WEBHOOK_SECRET : str) (request : Request)
  : handler :=
  match header "x-vercel-signature" request with
  | Some ((_ :: _) as x_vercel_signature) =>
      let body := body request in
      if negb (nonempty WEBHOOK_SECRET) then http_error 500
      else
        ok <- verify_signature body x_vercel_signature WEBHOOK_SECRET ;;
        if negb ok then http_error 400 else ret tt
  | _ => http_error 400
  end.


Definition generate_vercel_signature (body : bytes) (secret : str) : M str :=
  key <- lift (encode secret) ;;
  ret (hmac_hexdigest key body hashlib_sha1).

End Vercel.

(** ** WooCommerce: HMAC-SHA256, base64 *)

Module Woocommerce.

Definition verify_woocommerce_webhook
  (raw_body : bytes) (signature : option str) (secret : option str)
  : M bool :=
  match signature, secret, raw_body with
  | Some ((_ :: _) as signature'), Some ((_ :: _) as secret'), _ :: _ =>
      key <- lift (encode secret') ;;
      let hash_digest := hmac_digest key raw_body hashlib_sha256 in
      expected_signature <- lift (decode (b64encode hash_digest)) ;;
      compare_digest signature' expected_signature
  | _, _, _ => ret false
  end.

(** The whole handler is inside [try]: an HTTPException is raised again,
    any other exception becomes a 500. *)
Definition handle_webhook (secret : option str) (request : Request)
  : handler :=
  let signature := header "x-wc-webhook-signature" request in
  let raw_body := body request in
  catch (fun e => negb (is_HTTPException e))
    (ok <- verify_woocommerce_webhook raw_body signature secret ;;
     if negb ok then http_error 400 else ret tt)
    (fun _ => http_error 500).


Definition generate_test_signature (payload : bytes) (secret : str) : M str :=
  key <- lift (encode secret) ;;
  let hash_digest := hmac_digest key payload hashlib_sha256 in
  lift (decode (b64encode hash_digest)).

End Woocommerce.

(** ** Cursor: HMAC-SHA256, hexadecimal, [sha256=] prefix *)

Module Cursor.

Definition verify_cursor_webhook
  (body : bytes) (signature_header : option str) (secret : option str)
  : M bool :=
  match signature_header, secret with
  | Some ((_ :: _) as hdr), Some ((_ :: _) as secret') =>
      match split 61 hdr with
      | [p0; signature] =>
          if negb (str_eqb p0 (lit "sha256")) then ret false
          else
            key <- lift (encode secret') ;;
            let expected := hmac_hexdigest key body hashlib_sha256 in
            compare_digest signature expected
      | _ => ret false
      end
  | _, _ => ret false
  end.

Definition handle_cursor_webhook (secret : option str) (request : Request)
  : handler :=
  let x_webhook_signature := header "x-webhook-signature" request in
  let body := body request in
  if negb (truthy secret) then http_error 500
  else
    ok <- verify_cursor_webhook body x_webhook_signature secret ;;
    if negb ok then http_error 401 else ret tt.


Definition generate_signature (payload : bytes) (secret : str) : M str :=
  key <- lift (encode secret) ;;
  let signature := hmac_hexdigest key payload hashlib_sha256 in
  ret (lit "sha256=" ++ signature).

End Cursor.

(** ** Hookdeck: HMAC-SHA256, base64 *)

Module Hookdeck.

Definition verify_hookdeck_signature
  (raw_body : bytes) (signature : option str) (secret : option str)
  : M bool :=
  match signature, secret with
  | Some ((_ :: _) as signature'), Some ((_ :: _) as secret') =>
      key <- lift (encode secret') ;;
      computed <- lift (decode (b64encode (hmac_digest key raw_body hashlib_sha256))) ;;
      compare_digest computed signature'
  | _, _ => ret false
  end.

Definition webhook (hookdeck_secret : option str) (request : Request)
  : handler :=
  let raw_body := body request in
  let signature := header "x-hookdeck-signature" request in
  ok <- verify_hookdeck_signature raw_body signature hookdeck_secret ;;
  if negb ok then http_error 401 else ret tt.


Definition generate_hookdeck_signature (payload : bytes) (secret : str)
  : M str :=
  key <- lift (encode secret) ;;
  b64encode_str (hmac_digest key payload hashlib_sha256).

End Hookdeck.

(** ** Paddle: [ts=...;h1=...], HMAC-SHA256 over [ts:body], hexadecimal *)

Module Paddle.

(** The loop over the parts of the header: the last [ts=] part is the
    timestamp, every [h1=] part is a candidate signature. *)
Definition parse_part (st : option str * list str) (part : str)
  : option str * list str :=
  if startswith (lit "ts=") part then (Some (skipn 3 part), snd st)
  else if startswith (lit "h1=") part then (fst st, snd st ++ [skipn 3 part])
  else st.

Definition verify_paddle_signature
  (payload : str) (signature_header : option str) (secret : option str)
  : M bool :=
  match signature_header with
  | Some ((_ :: _) as hdr) =>
      catch any_exn
        (let parts := split 59 hdr in
         let (timestamp, signatures) := fold_left parse_part parts (None, []) in
         match timestamp, signatures with
         | Some ((_ :: _) as timestamp'), _ :: _ =>
             let signed_payload := timestamp' ++ lit ":" ++ payload in
             key <- encode_opt secret ;;
             msg <- lift (encode signed_payload) ;;
             let expected_signature := hmac_hexdigest key msg hashlib_sha256 in
             any_m (fun sig => compare_digest sig expected_signature) signatures
         | _, _ => ret false
         end)
        (fun _ => ret false)
  | _ => ret false
  end.

(** The three branches of the handler all call [verify_paddle_signature]
    and answer 400 when it returns false. *)
Definition paddle_webhook (webhook_secret : option str) (request : Request)
  : handler :=
  let payload := body request in
  payload_str <- lift (decode payload) ;;
  let signature_header := header "paddle-signature" request in
  if negb (truthy signature_header) then http_error 400
  else
    ok <- verify_paddle_signature payload_str signature_header webhook_secret ;;
    if negb ok then http_error 400 else ret tt.



End Paddle.

(** ** Resend: Svix headers, HMAC-SHA256 over [id.timestamp.body], base64 *)

Module Resend.

(** The loop over the candidates of [svix-signature]. *)
Fixpoint check_signatures (sigs : list str) (expected_sig : str) : M bool :=
  match sigs with
  | [] => ret false
  | sig :: rest =>
      if startswith (lit "v1,") sig then
        let provided_sig := skipn 3 sig in
        ok <- compare_digest provided_sig expected_sig ;;
        if ok then ret true else check_signatures rest expected_sig
      else check_signatures rest expected_sig
  end.

Definition verify_svix_signature
  (now : Z) (payload : bytes) (headers : list (string * str))
  (secret : option str) (tolerance : Z) : M bool :=
  match lookup "svix-id" headers, lookup "svix-timestamp" headers,
        lookup "svix-signature" headers with
  | Some ((_ :: _) as msg_id), Some ((_ :: _) as msg_timestamp),
    Some ((_ :: _) as msg_signature) =>
      match int_of_str msg_timestamp with
      | Raise e => if is_ValueError e then ret false else raise e
      | Return timestamp =>
          if (tolerance <? Z.abs (now - timestamp))%Z then ret false
          else
            match secret with
            | None => raise AttributeError
            | Some secret0 =>
                let secret1 :=
                  if startswith (lit "whsec_") secret0 then skipn 6 secret0
                  else secret0 in
                secret_bytes <- lift (b64decode secret1) ;;
                text <- lift (decode payload) ;;
                let signed_content :=
                  msg_id ++ lit "." ++ msg_timestamp ++ lit "." ++ text in
                msg <- lift (encode signed_content) ;;
                expected_sig <-
                  b64encode_str (hmac_digest secret_bytes msg hashlib_sha256) ;;
                check_signatures (split_ws msg_signature) expected_sig
            end
      end
  | _, _, _ => ret false
  end.

Definition svix_headers (request : Request) : list (string * str) :=
  flat_map
    (fun name => match header name request with
                 | Some v => [(name, v)]
                 | None => []
                 end)
    ["svix-id"%string; "svix-timestamp"%string; "svix-signature"%string].

Definition resend_webhook (now : Z) (webhook_secret : option str)
  (request : Request) : handler :=
  let payload := body request in
  let headers := svix_headers request in
  if negb (truthy (lookup "svix-id" headers)
           && truthy (lookup "svix-timestamp" headers)
           && truthy (lookup "svix-signature" headers))
  then http_error 400
  else
    ok <- verify_svix_signature now payload headers webhook_secret 300 ;;
    if negb ok then http_error 400 else ret tt.



End Resend.

(** ** Clerk: Svix headers, checked in the routine and in the handler *)

Module Clerk.

Definition verify_clerk_signature
  (body : bytes) (svix_id svix_timestamp svix_signature : str) (secret : str)
  : M bool :=
  catch any_exn
    (text <- lift (decode body) ;;
     let signed_content :=
       svix_id ++ lit "." ++ svix_timestamp ++ lit "." ++ text in
     encoded_secret <- item1 (split 95 secret) ;;
     secret_bytes <- lift (b64decode encoded_secret) ;;
     msg <- lift (encode signed_content) ;;
     expected_signature <-
       b64encode_str (hmac_digest secret_bytes msg hashlib_sha256) ;;
     signatures <-
       map_m (fun sig => item1 (split 44 sig)) (split 32 svix_signature) ;;
     ordinary_in expected_signature signatures)
    (fun _ => ret false).

Definition clerk_webhook (now : Z) (env_secret : option str)
  (request : Request) : handler :=
  match header "svix-id" request, header "svix-timestamp" request,
        header "svix-signature" request with
  | Some ((_ :: _) as svix_id), Some ((_ :: _) as svix_timestamp),
    Some ((_ :: _) as svix_signature) =>
      let body := body request in
      match env_secret with
      | Some ((_ :: _) as secret) =>
          if negb (startswith (lit "whsec_") secret) then http_error 500
          else
            ok <- verify_clerk_signature body svix_id svix_timestamp
                    svix_signature secret ;;
            if negb ok then http_error 400
            else
              match int_of_str svix_timestamp with
              | Return timestamp =>
                  let current_time := now in
                  if (300 <? current_time - timestamp)%Z then http_error 400
                  else ret tt
              | Raise e =>
                  if is_ValueError e then http_error 400 else raise e
              end
      | _ => http_error 500
      end
  | _, _, _ => http_error 400
  end.



End Clerk.

(** ** OpenAI: Standard Webhooks, one signature *)

Module Openai.

Definition verify_openai_signature
  (now : Z) (payload : bytes)
  (webhook_id webhook_timestamp webhook_signature : option str) (secret : str)
  : M bool :=
  match webhook_id, webhook_timestamp, webhook_signature with
  | Some ((_ :: _) as webhook_id'), Some ((_ :: _) as webhook_timestamp'),
    Some ((_ :: _) as webhook_signature') =>
      if negb (contains 44 webhook_signature') then ret false
      else
        let current_time := now in
        match int_of_str webhook_timestamp' with
        | Raise e => if is_ValueError e then ret false else raise e
        | Return ts =>
            let timestamp_diff := (current_time - ts)%Z in
            if ((300 <? timestamp_diff) || (timestamp_diff <? -300))%Z
            then ret false
            else
              match split1 44 webhook_signature' with
              | [version; signature] =>
                  if negb (str_eqb version (lit "v1")) then ret false
                  else
                    text <- lift (decode payload) ;;
                    let signed_content :=
                      webhook_id' ++ lit "." ++ webhook_timestamp' ++ lit "."
                      ++ text in
                    let secret_key :=
                      if startswith (lit "whsec_") secret then skipn 6 secret
                      else secret in
                    match b64decode secret_key with
                    | Raise _ => ret false
                    | Return secret_bytes =>
                        msg <- lift (encode signed_content) ;;
                        expected_signature <-
                          b64encode_str
                            (hmac_digest secret_bytes msg hashlib_sha256) ;;
                        compare_digest signature expected_signature
                    end
              | _ => ret false
              end
        end
  | _, _, _ => ret false
  end.

Definition openai_webhook (now : Z) (webhook_secret : option str)
  (request : Request) : handler :=
  let payload := body request in
  match webhook_secret with
  | Some ((_ :: _) as secret) =>
      ok <- verify_openai_signature now payload
              (header "webhook-id" request)
              (header "webhook-timestamp" request)
              (header "webhook-signature" request) secret ;;
      if negb ok then http_error 400 else ret tt
  | _ => http_error 500
  end.


(** The value of [webhook-signature] a sender computes (helper of the
    tests). *)
Definition generate_standard_webhooks_signature
  (payload : bytes) (secret webhook_id webhook_timestamp : str) : M str :=
  let secret_key :=
    if startswith (lit "whsec_") secret then skipn 6 secret else secret in
  secret_bytes <- lift (b64decode secret_key) ;;
  text <- lift (decode payload) ;;
  let signed_content :=
    webhook_id ++ lit "." ++ webhook_timestamp ++ lit "." ++ text in
  msg <- lift (encode signed_content) ;;
  signature <- b64encode_str (hmac_digest secret_bytes msg hashlib_sha256) ;;
  ret (lit "v1," ++ signature).

End Openai.

(** ** Replicate: Standard Webhooks, several signatures *)

Module Replicate.

(** The loop over the parsed signatures: the timestamp is looked at only
    once a signature matched. *)
Fixpoint check_signatures (now : Z) (webhook_timestamp : str)
  (sigs : list str) (expected_signature : str) : M bool :=
  match sigs with
  | [] => ret false
  | sig :: rest =>
      ok <- compare_digest sig expected_signature ;;
      if ok then
        timestamp <- lift (int_of_str webhook_timestamp) ;;
        let current_time := now in
        if (300 <? current_time - timestamp)%Z then raise ValueError
        else ret true
      else check_signatures now webhook_timestamp rest expected_signature
  end.

Definition parse_signature (sig : str) : str :=
  match split 44 sig with
  | _ :: p1 :: _ => p1
  | _ => sig
  end.

(** The [except Exception] clause logs and raises again. *)
Definition verify_replicate_signature
  (now : Z) (body : bytes)
  (webhook_id webhook_timestamp webhook_signature : str) (secret : str)
  : M bool :=
  encoded_key <- item1 (split 95 secret) ;;
  key <- lift (b64decode encoded_key) ;;
  text <- lift (decode body) ;;
  let signed_content :=
    webhook_id ++ lit "." ++ webhook_timestamp ++ lit "." ++ text in
  msg <- lift (encode signed_content) ;;
  expected_signature <- b64encode_str (hmac_digest key msg hashlib_sha256) ;;
  let signatures := map parse_signature (split 32 webhook_signature) in
  check_signatures now webhook_timestamp signatures expected_signature.

Definition handle_replicate_webhook (now : Z) (env_secret : option str)
  (request : Request) : handler :=
  match header "webhook-id" request, header "webhook-timestamp" request,
        header "webhook-signature" request with
  | Some ((_ :: _) as webhook_id), Some ((_ :: _) as webhook_timestamp),
    Some ((_ :: _) as webhook_signature) =>
      let body := body request in
      match env_secret with
      | Some ((_ :: _) as secret) =>
          is_valid <-
            catch any_exn
              (verify_replicate_signature now body webhook_id
                 webhook_timestamp webhook_signature secret)
              (fun _ => http_error 400) ;;
          if negb is_valid then http_error 400 else ret tt
      | _ => http_error 500
      end
  | _, _, _ => http_error 400
  end.


(** The signature a sender computes (helper of the tests); the tests send it
    after [v1,]. *)
Definition generate_signature (payload secret webhook_id timestamp : str)
  : M str :=
  encoded_key <- item1 (split 95 secret) ;;
  key <- lift (b64decode encoded_key) ;;
  let signed_content :=
    webhook_id ++ lit "." ++ timestamp ++ lit "." ++ payload in
  msg <- lift (encode signed_content) ;;
  b64encode_str (hmac_digest key msg hashlib_sha256).

End Replicate.

(** ** ElevenLabs: [t=...,v0=...], 30 minutes of tolerance; failure is an
    exception *)

Module Elevenlabs.

Definition parse_element (st : option str * list str) (element : str)
  : option str * list str :=
  if startswith (lit "t=") element then (Some (skipn 2 element), snd st)
  else if startswith (lit "v0=") element
       then (fst st, snd st ++ [skipn 3 element])
  else st.

Definition verify_elevenlabs_webhook
  (now : Z) (raw_body : bytes) (signature_header : option str) (secret : str)
  : M bool :=
  match signature_header with
  | Some ((_ :: _) as hdr) =>
      let elements := split 44 hdr in
      let (timestamp, signatures) :=
        fold_left parse_element elements (None, []) in
      match timestamp, signatures with
      | Some ((_ :: _) as timestamp'), _ :: _ =>
          let current_time := now in
          ts <- lift (int_of_str timestamp') ;;
          let timestamp_age := Z.abs (current_time - ts) in
          if (1800 <? timestamp_age)%Z then raise ValueError
          else
            text <- lift (decode raw_body) ;;
            let signed_payload := timestamp' ++ lit "." ++ text in
            key <- lift (encode secret) ;;
            msg <- lift (encode signed_payload) ;;
            let expected_signature := hmac_hexdigest key msg hashlib_sha256 in
            is_valid <-
              any_m (fun sig => compare_digest sig expected_signature)
                signatures ;;
            if negb is_valid then raise ValueError else ret true
      | _, _ => raise ValueError
      end
  | _ => raise ValueError
  end.

(** The call is inside [try]: a ValueError becomes a 400, any other
    exception a 500. *)
Definition elevenlabs_webhook (now : Z) (WEBHOOK_SECRET : str)
  (request : Request) : handler :=
  match header "elevenlabs-signature" request with
  | Some ((_ :: _) as elevenlabs_signature) =>
      let raw_body := body request in
      catch any_exn
        (_ <- verify_elevenlabs_webhook now raw_body
                (Some elevenlabs_signature) WEBHOOK_SECRET ;;
         ret tt)
        (fun e => if is_ValueError e then http_error 400 else http_error 500)
  | _ => http_error 400
  end.


(** The header a sender computes (helper of the tests), for a timestamp
    already written in decimal. *)
Definition generate_test_signature (payload secret timestamp : str) : M str :=
  let signed_payload := timestamp ++ lit "." ++ payload in
  key <- lift (encode secret) ;;
  msg <- lift (encode signed_payload) ;;
  let signature := hmac_hexdigest key msg hashlib_sha256 in
  ret (lit "t=" ++ timestamp ++ lit ",v0=" ++ signature).

End Elevenlabs.

(** ** Webflow: timestamp in milliseconds, HMAC-SHA256 over [ts:body] *)

Module Webflow.

Definition verify_webflow_signature
  (now_ms : Z) (raw_body : bytes) (signature timestamp : str) (secret : str)
  : M bool :=
  match int_of_str timestamp with
  | Raise e => if is_ValueError e then ret false else raise e
  | Return webhook_time =>
      let current_time := now_ms in
      let time_diff := Z.abs (current_time - webhook_time) in
      if (300000 <? time_diff)%Z then ret false
      else
        text <- lift (decode raw_body) ;;
        let signed_content := timestamp ++ lit ":" ++ text in
        key <- lift (encode secret) ;;
        msg <- lift (encode signed_content) ;;
        let expected_signature := hmac_hexdigest key msg hashlib_sha256 in
        compare_digest signature expected_signature
  end.



(** The signature a sender computes (helper of the tests). *)
Definition generate_signature (payload timestamp secret : str) : M str :=
  let signed_content := timestamp ++ lit ":" ++ payload in
  key <- lift (encode secret) ;;
  msg <- lift (encode signed_content) ;;
  ret (hmac_hexdigest key msg hashlib_sha256).

End Webflow.

(** ** GitLab: a token in a header *)

Module Gitlab.

Definition verify_gitlab_webhook (token_header : option str)
  (secret : option str) : M bool :=
  match token_header, secret with
  | Some ((_ :: _) as token_header'), Some ((_ :: _) as secret') =>
      compare_digest token_header' secret'
  | _, _ => ret false
  end.

Definition handle_gitlab_webhook (env_token : option str) (request : Request)
  : handler :=
  ok <- verify_gitlab_webhook (header "x-gitlab-token" request) env_token ;;
  if negb ok then http_error 401 else ret tt.

End Gitlab.

(** ** OpenClaw: a bearer token or a custom header; no token in the query *)

Module Openclaw.

Definition extract_token (auth_header x_token : option str) : option str :=
  if truthy x_token then x_token
  else
    match auth_header with
    | Some ((_ :: _) as auth_header') =>
        if startswith (lit "Bearer ") auth_header'
        then Some (skipn 7 auth_header')
        else None
    | _ => None
    end.

Definition verify_openclaw_webhook (auth_header x_token secret : option str)
  : M bool :=
  let token := extract_token auth_header x_token in
  match token, secret with
  | Some ((_ :: _) as token'), Some ((_ :: _) as secret') =>
      compare_digest token' secret'
  | _, _ => ret false
  end.

Definition openclaw_agent_hook (openclaw_secret : option str)
  (request : Request) : handler :=
  match query_param "token" request with
  | Some _ => http_error 400
  | None =>
      let auth_header := header "authorization" request in
      let x_token := header "x-openclaw-token" request in
      ok <- verify_openclaw_webhook auth_header x_token openclaw_secret ;;
      if negb ok then http_error 401 else ret tt
  end.

Definition openclaw_wake_hook (openclaw_secret : option str)
  (request : Request) : handler :=
  let auth_header := header "authorization" request in
  let x_token := header "x-openclaw-token" request in
  ok <- verify_openclaw_webhook auth_header x_token openclaw_secret ;;
  if negb ok then http_error 401 else ret tt.

End Openclaw.

(** ** Deepgram: a token in a header, checked by a dependency *)

Module Deepgram.

Definition verify_deepgram_webhook (expected_token : option str)
  (dg_token : option str) : M bool :=
  match dg_token with
  | Some ((_ :: _) as dg_token') =>
      match expected_token with
      | Some ((_ :: _) as expected_token') =>
          same <- ordinary_eq dg_token' expected_token' ;;
          if negb same then http_error 403 else ret true
      | _ => http_error 500
      end
  | _ => http_error 401
  end.

End Deepgram.

(** ** Chargebee: HTTP Basic authentication, checked by a dependency *)

Module Chargebee.

Definition verify_chargebee_auth
  (expected_username expected_password : option str)
  (authorization : option str) : M bool :=
  match authorization with
  | Some ((_ :: _) as authorization') =>
      if negb (startswith (lit "Basic ") authorization') then http_error 401
      else
        let encoded := skipn 6 authorization' in
        decoded <-
          catch any_exn
            (raw <- lift (b64decode encoded) ;; lift (decode raw))
            (fun _ => http_error 401) ;;
        if negb (contains 58 decoded) then http_error 401
        else
          let username := before 58 decoded in
          let password := after 58 decoded in
          match expected_username, expected_password with
          | Some ((_ :: _) as expected_username'),
            Some ((_ :: _) as expected_password') =>
              same_user <- ordinary_eq username expected_username' ;;
              if negb same_user then http_error 401
              else
                same_password <- ordinary_eq password expected_password' ;;
                if negb same_password then http_error 401 else ret true
          | _, _ => http_error 500
          end
  | _ => http_error 401
  end.


(** The header a client sends (helper of the tests). *)
Definition create_basic_auth_header (username password : str) : M str :=
  let credentials := username ++ lit ":" ++ password in
  raw <- lift (encode credentials) ;;
  encoded <- b64encode_str raw ;;
  ret (lit "Basic " ++ encoded).

End Chargebee.

(** ** Postmark: a token in the query string *)

Module Postmark.

(** The module refuses to start without [POSTMARK_WEBHOOK_TOKEN], so the
    token is a non-empty [str]. *)
Definition handle_webhook (POSTMARK_WEBHOOK_TOKEN : str) (request : Request)
  : handler :=
  let token := query_param "token" request in
  same <- ordinary_eq_opt token POSTMARK_WEBHOOK_TOKEN ;;
  if negb same then http_error 401 else ret tt.

End Postmark.

(** ** FusionAuth: a signed JWT that carries the hash of the body *)

Module Fusionauth.

(** A value of the JWT payload: a [str] or anything else. *)
Inductive value : Type :=
| Str (s : str)
| Other.

(** [v == s] for a value of the payload, [None] when the key is absent. *)
Definition value_eq (v : option value) (s : str) : M bool :=
  ([Ordinary],
   Return match v with
          | Some (Str claim) => str_eqb claim s
          | _ => false
          end).

Definition payload_get (name : string) (payload : list (string * value))
  : option value :=
  match find (fun kv => String.eqb (fst kv) name) payload with
  | Some kv => Some (snd kv)
  | None => None
  end.

Section WithJwt.

(** [jwt.decode(token, key, algorithms=...)] of PyJWT: the payload of a token
    that verifies, InvalidTokenError (or another exception) otherwise. *)
Variable jwt_decode :
  str -> str -> list string -> outcome (list (string * value)).

Definition is_InvalidTokenError (e : exn) : bool :=
  match e with InvalidTokenError => true | _ => false end.

Definition verify_fusionauth_webhook
  (raw_body : bytes) (signature_jwt : option str) (secret : option str)
  : M bool :=
  match signature_jwt, secret with
  | Some ((_ :: _) as signature_jwt'), Some ((_ :: _) as secret') =>
      catch is_InvalidTokenError
        (payload <-
           lift (jwt_decode signature_jwt' secret'
                   ["HS256"%string; "HS384"%string; "HS512"%string]) ;;
         body_hash <- b64encode_str (sha256 raw_body) ;;
         value_eq (payload_get "request_body_sha256" payload) body_hash)
        (fun _ => ret false)
  | _, _ => ret false
  end.


End WithJwt.

End Fusionauth.

(** ** The HMAC schemes without timestamp, as one family *)

Module Catalog.

Inductive scheme : Type :=
| GitHub
| Shopify
| Vercel
| WooCommerce
| Cursor
| Hookdeck.

(** The signature header a sender computes over a body. *)
Definition valid_signature (s : scheme) (body : bytes) (secret : str)
  : M str :=
  match s with
  | GitHub => Github.generate_github_signature body secret
  | Shopify => Shopify.generate_shopify_signature body secret
  | Vercel => Vercel.generate_vercel_signature body secret
  | WooCommerce => Woocommerce.generate_test_signature body secret
  | Cursor => Cursor.generate_signature body secret
  | Hookdeck => Hookdeck.generate_hookdeck_signature body secret
  end.

Definition verify (s : scheme) (body : bytes) (signature : str) (secret : str)
  : M bool :=
  match s with
  | GitHub =>
      Github.verify_github_webhook body (Some signature) (Some secret)
  | Shopify =>
      Shopify.verify_shopify_webhook body (Some signature) (Some secret)
  | Vercel => Vercel.verify_signature body signature secret
  | WooCommerce =>
      Woocommerce.verify_woocommerce_webhook body (Some signature)
        (Some secret)
  | Cursor => Cursor.verify_cursor_webhook body (Some signature) (Some secret)
  | Hookdeck =>
      Hookdeck.verify_hookdeck_signature body (Some signature) (Some secret)
  end.

(** The emptiness guards each routine applies to its own arguments before
    it computes anything. *)
Definition guards (s : scheme) (body : bytes) (secret : str) : bool :=
  match s with
  | GitHub | Shopify => true
  | Vercel | Cursor | Hookdeck => nonempty secret
  | WooCommerce => nonempty secret && nonempty body
  end.


(** *** The HMAC schemes with a timestamp *)







End Catalog.

(** ** Concrete requests used in the examples *)

Module Examples.

(** The body [{"id":"evt_1"}] and the secret [s3cr3t]. *)
Definition evt_body : bytes :=
  [123; 34; 105; 100; 34; 58; 34; 101; 118; 116; 95; 49; 34; 125].

Definition evt_secret : str := lit "s3cr3t".

Definition evt_digest : str :=
  lit "93b398b9ca62b21fe8c9a04b5fc3cb0b63f6bfa54334900bbc11785aef08f27d".


(** A request to OpenClaw with a valid bearer token, without and with the
    same token in the query string. *)
Definition claw_secret : str := lit "test-secret-token".


Definition claw_request_with_query : Request :=
  {| headers := [("authorization"%string, lit "Bearer test-secret-token")];
     query := [("token"%string, claw_secret)];
     body := evt_body |}.

(** A request to Postmark with the token in the query string. *)
Definition postmark_token : str := lit "test-postmark-token".

Definition postmark_request : Request :=
  {| headers := [];
     query := [("token"%string, postmark_token)];
     body := evt_body |}.

(** A request without any credential. *)
Definition bare_request : Request :=
  {| headers := []; query := []; body := evt_body |}.

(** A request to GitLab that carries a token. *)
Definition gitlab_request : Request :=
  {| headers := [("x-gitlab-token"%string, lit "test_gitlab_webhook_token")];
     query := [];
     body := evt_body |}.

(** Svix: the secret [whsec_] followed by the base64 of [test_secret], and
    a request to Clerk signed for the timestamp 2000. *)
Definition svix_secret : str := lit "whsec_dGVzdF9zZWNyZXQ=".

Definition svix_signature_2000 : str :=
  lit "v1,YManpYnsg9IONQc5atQTBakGNmcMpSp31QuS6l4dnTo=".

Definition clerk_request_2000 : Request :=
  {| headers := [("svix-id"%string, lit "msg_1");
                 ("svix-timestamp"%string, lit "2000");
                 ("svix-signature"%string, svix_signature_2000)];
     query := [];
     body := evt_body |}.

(** The same request with a candidate that has no comma before the valid
    one. *)
Definition clerk_request_garbage_first : Request :=
  {| headers := [("svix-id"%string, lit "msg_1");
                 ("svix-timestamp"%string, lit "2000");
                 ("svix-signature"%string,
                  lit "garbage " ++ svix_signature_2000)];
     query := [];
     body := evt_body |}.

(** A request to Paddle signed with [s3cr3t] for the timestamp 1. *)
Definition paddle_digest_1 : str :=
  lit "7be26929f3b322b1547841cfd519d5afffa037b13833f77445dcb3496e6c3446".

Definition paddle_request_1 : Request :=
  {| headers := [("paddle-signature"%string,
                  lit "ts=1;h1=" ++ paddle_digest_1)];
     query := [];
     body := evt_body |}.


(** A stand-in for [jwt.decode] that accepts the token [token] under every
    key, with the hash of [evt_body] as its claim. *)
Definition toy_jwt_decode (token key : str) (algorithms : list string)
  : outcome (list (string * Fusionauth.value)) :=
  if str_eqb token (lit "token")
  then Return [("request_body_sha256"%string,
                Fusionauth.Str (b64encode (sha256 evt_body)))]
  else Raise InvalidTokenError.

End Examples.

(** * Payloads: what the handlers do once the request is verified *)

(** ** The values [json.loads] returns, and the operations on them *)

Module Json.

#[local] Set Warnings "-register-all".

(** [None], [bool], [int], [float] (the 64 bits of the double), [str],
    [list] and [dict] with [str] keys (the first binding of a key is the
    one the dictionary holds). *)
Inductive value : Type :=
| Null
| Bool (b : bool)
| Int (z : Z)
| Float (bits : N)
| String (s : str)
| Array (items : list value)
| Object (members : list (str * value)).

(** The exceptions met while a payload is read: those of the verification
    layer, and two more. *)
Inductive error : Type :=
| JSONDecodeError
| KeyError
| Builtin (e : exn).

Inductive res (A : Type) : Type :=
| Ok (a : A)
| Err (e : error).
Arguments Ok {A} a.
Arguments Err {A} e.

Definition and_then {A B} (m : res A) (k : A -> res B) : res B :=
  match m with
  | Ok a => k a
  | Err e => Err e
  end.

Declare Scope json_scope.
Delimit Scope json_scope with json.
Notation "x <- m ;; k" := (and_then m (fun x => k))
  (at level 61, m at next level, right associativity) : json_scope.
Local Open Scope json_scope.

Definition of_outcome {A} (o : outcome A) : res A :=
  match o with
  | Return a => Ok a
  | Raise e => Err (Builtin e)
  end.

(** The part of a handler that verifies the request, run first. *)
Definition verified (h : handler) : res unit := of_outcome (result h).

Definition http_error {A} (status_code : N) : res A :=
  Err (Builtin (HTTPException status_code)).

(** The status FastAPI answers with when the handler raised, [None] when it
    reached its [return]. *)
Definition status {A} (r : res A) : option N :=
  match r with
  | Ok _ => None
  | Err (Builtin (HTTPException c)) => Some c
  | Err _ => Some 500
  end.

(** [bool(v)]: zero, the two float zeros and empty containers are false. *)
Definition truth (v : value) : bool :=
  match v with
  | Null => false
  | Bool b => b
  | Int z => negb (z =? 0)%Z
  | Float bits => negb (bits mod 2 ^ 63 =? 0)
  | String s => nonempty s
  | Array items => match items with [] => false | _ => true end
  | Object members => match members with [] => false | _ => true end
  end.

(** [v == "..."]: only a [str] equals a [str]. *)
Definition eq_str (v : value) (s : string) : bool :=
  match v with
  | String s' => str_eqb s' (lit s)
  | _ => false
  end.

Fixpoint member (k : str) (members : list (str * value)) : option value :=
  match members with
  | [] => None
  | (k', v) :: rest => if str_eqb k' k then Some v else member k rest
  end.

(** What a [dict] gives for a key, [default] when it has no such key. *)
Definition field (k : string) (default : value)
  (members : list (str * value)) : value :=
  match member (lit k) members with
  | Some x => x
  | None => default
  end.

(** [v.get(k, default)]: only a [dict] has the method. *)
Definition get_default (k : string) (default : value) (v : value)
  : res value :=
  match v with
  | Object members => Ok (field k default members)
  | _ => Err (Builtin AttributeError)
  end.

(** [v.get(k)]. *)
Definition get (k : string) (v : value) : res value := get_default k Null v.

(** [v[k]] for a [str] key. *)
Definition getitem (k : string) (v : value) : res value :=
  match v with
  | Object members =>
      match member (lit k) members with
      | Some x => Ok x
      | None => Err KeyError
      end
  | _ => Err (Builtin TypeError)
  end.

(** [p in s] for two [str]. *)
Fixpoint infix (p s : str) : bool :=
  startswith p s
  || match s with
     | [] => false
     | _ :: r => infix p r
     end.

(** [k in v] for a [str] [k]: a key of a [dict], an element of a [list], a
    part of a [str]. *)
Definition contains (k : string) (v : value) : res bool :=
  match v with
  | Object members =>
      Ok match member (lit k) members with Some _ => true | None => false end
  | Array items => Ok (existsb (fun x => eq_str x k) items)
  | String s => Ok (infix (lit k) s)
  | _ => Err (Builtin TypeError)
  end.

(** [v[:n]]. *)
Definition slice_to (n : nat) (v : value) : res value :=
  match v with
  | String s => Ok (String (firstn n s))
  | Array items => Ok (Array (firstn n items))
  | _ => Err (Builtin TypeError)
  end.

(** [len(v)]. *)
Definition len (v : value) : res nat :=
  match v with
  | String s => Ok (length s)
  | Array items => Ok (length items)
  | Object members =>
      Ok (length (nodup (list_eq_dec N.eq_dec) (map fst members)))
  | _ => Err (Builtin TypeError)
  end.

(** [v.replace(old, new)]: only a [str] has the method. *)
Definition replace (old new : string) (v : value) : res value :=
  match v with
  | String s => Ok (String (Py.replace (lit old) (lit new) s))
  | _ => Err (Builtin AttributeError)
  end.

(** An [Optional[str]] as a value. *)
Definition of_option (o : option str) : value :=
  match o with
  | Some s => String s
  | None => Null
  end.

(** [a or b]. *)
Definition or_else (a b : value) : value := if truth a then a else b.

Definition is_object (v : value) : bool :=
  match v with
  | Object _ => true
  | _ => false
  end.

(** A computation that, when it fails, fails with AttributeError or
    TypeError. *)
Definition attribute_or_type_error {A} (r : res A) : Prop :=
  match r with
  | Ok _ => True
  | Err (Builtin AttributeError) => True
  | Err (Builtin TypeError) => True
  | Err _ => False
  end.

End Json.

(** ** Cursor: the whole handler *)

Module CursorHandler.
Import Json.
Local Open Scope json_scope.

Section WithJson.

(** [json.loads] on a [str]. *)
Variable json_loads : str -> res value.

(** The calls of [logger] evaluate their arguments and have no other effect
    on the answer. *)
Definition handle_cursor_webhook (secret : option str) (request : Request)
  : res value :=
  let x_webhook_event := header "x-webhook-event" request in
  _ <- verified (Cursor.handle_cursor_webhook secret request) ;;
  let body := body request in
  text <- of_outcome (decode body) ;;
  payload <- match json_loads text with
             | Err JSONDecodeError => http_error 400
             | loaded => loaded
             end ;;
  _ <- (if eq_str (of_option x_webhook_event) "statusChange" then
          agent_id <- get "id" payload ;;
          status <- get "status" payload ;;
          timestamp <- get "timestamp" payload ;;
          has_source <- contains "source" payload ;;
          _ <- (if (has_source : bool) then
                  source <- getitem "source" payload ;;
                  _ <- get "repository" source ;;
                  source <- getitem "source" payload ;;
                  _ <- get "ref" source ;;
                  Ok tt
                else Ok tt) ;;
          has_target <- contains "target" payload ;;
          _ <- (if (has_target : bool) then
                  target <- getitem "target" payload ;;
                  _ <- get "url" target ;;
                  target <- getitem "target" payload ;;
                  _ <- get "branchName" target ;;
                  target <- getitem "target" payload ;;
                  has_pr_url <- contains "prUrl" target ;;
                  if (has_pr_url : bool) then
                    target <- getitem "target" payload ;;
                    _ <- getitem "prUrl" target ;;
                    Ok tt
                  else Ok tt
                else Ok tt) ;;
          if eq_str status "FINISHED" then
            _ <- get "summary" payload ;; Ok tt
          else Ok tt
        else Ok tt) ;;
  Ok (Object [(lit "received", Bool true)]).

End WithJson.

End CursorHandler.

(** ** GitLab: the whole handler, up to the content of its response *)

Module GitlabHandler.
Import Json.
Local Open Scope json_scope.

Section WithJson.

(** [request.json()]: [json.loads] on the bytes of the body. *)
Variable request_json : bytes -> res value.

(** [JSONResponse(content=...)] of Starlette renders its content when it is
    built ([json.dumps] with [allow_nan=False], then UTF-8): the body of the
    response, or the exception of the rendering (ValueError for a float
    that JSON cannot express, UnicodeEncodeError for a lone surrogate). *)
Variable JSONResponse : value -> res bytes.

(** The handler up to the dictionary it gives to [JSONResponse]. *)
Definition response_content (env_token : option str) (request : Request)
  : res value :=
  let x_gitlab_event := header "x-gitlab-event" request in
  _ <- verified (Gitlab.handle_gitlab_webhook env_token request) ;;
  payload <- match request_json (body request) with
             | Err _ => http_error 400
             | loaded => loaded
             end ;;
  object_kind <- get "object_kind" payload ;;
  project <- get_default "project" (Object []) payload ;;
  user_name <- get "user_name" payload ;;
  _ <- (if eq_str object_kind "push" then
          ref <- get_default "ref" (String []) payload ;;
          branch <- replace "refs/heads/" "" ref ;;
          before <- (v <- get_default "before" (String []) payload ;;
                     slice_to 8 v) ;;
          after <- (v <- get_default "after" (String []) payload ;;
                    slice_to 8 v) ;;
          total_commits <- get_default "total_commits_count" (Int 0) payload ;;
          Ok tt
        else if eq_str object_kind "tag_push" then
          ref <- get_default "ref" (String []) payload ;;
          tag <- replace "refs/tags/" "" ref ;;
          before <- get_default "before" (String []) payload ;;
          Ok tt
        else if eq_str object_kind "merge_request" then
          attrs <- get_default "object_attributes" (Object []) payload ;;
          iid <- get "iid" attrs ;;
          title <- get "title" attrs ;;
          state <- get "state" attrs ;;
          action <- get "action" attrs ;;
          source_branch <- get "source_branch" attrs ;;
          target_branch <- get "target_branch" attrs ;;
          Ok tt
        else if eq_str object_kind "issue" || eq_str object_kind "work_item"
        then
          attrs <- get_default "object_attributes" (Object []) payload ;;
          iid <- get "iid" attrs ;;
          title <- get "title" attrs ;;
          state <- get "state" attrs ;;
          action <- get "action" attrs ;;
          Ok tt
        else if eq_str object_kind "note" then
          attrs <- get_default "object_attributes" (Object []) payload ;;
          note <- (v <- get_default "note" (String []) attrs ;;
                   slice_to 50 v) ;;
          merge_request <- get "merge_request" payload ;;
          issue <- get "issue" payload ;;
          commit <- get "commit" payload ;;
          _ <- (if truth merge_request then
                  _ <- get "iid" merge_request ;; Ok tt
                else if truth issue then
                  _ <- get "iid" issue ;; Ok tt
                else if truth commit then
                  v <- get_default "id" (String []) commit ;;
                  _ <- slice_to 8 v ;; Ok tt
                else Ok tt) ;;
          _ <- (v <- get_default "note" (String []) attrs ;; len v) ;;
          Ok tt
        else if eq_str object_kind "pipeline" then
          attrs <- get_default "object_attributes" (Object []) payload ;;
          id <- get "id" attrs ;;
          ref <- get "ref" attrs ;;
          status <- get "status" attrs ;;
          duration <- get "duration" attrs ;;
          Ok tt
        else if eq_str object_kind "build" then
          build_name <- get "build_name" payload ;;
          build_stage <- get "build_stage" payload ;;
          build_status <- get "build_status" payload ;;
          build_duration <- get "build_duration" payload ;;
          Ok tt
        else if eq_str object_kind "wiki_page" then
          attrs <- get_default "object_attributes" (Object []) payload ;;
          title <- get "title" attrs ;;
          action <- get "action" attrs ;;
          slug <- get "slug" attrs ;;
          Ok tt
        else if eq_str object_kind "deployment" then
          status <- get "status" payload ;;
          environment <- get "environment" payload ;;
          deployable_url <- get "deployable_url" payload ;;
          Ok tt
        else if eq_str object_kind "release" then
          action <- get "action" payload ;;
          name <- get "name" payload ;;
          tag <- get "tag" payload ;;
          description <- get_default "description" (String []) payload ;;
          if truth description then
            desc_preview <- slice_to 100 description ;;
            _ <- len description ;;
            Ok tt
          else Ok tt
        else
          _ <- get "name" project ;;
          _ <- get "path_with_namespace" project ;;
          Ok tt) ;;
  path_with_namespace <- get "path_with_namespace" project ;;
  Ok (Object [(lit "received", Bool true);
              (lit "event", or_else object_kind (of_option x_gitlab_event));
              (lit "project", path_with_namespace)]).

(** The whole handler: its value is the body of the response. *)
Definition handle_gitlab_webhook (env_token : option str) (request : Request)
  : res bytes :=
  content <- response_content env_token request ;;
  JSONResponse content.

End WithJson.

End GitlabHandler.

(** ** Postmark: the whole handler *)

Module PostmarkHandler.
Import Json.
Local Open Scope json_scope.

Section WithJson.

(** [request.json()]. *)
Variable request_json : bytes -> res value.

(** The pydantic model of a record type applied to the body, followed by
    the handler of that record type. *)
Variable process : string -> value -> res unit.

(** The routing is inside [try ... except Exception], which only logs. *)
Definition handle_webhook (POSTMARK_WEBHOOK_TOKEN : str) (request : Request)
  : res value :=
  _ <- verified (Postmark.handle_webhook POSTMARK_WEBHOOK_TOKEN request) ;;
  body <- match request_json (body request) with
          | Err _ => http_error 400
          | loaded => loaded
          end ;;
  record_type_given <- get "RecordType" body ;;
  invalid <- (if negb (truth record_type_given) then Ok true
              else
                message_id_given <- get "MessageID" body ;;
                Ok (negb (truth message_id_given))) ;;
  if (invalid : bool) then http_error 400
  else
    record_type <- getitem "RecordType" body ;;
    message_id <- getitem "MessageID" body ;;
    _ <- match
           (if eq_str record_type "Bounce" then process "Bounce" body
            else if eq_str record_type "SpamComplaint"
            then process "SpamComplaint" body
            else if eq_str record_type "Open" then process "Open" body
            else if eq_str record_type "Click" then process "Click" body
            else if eq_str record_type "Delivery"
            then process "Delivery" body
            else if eq_str record_type "SubscriptionChange"
            then process "SubscriptionChange" body
            else Ok tt)
         with
         | Err _ => Ok tt
         | done => done
         end ;;
    Ok (Object [(lit "received", Bool true)]).

End WithJson.

End PostmarkHandler.

(** ** ElevenLabs: the whole handler *)

Module ElevenlabsHandler.
Import Json.
Local Open Scope json_scope.

(** [except ValueError]: JSONDecodeError is a ValueError, KeyError is
    not. *)
Definition is_ValueError (e : error) : bool :=
  match e with
  | JSONDecodeError => true
  | KeyError => false
  | Builtin e' => Py.is_ValueError e'
  end.

Section WithJson.

(** [json.loads] on [bytes]. *)
Variable json_loads : bytes -> res value.

(** The verification and the processing are inside one [try]: a ValueError
    becomes a 400, any other exception a 500. *)
Definition elevenlabs_webhook (now : Z) (WEBHOOK_SECRET : str)
  (request : Request) : res value :=
  match header "elevenlabs-signature" request with
  | Some ((_ :: _) as elevenlabs_signature) =>
      let raw_body := body request in
      match
        (_ <- of_outcome
                (result (Elevenlabs.verify_elevenlabs_webhook now raw_body
                           (Some elevenlabs_signature) WEBHOOK_SECRET)) ;;
         event <- json_loads raw_body ;;
         _ <- getitem "type" event ;;
         type <- getitem "type" event ;;
         _ <- (if eq_str type "post_call_transcription" then
                 data <- getitem "data" event ;;
                 _ <- get "call_id" data ;;
                 Ok tt
               else
                 type <- getitem "type" event ;;
                 if eq_str type "post_call_audio" then
                   data <- getitem "data" event ;;
                   _ <- get "call_id" data ;;
                   Ok tt
                 else
                   type <- getitem "type" event ;;
                   if eq_str type "call_initiation_failure" then
                     _ <- getitem "data" event ;;
                     Ok tt
                   else
                     _ <- getitem "type" event ;;
                     Ok tt) ;;
         Ok (Object [(lit "status", String (lit "ok"))]))
      with
      | Err e => if is_ValueError e then http_error 400 else http_error 500
      | done => done
      end
  | _ => http_error 400
  end.

End WithJson.

End ElevenlabsHandler.

(** ** More concrete requests and payloads *)

Module MoreExamples.

(** A valid bearer token next to another token in the custom header. *)
Definition claw_request_two_tokens : Request :=
  {| headers := [("authorization"%string, lit "Bearer test-secret-token");
                 ("x-openclaw-token"%string, lit "other")];
     query := [];
     body := Examples.evt_body |}.

(** A signature header that holds the one character U+00E9. *)
Definition github_request_latin1 : Request :=
  {| headers := [("x-hub-signature-256"%string, [233])];
     query := [];
     body := Examples.evt_body |}.

Definition gitlab_request_latin1 : Request :=
  {| headers := [("x-gitlab-token"%string, [233])];
     query := [];
     body := Examples.evt_body |}.

(** A body that is not UTF-8. *)
Definition request_not_utf8 : Request :=
  {| headers := []; query := []; body := [255] |}.

(** Requests to Cursor signed with [s3cr3t], for a given event. *)
Definition cursor_request (event : str) : Request :=
  {| headers := [("x-webhook-signature"%string,
                  lit "sha256=" ++ Examples.evt_digest);
                 ("x-webhook-event"%string, event)];
     query := [];
     body := Examples.evt_body |}.

(** A request to ElevenLabs signed with [s3cr3t] for the timestamp 2000. *)
Definition elevenlabs_request : Request :=
  {| headers := [("elevenlabs-signature"%string,
                  lit "t=2000,v0="
                  ++ hmac_hexdigest Examples.evt_secret
                       (lit "2000." ++ Examples.evt_body) hashlib_sha256)];
     query := [];
     body := Examples.evt_body |}.

(** Stand-ins for the parsers: whatever the text, the given payload. *)
Definition loads_as {A} (payload : Json.value) (text : A)
  : Json.res Json.value :=
  Json.Ok payload.

Definition loads_fails {A} (text : A) : Json.res Json.value :=
  Json.Err Json.JSONDecodeError.

(** Stand-ins for the rendering of a response: a given body whatever the
    content, and the ValueError of a content that JSON cannot express. *)
Definition renders_as (rendered : bytes) (content : Json.value)
  : Json.res bytes :=
  Json.Ok rendered.


(** A stand-in for the processing of a Postmark event that always fails. *)
Definition process_fails (record_type : string) (body : Json.value)
  : Json.res unit :=
  Json.Err (Json.Builtin ValueError).

Definition evt_payload : Json.value :=
  Json.Object [(lit "id", Json.String (lit "evt_1"))].

Definition status_change_payload : Json.value :=
  Json.Object
    [(lit "id", Json.String (lit "agent_1"));
     (lit "status", Json.String (lit "FINISHED"));
     (lit "source", Json.String (lit "github.com/acme/app"))].


Definition build_payload : Json.value :=
  Json.Object
    [(lit "object_kind", Json.String (lit "build"));
     (lit "project",
      Json.Object
        [(lit "path_with_namespace", Json.String (lit "acme/app"))])].

Definition bounce_payload : Json.value :=
  Json.Object
    [(lit "RecordType", Json.String (lit "Bounce"));
     (lit "MessageID", Json.String (lit "m-1"))].

Definition call_payload : Json.value :=
  Json.Object
    [(lit "type", Json.String (lit "post_call_transcription"));
     (lit "data", Json.String (lit "call_1"))].

End MoreExamples.

(** * Facts about the library model *)

Ltac divmod := zify; Z.to_euclidean_division_equations; lia.

(** ** The monad *)

Lemma bind_ret {A B} (a : A) (k : A -> M B) : bind (ret a) k = k a.
Proof. unfold bind, ret. destruct (k a). reflexivity. Qed.

Lemma bind_lift_Return {A B} (a : A) (k : A -> M B) :
  bind (lift (Return a)) k = k a.
Proof. apply bind_ret. Qed.

Lemma bind_lift_Raise {A B} (e : exn) (k : A -> M B) :
  bind (lift (Raise e)) k = raise e.
Proof. reflexivity. Qed.

Lemma bind_raise {A B} (e : exn) (k : A -> M B) : bind (raise e) k = raise e.
Proof. reflexivity. Qed.

Lemma result_bind {A B} (m : M A) (k : A -> M B) :
  result (bind m k) =
  match result m with
  | Return a => result (k a)
  | Raise e => Raise e
  end.
Proof.
  destruct m as [l [a|e]]; cbn; [destruct (k a)|]; reflexivity.
Qed.

Lemma comparisons_bind {A B} (m : M A) (k : A -> M B) :
  comparisons (bind m k) =
  match result m with
  | Return a => comparisons m ++ comparisons (k a)
  | Raise e => comparisons m
  end.
Proof.
  destruct m as [l [a|e]]; cbn; [destruct (k a)|]; reflexivity.
Qed.

Lemma result_catch {A} sel (m : M A) h :
  result (catch sel m h) =
  match result m with
  | Return a => Return a
  | Raise e => if sel e then result (h e) else Raise e
  end.
Proof.
  destruct m as [l [a|e]]; cbn; [reflexivity|].
  destruct (sel e); [destruct (h e)|]; reflexivity.
Qed.

(** ** Strings *)

Lemma str_eqb_refl s : str_eqb s s = true.
Proof. unfold str_eqb. destruct (list_eq_dec N.eq_dec s s); congruence. Qed.

Lemma str_eqb_eq a b : str_eqb a b = true <-> a = b.
Proof.
  unfold str_eqb. destruct (list_eq_dec N.eq_dec a b); split; congruence.
Qed.

Lemma str_eqb_neq a b : str_eqb a b = false <-> a <> b.
Proof.
  unfold str_eqb. destruct (list_eq_dec N.eq_dec a b); split; congruence.
Qed.

Lemma is_ascii_app a b : is_ascii (a ++ b) = is_ascii a && is_ascii b.
Proof. apply forallb_app. Qed.

Lemma startswith_app pre rest : startswith pre (pre ++ rest) = true.
Proof.
  induction pre as [|p pre IH]; cbn [startswith app]; [reflexivity|].
  rewrite N.eqb_refl. exact IH.
Qed.

Lemma startswith_head_neq p pre c s :
  p <> c -> startswith (p :: pre) (c :: s) = false.
Proof.
  intros H. cbn [startswith]. apply N.eqb_neq in H. rewrite H. reflexivity.
Qed.

(** [replace] leaves alone a stretch in which the first character of [old]
    does not occur. *)
Lemma replace_from_skip old new p rest :
  replace_from old new (length p) (p ++ rest) = replace_from old new 0 rest.
Proof.
  induction p as [|c p IH]; [reflexivity|]. exact IH.
Qed.

Lemma replace_keep p0 old new s rest :
  ~ In p0 s ->
  replace_from (p0 :: old) new 0 (s ++ rest) =
  s ++ replace_from (p0 :: old) new 0 rest.
Proof.
  induction s as [|c s IH]; intros Hs; [reflexivity|].
  cbn [app replace_from].
  rewrite startswith_head_neq by (intros ->; apply Hs; left; reflexivity).
  f_equal. apply IH. intros H. apply Hs. right. exact H.
Qed.

Lemma replace_drop p0 old new rest :
  replace_from (p0 :: old) new 0 ((p0 :: old) ++ rest) =
  new ++ replace_from (p0 :: old) new 0 rest.
Proof.
  cbn [app replace_from].
  change (p0 :: old ++ rest) with ((p0 :: old) ++ rest).
  rewrite startswith_app.
  replace (length (p0 :: old) - 1)%nat with (length old) by (cbn [length]; lia).
  f_equal. apply replace_from_skip.
Qed.

Lemma replace_absent p0 old new s :
  ~ In p0 s -> replace (p0 :: old) new s = s.
Proof.
  intros H. unfold replace. rewrite <- (app_nil_r s) at 1.
  rewrite replace_keep by assumption. cbn. apply app_nil_r.
Qed.

(** ** Hexadecimal digests *)

Lemma hex_digit_is_hex d : d < 16 -> is_hex_char (hex_digit d) = true.
Proof.
  intros Hd. unfold hex_digit, is_hex_char.
  destruct (d <? 10) eqn:E.
  - apply N.ltb_lt in E.
    replace (48 <=? 48 + d) with true by (symmetry; apply N.leb_le; lia).
    replace (48 + d <=? 57) with true by (symmetry; apply N.leb_le; lia).
    reflexivity.
  - apply N.ltb_ge in E.
    replace (97 <=? 87 + d) with true by (symmetry; apply N.leb_le; lia).
    replace (87 + d <=? 102) with true by (symmetry; apply N.leb_le; lia).
    apply orb_true_r.
Qed.

Lemma land15_lt x : N.land x 15 < 16.
Proof.
  change 15 with (N.ones 4). rewrite N.land_ones.
  apply N.mod_lt. discriminate.
Qed.

Lemma hex_all_hex bs : forallb is_hex_char (hex bs) = true.
Proof.
  induction bs as [|b bs IH]; [reflexivity|].
  unfold hex. cbn [flat_map]. rewrite forallb_app. fold (hex bs). rewrite IH.
  unfold hex_of_byte. cbn [forallb].
  rewrite !hex_digit_is_hex by apply land15_lt. reflexivity.
Qed.

Lemma hex_char_ascii c : is_hex_char c = true -> (c <? 128) = true.
Proof.
  unfold is_hex_char. intros H. apply N.ltb_lt.
  apply orb_prop in H as [H|H]; apply andb_prop in H as [_ H];
    apply N.leb_le in H; lia.
Qed.

Lemma forallb_impl {A} (f g : A -> bool) l :
  (forall x, f x = true -> g x = true) ->
  forallb f l = true -> forallb g l = true.
Proof.
  intros Hfg. rewrite !forallb_forall. auto.
Qed.

Lemma is_ascii_hex bs : is_ascii (hex bs) = true.
Proof.
  unfold is_ascii. apply (forallb_impl is_hex_char); [|apply hex_all_hex].
  apply hex_char_ascii.
Qed.

Lemma hex_char_not c x :
  is_hex_char x = false -> forallb is_hex_char c = true -> ~ In x c.
Proof.
  intros Hx Hc Hin. rewrite forallb_forall in Hc. apply Hc in Hin. congruence.
Qed.

Lemma hex_no_s bs : ~ In 115 (hex bs).
Proof. apply (hex_char_not _ 115); [reflexivity|apply hex_all_hex]. Qed.

Lemma hex_no_equals bs : ~ In 61 (hex bs).
Proof. apply (hex_char_not _ 61); [reflexivity|apply hex_all_hex]. Qed.

(** ** Comparisons *)

Lemma compare_digest_ascii a b :
  is_ascii a = true -> is_ascii b = true ->
  compare_digest a b = ([ConstantTime], Return (str_eqb a b)).
Proof. intros Ha Hb. unfold compare_digest. rewrite Ha, Hb. reflexivity. Qed.

Lemma compare_digest_same a :
  is_ascii a = true -> compare_digest a a = ([ConstantTime], Return true).
Proof.
  intros Ha. rewrite compare_digest_ascii, str_eqb_refl by assumption.
  reflexivity.
Qed.

Lemma compare_digest_result a b v :
  result (compare_digest a b) = Return v -> v = str_eqb a b.
Proof.
  unfold compare_digest. destruct (is_ascii a && is_ascii b); cbn; congruence.
Qed.

Lemma compare_digest_true a b :
  result (compare_digest a b) = Return true <-> (a = b /\ is_ascii a = true).
Proof.
  unfold compare_digest. split.
  - destruct (is_ascii a && is_ascii b) eqn:E; cbn; [|discriminate].
    intros [= H]. apply str_eqb_eq in H. apply andb_prop in E as [E _]. auto.
  - intros [<- Ha]. rewrite Ha. cbn. rewrite str_eqb_refl. reflexivity.
Qed.

Lemma compare_digest_constant_time a b :
  Forall (eq ConstantTime) (comparisons (compare_digest a b)).
Proof.
  unfold compare_digest. destruct (is_ascii a && is_ascii b); cbn; auto.
Qed.

(** ** UTF-8 *)

Ltac test_true t := replace t with true by (symmetry; first [apply N.ltb_lt | apply N.leb_le | apply N.eqb_eq]; divmod).
Ltac test_false t := replace t with false by (symmetry; first [apply N.ltb_ge | apply N.leb_gt | apply N.eqb_neq]; divmod).
Ltac settle_tests :=
  repeat match goal with
  | |- context [N.ltb ?a ?b] => first [test_true (N.ltb a b) | test_false (N.ltb a b)]
  | |- context [N.leb ?a ?b] => first [test_true (N.leb a b) | test_false (N.leb a b)]
  | |- context [N.eqb ?a ?b] => first [test_true (N.eqb a b) | test_false (N.eqb a b)]
  end.

Lemma decode_cons b0 r0 :
  decode (b0 :: r0) =
      if b0 <? 0x80 then cons_out b0 (decode r0)
      else if (0xC2 <=? b0) && (b0 <=? 0xDF) then
        match r0 with
        | b1 :: r1 =>
            if is_cont b1
            then cons_out ((b0 - 0xC0) * 64 + (b1 - 0x80)) (decode r1)
            else Raise UnicodeDecodeError
        | _ => Raise UnicodeDecodeError
        end
      else if (0xE0 <=? b0) && (b0 <=? 0xEF) then
        match r0 with
        | b1 :: b2 :: r2 =>
            let c := (b0 - 0xE0) * 4096 + (b1 - 0x80) * 64 + (b2 - 0x80) in
            if is_cont b1 && is_cont b2 && (0x800 <=? c) && negb (is_surrogate c)
            then cons_out c (decode r2)
            else Raise UnicodeDecodeError
        | _ => Raise UnicodeDecodeError
        end
      else if (0xF0 <=? b0) && (b0 <=? 0xF4) then
        match r0 with
        | b1 :: b2 :: b3 :: r3 =>
            let c := (b0 - 0xF0) * 262144 + (b1 - 0x80) * 4096
                     + (b2 - 0x80) * 64 + (b3 - 0x80) in
            if is_cont b1 && is_cont b2 && is_cont b3
               && (0x10000 <=? c) && (c <=? 0x10FFFF)
            then cons_out c (decode r3)
            else Raise UnicodeDecodeError
        | _ => Raise UnicodeDecodeError
        end
      else Raise UnicodeDecodeError.
Proof. reflexivity. Qed.

Lemma some_inj {A} (a b : A) : Some a = Some b -> a = b.
Proof. congruence. Qed.

Lemma decode_encode_char c bs rest :
  encode_char c = Some bs -> decode (bs ++ rest) = cons_out c (decode rest).
Proof.
  unfold encode_char.
  destruct (c <? 0x80) eqn:H1.
  { intros E; apply some_inj in E; subst bs. cbn [app]. rewrite decode_cons, H1. reflexivity. }
  apply N.ltb_ge in H1.
  destruct (c <? 0x800) eqn:H2.
  { apply N.ltb_lt in H2. intros E; apply some_inj in E; subst bs. cbn [app]. rewrite decode_cons.
    unfold is_cont. settle_tests. cbn [andb].
    f_equal. divmod. }
  apply N.ltb_ge in H2.
  destruct (c <? 0x10000) eqn:H3.
  { apply N.ltb_lt in H3. destruct (is_surrogate c) eqn:Hs; [discriminate|].
    intros E; apply some_inj in E; subst bs. cbn [app]. rewrite decode_cons.
    unfold is_cont. settle_tests. cbn [andb]. cbv zeta.
    replace ((224 + c / 4096 - 224) * 4096 + (128 + (c / 64) mod 64 - 128) * 64 + (128 + c mod 64 - 128)) with c by divmod.
    rewrite Hs. settle_tests. reflexivity. }
  apply N.ltb_ge in H3.
  destruct (c <=? 0x10FFFF) eqn:H4; [|discriminate].
  apply N.leb_le in H4. intros E; apply some_inj in E; subst bs. cbn [app]. rewrite decode_cons.
  unfold is_cont. settle_tests. cbn [andb]. cbv zeta.
  replace ((240 + c / 262144 - 240) * 262144 + (128 + (c / 4096) mod 64 - 128) * 4096 + (128 + (c / 64) mod 64 - 128) * 64 + (128 + c mod 64 - 128)) with c by divmod.
  settle_tests. reflexivity.
Qed.

(** ** base64 *)

Lemma list_ind3 {A} (P : list A -> Prop) :
  P [] -> (forall a, P [a]) -> (forall a b, P [a; b]) ->
  (forall a b c r, P r -> P (a :: b :: c :: r)) ->
  forall l, P l.
Proof.
  intros H0 H1 H2 H3.
  fix IH 1. intros [|a [|b [|c r]]].
  - exact H0.
  - apply H1.
  - apply H2.
  - apply H3, IH.
Qed.

Lemma b64_value_char i : i < 64 -> b64_value (b64_char i) = Some i.
Proof.
  intros Hi. unfold b64_char, b64_value.
  destruct (i <? 26) eqn:E1.
  { apply N.ltb_lt in E1.
    replace (65 <=? 65 + i) with true by (symmetry; apply N.leb_le; lia).
    replace (65 + i <=? 90) with true by (symmetry; apply N.leb_le; lia).
    cbn [andb]. f_equal. lia. }
  apply N.ltb_ge in E1.
  destruct (i <? 52) eqn:E2.
  { apply N.ltb_lt in E2.
    replace (71 + i <=? 90) with false by (symmetry; apply N.leb_gt; lia).
    rewrite andb_false_r.
    replace (97 <=? 71 + i) with true by (symmetry; apply N.leb_le; lia).
    replace (71 + i <=? 122) with true by (symmetry; apply N.leb_le; lia).
    cbn [andb]. f_equal. lia. }
  apply N.ltb_ge in E2.
  destruct (i <? 62) eqn:E3.
  { apply N.ltb_lt in E3.
    replace (65 <=? i - 4) with false by (symmetry; apply N.leb_gt; lia).
    replace (97 <=? i - 4) with false by (symmetry; apply N.leb_gt; lia).
    cbn [andb].
    replace (48 <=? i - 4) with true by (symmetry; apply N.leb_le; lia).
    replace (i - 4 <=? 57) with true by (symmetry; apply N.leb_le; lia).
    cbn [andb]. f_equal. lia. }
  apply N.ltb_ge in E3.
  destruct (i =? 62) eqn:E4.
  { apply N.eqb_eq in E4. subst i. reflexivity. }
  apply N.eqb_neq in E4. assert (i = 63) by lia. subst i. reflexivity.
Qed.

Lemma b64_char_not_pad i : (b64_char i =? b64_pad) = false.
Proof.
  unfold b64_char, b64_pad. apply N.eqb_neq.
  destruct (i <? 26) eqn:E1; [apply N.ltb_lt in E1; lia|].
  destruct (i <? 52) eqn:E2; [apply N.ltb_lt in E2; lia|].
  destruct (i <? 62) eqn:E3; [apply N.ltb_lt in E3; lia|].
  destruct (i =? 62); lia.
Qed.

Lemma b64_char_ascii i : (b64_char i <? 128) = true.
Proof.
  unfold b64_char. apply N.ltb_lt.
  destruct (i <? 26) eqn:E1; [apply N.ltb_lt in E1; lia|].
  destruct (i <? 52) eqn:E2; [apply N.ltb_lt in E2; lia|].
  destruct (i <? 62) eqn:E3; [apply N.ltb_lt in E3; lia|].
  destruct (i =? 62); lia.
Qed.

Lemma a2b_cons ch rest quad_pos leftchar pads :
  a2b_base64 (ch :: rest) quad_pos leftchar pads =
      if ch =? b64_pad then
        if 2 <=? quad_pos then
          if 4 <=? quad_pos + (pads + 1) then Return []
          else a2b_base64 rest quad_pos leftchar (pads + 1)
        else a2b_base64 rest quad_pos leftchar pads
      else
        match b64_value ch with
        | None => a2b_base64 rest quad_pos leftchar pads
        | Some v =>
            if quad_pos =? 0 then a2b_base64 rest 1 v 0
            else if quad_pos =? 1 then
              cons_out (leftchar * 4 + v / 16) (a2b_base64 rest 2 (v mod 16) 0)
            else if quad_pos =? 2 then
              cons_out (leftchar * 16 + v / 4) (a2b_base64 rest 3 (v mod 4) 0)
            else cons_out (leftchar * 64 + v) (a2b_base64 rest 0 0 0)
        end.
Proof. reflexivity. Qed.

Lemma a2b_data0 i rest l p :
  i < 64 -> a2b_base64 (b64_char i :: rest) 0 l p = a2b_base64 rest 1 i 0.
Proof.
  intros Hi. rewrite a2b_cons, b64_char_not_pad, b64_value_char by assumption.
  reflexivity.
Qed.

Lemma a2b_data1 i rest l p :
  i < 64 ->
  a2b_base64 (b64_char i :: rest) 1 l p =
  cons_out (l * 4 + i / 16) (a2b_base64 rest 2 (i mod 16) 0).
Proof.
  intros Hi. rewrite a2b_cons, b64_char_not_pad, b64_value_char by assumption.
  reflexivity.
Qed.

Lemma a2b_data2 i rest l p :
  i < 64 ->
  a2b_base64 (b64_char i :: rest) 2 l p =
  cons_out (l * 16 + i / 4) (a2b_base64 rest 3 (i mod 4) 0).
Proof.
  intros Hi. rewrite a2b_cons, b64_char_not_pad, b64_value_char by assumption.
  reflexivity.
Qed.

Lemma a2b_data3 i rest l p :
  i < 64 ->
  a2b_base64 (b64_char i :: rest) 3 l p =
  cons_out (l * 64 + i) (a2b_base64 rest 0 0 0).
Proof.
  intros Hi. rewrite a2b_cons, b64_char_not_pad, b64_value_char by assumption.
  reflexivity.
Qed.

Lemma a2b_pad2 rest l :
  a2b_base64 (b64_pad :: b64_pad :: rest) 2 l 0 = Return [].
Proof. reflexivity. Qed.

Lemma a2b_pad3 rest l : a2b_base64 (b64_pad :: rest) 3 l 0 = Return [].
Proof. reflexivity. Qed.

Lemma wf_bytes_cons b bs : wf_bytes (b :: bs) = true -> b < 256 /\ wf_bytes bs = true.
Proof.
  unfold wf_bytes. cbn [forallb]. intros H. apply andb_prop in H as [H1 H2].
  split; [apply N.ltb_lt; exact H1 | exact H2].
Qed.

Lemma a2b_b64encode bs :
  wf_bytes bs = true -> forall l p, a2b_base64 (b64encode bs) 0 l p = Return bs.
Proof.
  induction bs as [|a|a b|a b c r IH] using list_ind3; intros Hwf l p.
  - reflexivity.
  - apply wf_bytes_cons in Hwf as [Ha _].
    cbn [b64encode].
    rewrite a2b_data0 by divmod. rewrite a2b_data1 by divmod.
    rewrite a2b_pad2.
    cbv [cons_out]. f_equal. f_equal. divmod.
  - apply wf_bytes_cons in Hwf as [Ha Hwf]. apply wf_bytes_cons in Hwf as [Hb _].
    cbn [b64encode].
    rewrite a2b_data0 by divmod. rewrite a2b_data1 by divmod.
    rewrite a2b_data2 by divmod.
    rewrite a2b_pad3.
    cbv [cons_out]. f_equal. f_equal; [divmod|]. f_equal. divmod.
  - apply wf_bytes_cons in Hwf as [Ha Hwf]. apply wf_bytes_cons in Hwf as [Hb Hwf].
    apply wf_bytes_cons in Hwf as [Hc Hwf].
    cbn [b64encode].
    rewrite a2b_data0 by divmod. rewrite a2b_data1 by divmod.
    rewrite a2b_data2 by divmod. rewrite a2b_data3 by divmod.
    rewrite IH by assumption.
    cbv [cons_out]. f_equal. f_equal; [divmod|]. f_equal; [divmod|]. f_equal. divmod.
Qed.

Lemma is_ascii_b64encode bs : is_ascii (b64encode bs) = true.
Proof.
  induction bs as [|a|a b|a b c r IH] using list_ind3;
    cbn [b64encode is_ascii forallb]; rewrite ?b64_char_ascii; auto.
Qed.

Lemma b64decode_b64encode bs :
  wf_bytes bs = true -> b64decode (b64encode bs) = Return bs.
Proof.
  intros H. unfold b64decode. rewrite is_ascii_b64encode. apply a2b_b64encode, H.
Qed.

(** ** Shape of the digests *)

Lemma sha256_round_length st kw : length (sha256_round st kw) = length st.
Proof.
  destruct st as [|a [|b [|c [|d [|e [|f [|g [|h [|i st]]]]]]]]]; reflexivity.
Qed.

Lemma fold_left_length {A B} (f : list A -> B -> list A) l st :
  (forall s x, length (f s x) = length s) ->
  length (fold_left f l st) = length st.
Proof.
  intros Hf. revert st. induction l as [|x l IH]; intros st; [reflexivity|].
  cbn [fold_left]. rewrite IH. apply Hf.
Qed.

Lemma sha256_compress_length st block :
  length (sha256_compress st block) = length st.
Proof.
  unfold sha256_compress. rewrite length_map, length_combine.
  rewrite fold_left_length by apply sha256_round_length. apply Nat.min_id.
Qed.

Lemma sha1_round_length st tw : length (sha1_round st tw) = length st.
Proof.
  destruct st as [|a [|b [|c [|d [|e [|f st]]]]]]; try reflexivity.
  cbn [sha1_round]. destruct (sha1_f (fst tw) b c d). reflexivity.
Qed.

Lemma sha1_compress_length st block :
  length (sha1_compress st block) = length st.
Proof.
  unfold sha1_compress. rewrite length_map, length_combine.
  rewrite fold_left_length by apply sha1_round_length. apply Nat.min_id.
Qed.

Lemma flat_map_be32_length ws :
  length (flat_map be32_bytes ws) = (4 * length ws)%nat.
Proof.
  induction ws as [|w ws IH]; [reflexivity|].
  cbn [flat_map length app be32_bytes]. rewrite IH. lia.
Qed.

Lemma sha256_length msg : length (sha256 msg) = 32%nat.
Proof.
  unfold sha256. rewrite flat_map_be32_length.
  rewrite fold_left_length by apply sha256_compress_length. reflexivity.
Qed.

Lemma sha1_length msg : length (sha1 msg) = 20%nat.
Proof.
  unfold sha1. rewrite flat_map_be32_length.
  rewrite fold_left_length by apply sha1_compress_length. reflexivity.
Qed.

Lemma land255_byte x : is_byte (N.land x 255) = true.
Proof.
  unfold is_byte. apply N.ltb_lt. change 255 with (N.ones 8).
  rewrite N.land_ones. apply N.mod_lt. discriminate.
Qed.

Lemma wf_flat_map_be32 ws : wf_bytes (flat_map be32_bytes ws) = true.
Proof.
  induction ws as [|w ws IH]; [reflexivity|].
  unfold wf_bytes in *. cbn [flat_map be32_bytes app forallb].
  rewrite !land255_byte, IH. reflexivity.
Qed.

Lemma wf_sha256 msg : wf_bytes (sha256 msg) = true.
Proof. apply wf_flat_map_be32. Qed.

Lemma wf_sha1 msg : wf_bytes (sha1 msg) = true.
Proof. apply wf_flat_map_be32. Qed.

Lemma hmac_sha256_length key msg :
  length (hmac_digest key msg hashlib_sha256) = 32%nat.
Proof. apply sha256_length. Qed.

Lemma hex_nonempty bs : bs <> [] -> hex bs <> [].
Proof. destruct bs; [congruence|discriminate]. Qed.

Lemma length_nonempty {A} (l : list A) n : length l = S n -> l <> [].
Proof. destruct l; discriminate. Qed.

Lemma hmac_sha256_hexdigest_nonempty key msg :
  hmac_hexdigest key msg hashlib_sha256 <> [].
Proof.
  apply hex_nonempty, (length_nonempty _ 31), hmac_sha256_length.
Qed.

Lemma hmac_sha1_hexdigest_nonempty key msg :
  hmac_hexdigest key msg hashlib_sha1 <> [].
Proof.
  apply hex_nonempty, (length_nonempty _ 19). apply sha1_length.
Qed.

(** ** [replace] and [join] *)

Lemma replace_join p0 old pieces :
  (forall p, In p pieces -> ~ In p0 p) ->
  replace (p0 :: old) [] (join (p0 :: old) pieces) = concat pieces.
Proof.
  induction pieces as [|x [|y rest] IH]; intros Hp.
  - reflexivity.
  - cbn [join concat]. rewrite app_nil_r. apply replace_absent, Hp. now left.
  - change (join (p0 :: old) (x :: y :: rest))
      with (x ++ (p0 :: old) ++ join (p0 :: old) (y :: rest)).
    unfold replace in *. rewrite replace_keep by (apply Hp; now left).
    rewrite replace_drop. cbn [app concat]. f_equal.
    apply IH. intros p Hin. apply Hp. now right.
Qed.

Lemma not_in_concat {A} (c : A) pieces p :
  ~ In c (concat pieces) -> In p pieces -> ~ In c p.
Proof.
  intros Hc Hp Hin. apply Hc. apply in_concat. exists p. auto.
Qed.

(** * GitHub *)

Lemma lit_sha256_prefix : lit "sha256=" = 115 :: [104; 97; 50; 53; 54; 61].
Proof. reflexivity. Qed.

Lemma github_verify_eq body h secret key :
  h <> [] -> encode secret = Return key ->
  Github.verify_github_webhook body (Some h) (Some secret) =
  compare_digest (replace (lit "sha256=") [] h)
    (hmac_hexdigest key body hashlib_sha256).
Proof.
  intros Hh Hk. destruct h as [|c r]; [congruence|].
  unfold Github.verify_github_webhook, encode_opt. rewrite Hk.
  rewrite bind_lift_Return. reflexivity.
Qed.

(** C10.  The GitHub routine deletes [sha256=] wherever it occurs: the bare
    digest is accepted, the digest with [sha256=] inserted at any places is
    accepted, and a header is accepted exactly when what [replace] leaves of
    it is the digest. *)
Theorem C10_github_prefix_removed_anywhere body secret key :
  encode secret = Return key ->
  result (Github.verify_github_webhook body
            (Some (hmac_hexdigest key body hashlib_sha256)) (Some secret))
  = Return true
  /\ (forall pieces,
        concat pieces = hmac_hexdigest key body hashlib_sha256 ->
        result (Github.verify_github_webhook body
                  (Some (join (lit "sha256=") pieces)) (Some secret))
        = Return true)
  /\ (forall h,
        result (Github.verify_github_webhook body (Some h) (Some secret))
        = Return true
        <-> replace (lit "sha256=") [] h
            = hmac_hexdigest key body hashlib_sha256).
Proof.
  intros Hk.
  assert (Hiff : forall h,
    result (Github.verify_github_webhook body (Some h) (Some secret))
    = Return true
    <-> replace (lit "sha256=") [] h = hmac_hexdigest key body hashlib_sha256).
  { intros h. destruct h as [|c r].
    - split; [discriminate|]. intros H.
      change (replace (lit "sha256=") [] []) with (@nil N) in H.
      symmetry in H. now apply hmac_sha256_hexdigest_nonempty in H.
    - rewrite (github_verify_eq _ _ _ key) by (assumption || discriminate).
      rewrite compare_digest_true. split; [tauto|].
      intros H. split; [exact H|]. rewrite H. apply is_ascii_hex. }
  split; [|split].
  - apply Hiff. rewrite lit_sha256_prefix. apply replace_absent, hex_no_s.
  - intros pieces Hp. apply Hiff. rewrite lit_sha256_prefix.
    rewrite replace_join; [exact Hp|].
    intros p Hin. apply (not_in_concat _ pieces); [|exact Hin].
    rewrite Hp. apply hex_no_s.
  - exact Hiff.
Qed.

Lemma Return_inj {A} (a b : A) : Return a = Return b -> a = b.
Proof. congruence. Qed.

Ltac inj_return :=
  let E := fresh "E" in
  intros E; apply Return_inj in E; subst.

(** ** More on UTF-8 and base64 *)

Lemma decode_encode s : forall b, encode s = Return b -> decode b = Return s.
Proof.
  induction s as [|c r IH]; intros b.
  - cbn. inj_return. reflexivity.
  - cbn [encode]. destruct (encode_char c) as [bs|] eqn:Ec; [|discriminate].
    destruct (encode r) as [b'|e] eqn:Er; [|discriminate].
    cbn [app_out]. inj_return.
    rewrite (decode_encode_char c bs b' Ec), (IH b' eq_refl). reflexivity.
Qed.

Lemma decode_ascii bs : is_ascii bs = true -> decode bs = Return bs.
Proof.
  induction bs as [|b bs IH]; [reflexivity|].
  unfold is_ascii. cbn [forallb]. intros H. apply andb_prop in H as [Hb Hbs].
  rewrite decode_cons, Hb, (IH Hbs). reflexivity.
Qed.

Lemma encode_ascii s : is_ascii s = true -> encode s = Return s.
Proof.
  induction s as [|c s IH]; [reflexivity|].
  unfold is_ascii. cbn [forallb]. intros H. apply andb_prop in H as [Hc Hs].
  cbn [encode]. unfold encode_char. rewrite Hc, (IH Hs). reflexivity.
Qed.

Lemma b64encode_str_eq d : b64encode_str d = ret (b64encode d).
Proof.
  unfold b64encode_str. rewrite decode_ascii by apply is_ascii_b64encode.
  reflexivity.
Qed.

(** ** [split] *)

Lemma split_absent sep s : ~ In sep s -> split sep s = [s].
Proof.
  induction s as [|c s IH]; intros H; [reflexivity|].
  cbn [split].
  replace (c =? sep) with false
    by (symmetry; apply N.eqb_neq; intros ->; apply H; now left).
  rewrite IH by (intros Hin; apply H; now right). reflexivity.
Qed.

Lemma split_app sep a b :
  ~ In sep a -> split sep (a ++ sep :: b) = a :: split sep b.
Proof.
  induction a as [|c a IH]; intros H.
  - cbn [app split]. rewrite N.eqb_refl. reflexivity.
  - cbn [app split].
    replace (c =? sep) with false
      by (symmetry; apply N.eqb_neq; intros ->; apply H; now left).
    rewrite IH by (intros Hin; apply H; now right). reflexivity.
Qed.

Lemma replace_prefixed p0 old s :
  ~ In p0 s -> replace (p0 :: old) [] ((p0 :: old) ++ s) = s.
Proof.
  intros H. unfold replace. rewrite replace_drop. cbn [app].
  apply replace_absent, H.
Qed.

(** * Round trip of the HMAC schemes *)

Lemma nonempty_cons (s : str) :
  nonempty s = true -> exists c r, s = c :: r.
Proof. destruct s as [|c r]; [discriminate|]. eauto. Qed.

Lemma github_roundtrip body secret sig :
  result (Github.generate_github_signature body secret) = Return sig ->
  result (Github.verify_github_webhook body (Some sig) (Some secret))
  = Return true.
Proof.
  unfold Github.generate_github_signature.
  destruct (encode secret) as [key|e] eqn:Hk; [|discriminate].
  rewrite bind_lift_Return. cbn [result ret snd]. inj_return.
  rewrite (github_verify_eq _ _ _ key); [|discriminate|assumption].
  rewrite lit_sha256_prefix, replace_prefixed by apply hex_no_s.
  rewrite compare_digest_same by apply is_ascii_hex. reflexivity.
Qed.

Lemma shopify_roundtrip body secret sig :
  result (Shopify.generate_shopify_signature body secret) = Return sig ->
  result (Shopify.verify_shopify_webhook body (Some sig) (Some secret))
  = Return true.
Proof.
  unfold Shopify.generate_shopify_signature, Shopify.verify_shopify_webhook,
    encode_opt.
  destruct (encode secret) as [key|e] eqn:Hk; [|discriminate].
  rewrite !bind_lift_Return, !b64encode_str_eq, bind_ret.
  cbn [result ret snd]. inj_return.
  apply compare_digest_true. split; [reflexivity|apply is_ascii_b64encode].
Qed.

Lemma vercel_roundtrip body secret sig :
  nonempty secret = true ->
  result (Vercel.generate_vercel_signature body secret) = Return sig ->
  result (Vercel.verify_signature body sig secret) = Return true.
Proof.
  intros Hs.
  unfold Vercel.generate_vercel_signature, Vercel.verify_signature.
  rewrite Hs. cbn [negb].
  destruct (encode secret) as [key|e] eqn:Hk; [|discriminate].
  rewrite !bind_lift_Return. cbn [result ret snd]. inj_return.
  apply compare_digest_true. split; [reflexivity|apply is_ascii_hex].
Qed.

Lemma woocommerce_roundtrip body secret sig :
  nonempty secret = true -> nonempty body = true ->
  result (Woocommerce.generate_test_signature body secret) = Return sig ->
  result (Woocommerce.verify_woocommerce_webhook body (Some sig) (Some secret))
  = Return true.
Proof.
  intros Hs Hb.
  apply nonempty_cons in Hs as (c & r & ->).
  apply nonempty_cons in Hb as (b0 & br & ->).
  unfold Woocommerce.generate_test_signature,
    Woocommerce.verify_woocommerce_webhook.
  destruct (encode (c :: r)) as [key|e] eqn:Hk; [|discriminate].
  rewrite !bind_lift_Return.
  rewrite decode_ascii by apply is_ascii_b64encode.
  cbn [lift result snd]. inj_return.
  pose proof (is_ascii_b64encode (hmac_digest key (b0 :: br) hashlib_sha256))
    as Ha.
  destruct (b64encode (hmac_digest key (b0 :: br) hashlib_sha256))
    as [|s0 sr] eqn:Hsig.
  { pose proof (hmac_sha256_length key (b0 :: br)) as Hl.
    destruct (hmac_digest key (b0 :: br) hashlib_sha256)
      as [|x [|y [|z t]]]; discriminate. }
  rewrite !bind_lift_Return.
  apply compare_digest_true. split; [reflexivity|exact Ha].
Qed.

Lemma lit_sha256_split : lit "sha256=" = lit "sha256" ++ [61].
Proof. reflexivity. Qed.

Lemma cursor_roundtrip body secret sig :
  nonempty secret = true ->
  result (Cursor.generate_signature body secret) = Return sig ->
  result (Cursor.verify_cursor_webhook body (Some sig) (Some secret))
  = Return true.
Proof.
  intros Hs. apply nonempty_cons in Hs as (c & r & ->).
  unfold Cursor.generate_signature, Cursor.verify_cursor_webhook.
  destruct (encode (c :: r)) as [key|e] eqn:Hk; [|discriminate].
  rewrite !bind_lift_Return. cbn [result ret snd]. inj_return.
  rewrite lit_sha256_prefix at 1. cbn [app].
  rewrite lit_sha256_split, <- app_assoc. cbn [app].
  change (lit "sha256" ++ 61 :: ?x) with (lit "sha256" ++ 61 :: x).
  rewrite split_app by (cbv; intuition discriminate).
  rewrite split_absent by apply hex_no_equals.
  rewrite str_eqb_refl. cbn [negb].
  rewrite bind_lift_Return.
  apply compare_digest_true. split; [reflexivity|apply is_ascii_hex].
Qed.

Lemma hookdeck_roundtrip body secret sig :
  nonempty secret = true ->
  result (Hookdeck.generate_hookdeck_signature body secret) = Return sig ->
  result (Hookdeck.verify_hookdeck_signature body (Some sig) (Some secret))
  = Return true.
Proof.
  intros Hs. apply nonempty_cons in Hs as (c & r & ->).
  unfold Hookdeck.generate_hookdeck_signature,
    Hookdeck.verify_hookdeck_signature.
  destruct (encode (c :: r)) as [key|e] eqn:Hk; [|discriminate].
  rewrite !bind_lift_Return, b64encode_str_eq.
  cbn [result ret snd]. inj_return.
  pose proof (is_ascii_b64encode (hmac_digest key body hashlib_sha256)) as Ha.
  destruct (b64encode (hmac_digest key body hashlib_sha256))
    as [|s0 sr] eqn:Hsig.
  { pose proof (hmac_sha256_length key body) as Hl.
    destruct (hmac_digest key body hashlib_sha256)
      as [|x [|y [|z t]]]; discriminate. }
  rewrite decode_ascii by exact Ha. rewrite bind_lift_Return.
  apply compare_digest_true. split; [reflexivity|exact Ha].
Qed.

Lemma catalog_roundtrip sch body secret sig :
  Catalog.guards sch body secret = true ->
  result (Catalog.valid_signature sch body secret) = Return sig ->
  result (Catalog.verify sch body sig secret) = Return true.
Proof.
  destruct sch; cbn [Catalog.guards Catalog.valid_signature Catalog.verify];
    intros Hg Hsig.
  - now apply github_roundtrip.
  - now apply shopify_roundtrip.
  - now apply vercel_roundtrip.
  - apply andb_prop in Hg as [Hs Hb]. now apply woocommerce_roundtrip.
  - now apply cursor_roundtrip.
  - now apply hookdeck_roundtrip.
Qed.

(** * Token schemes and missing configuration *)

Lemma status_http_error c : status (http_error c) = Some c.
Proof. reflexivity. Qed.




(** C6 as stated fails: a credential in the query string is accepted by the
    handler of Postmark, and the same request that the agent hook of
    OpenClaw refuses is accepted by its wake hook. *)
Lemma C6_counterexample_query_token_accepted :
  result (Postmark.handle_webhook Examples.postmark_token
            Examples.postmark_request) = Return tt
  /\ query_param "token" Examples.claw_request_with_query
     = Some Examples.claw_secret
  /\ result (Openclaw.openclaw_wake_hook (Some Examples.claw_secret)
               Examples.claw_request_with_query) = Return tt.
Proof. split; [|split]; vm_compute; reflexivity. Qed.




(** * FusionAuth *)

Section FusionauthFacts.

Variable jwt_decode :
  str -> str -> list string -> outcome (list (string * Fusionauth.value)).

Lemma fusionauth_verified raw_body token secret payload :
  token <> [] -> secret <> [] ->
  jwt_decode token secret
    ["HS256"%string; "HS384"%string; "HS512"%string] = Return payload ->
  result (Fusionauth.verify_fusionauth_webhook jwt_decode raw_body
            (Some token) (Some secret))
  = Return
      match Fusionauth.payload_get "request_body_sha256" payload with
      | Some (Fusionauth.Str claim) =>
          str_eqb claim (b64encode (sha256 raw_body))
      | _ => false
      end.
Proof.
  intros Ht Hs Hd.
  destruct token as [|t0 tr]; [congruence|].
  destruct secret as [|s0 sr]; [congruence|].
  unfold Fusionauth.verify_fusionauth_webhook.
  rewrite Hd.
  rewrite bind_lift_Return, b64encode_str_eq, bind_ret.
  destruct (Fusionauth.payload_get "request_body_sha256" payload)
    as [[claim|]|]; reflexivity.
Qed.

(** C9.  For a JWT that verifies under a configured secret, the routine
    returns True exactly when the claim [request_body_sha256] is the string
    base64(SHA256(raw_body)), and False otherwise; so the same JWT presented
    with a body of another hash is refused. *)
Theorem C9_valid_iff_claim_is_body_hash raw_body token secret payload :
  token <> [] -> secret <> [] ->
  jwt_decode token secret
    ["HS256"%string; "HS384"%string; "HS512"%string] = Return payload ->
  (result (Fusionauth.verify_fusionauth_webhook jwt_decode raw_body
             (Some token) (Some secret)) = Return true
   <-> Fusionauth.payload_get "request_body_sha256" payload
       = Some (Fusionauth.Str (b64encode (sha256 raw_body))))
  /\ (Fusionauth.payload_get "request_body_sha256" payload
      <> Some (Fusionauth.Str (b64encode (sha256 raw_body))) ->
      result (Fusionauth.verify_fusionauth_webhook jwt_decode raw_body
                (Some token) (Some secret)) = Return false)
  /\ (forall other_body,
        Fusionauth.payload_get "request_body_sha256" payload
        = Some (Fusionauth.Str (b64encode (sha256 other_body))) ->
        b64encode (sha256 other_body) <> b64encode (sha256 raw_body) ->
        result (Fusionauth.verify_fusionauth_webhook jwt_decode raw_body
                  (Some token) (Some secret)) = Return false).
Proof.
  intros Ht Hs Hd.
  rewrite (fusionauth_verified _ _ _ _ Ht Hs Hd).
  destruct (Fusionauth.payload_get "request_body_sha256" payload)
    as [[claim|]|].
  - destruct (str_eqb claim (b64encode (sha256 raw_body))) eqn:E.
    + apply str_eqb_eq in E. subst claim.
      split; [tauto|]. split; [congruence|].
      intros other [= H] Hne. congruence.
    + apply str_eqb_neq in E.
      split; [split; [discriminate|congruence]|]. split; reflexivity.
  - split; [split; discriminate|]. split; [reflexivity|discriminate].
  - split; [split; discriminate|]. split; [reflexivity|discriminate].
Qed.

End FusionauthFacts.

Lemma C9_witness :
  result (Fusionauth.verify_fusionauth_webhook Examples.toy_jwt_decode
            (lit "other body") (Some (lit "token")) (Some Examples.evt_secret))
  = Return false.
Proof.
  refine (proj2 (proj2
            (C9_valid_iff_claim_is_body_hash Examples.toy_jwt_decode
               (lit "other body") (lit "token") Examples.evt_secret
               _ _ _ eq_refl)) Examples.evt_body _ _).
  - discriminate.
  - discriminate.
  - vm_compute. reflexivity.
  - vm_compute. discriminate.
Defined.

(** * Chargebee *)

Lemma wf_encode_char c bs :
  encode_char c = Some bs -> wf_bytes bs = true.
Proof.
  unfold encode_char, wf_bytes, is_byte.
  destruct (c <? 0x80) eqn:H1.
  { apply N.ltb_lt in H1. intros E; apply some_inj in E; subst bs.
    cbn [forallb]. settle_tests. reflexivity. }
  destruct (c <? 0x800) eqn:H2.
  { apply N.ltb_lt in H2. intros E; apply some_inj in E; subst bs.
    cbn [forallb]. settle_tests. reflexivity. }
  destruct (c <? 0x10000) eqn:H3.
  { apply N.ltb_lt in H3. destruct (is_surrogate c); [discriminate|].
    intros E; apply some_inj in E; subst bs.
    cbn [forallb]. settle_tests. reflexivity. }
  destruct (c <=? 0x10FFFF) eqn:H4; [|discriminate].
  apply N.leb_le in H4. intros E; apply some_inj in E; subst bs.
  cbn [forallb]. settle_tests. reflexivity.
Qed.

Lemma wf_bytes_app a b : wf_bytes (a ++ b) = wf_bytes a && wf_bytes b.
Proof. apply forallb_app. Qed.

Lemma wf_encode s : forall b, encode s = Return b -> wf_bytes b = true.
Proof.
  induction s as [|c r IH]; intros b.
  - cbn. inj_return. reflexivity.
  - cbn [encode]. destruct (encode_char c) as [bs|] eqn:Ec; [|discriminate].
    destruct (encode r) as [b'|e] eqn:Er; [|discriminate].
    cbn [app_out]. inj_return.
    rewrite wf_bytes_app, (wf_encode_char _ _ Ec), (IH _ eq_refl). reflexivity.
Qed.

Lemma contains_app_sep c u p : contains c (u ++ c :: p) = true.
Proof.
  unfold contains. rewrite existsb_app. cbn [existsb]. rewrite N.eqb_refl.
  apply orb_true_r.
Qed.

Lemma before_app_sep c u p : ~ In c u -> before c (u ++ c :: p) = u.
Proof.
  induction u as [|x u IH]; intros H; cbn [app before].
  - rewrite N.eqb_refl. reflexivity.
  - replace (x =? c) with false
      by (symmetry; apply N.eqb_neq; intros ->; apply H; now left).
    rewrite IH by (intros Hin; apply H; now right). reflexivity.
Qed.

Lemma after_app_sep c u p : ~ In c u -> after c (u ++ c :: p) = p.
Proof.
  induction u as [|x u IH]; intros H; cbn [app after].
  - rewrite N.eqb_refl. reflexivity.
  - replace (x =? c) with false
      by (symmetry; apply N.eqb_neq; intros ->; apply H; now left).
    apply IH. intros Hin. apply H. now right.
Qed.

Lemma result_ordinary_eq a b : result (ordinary_eq a b) = Return (str_eqb a b).
Proof. reflexivity. Qed.

Lemma chargebee_basic eu ep enc :
  Chargebee.verify_chargebee_auth eu ep (Some (lit "Basic " ++ enc)) =
  (decoded <-
     catch any_exn (raw <- lift (b64decode enc) ;; lift (decode raw))
       (fun _ => http_error 401) ;;
   if negb (contains 58 decoded) then http_error 401
   else
     match eu, ep with
     | Some ((_ :: _) as eu'), Some ((_ :: _) as ep') =>
         same_user <- ordinary_eq (before 58 decoded) eu' ;;
         if negb same_user then http_error 401
         else
           same_password <- ordinary_eq (after 58 decoded) ep' ;;
           if negb same_password then http_error 401 else ret true
     | _, _ => http_error 500
     end).
Proof. reflexivity. Qed.

Lemma chargebee_decoded eu ep u p hdr :
  ~ In 58 u ->
  result (Chargebee.create_basic_auth_header u p) = Return hdr ->
  Chargebee.verify_chargebee_auth eu ep (Some hdr) =
  match eu, ep with
  | Some ((_ :: _) as eu'), Some ((_ :: _) as ep') =>
      same_user <- ordinary_eq u eu' ;;
      if negb same_user then http_error 401
      else
        same_password <- ordinary_eq p ep' ;;
        if negb same_password then http_error 401 else ret true
  | _, _ => http_error 500
  end.
Proof.
  intros Hu. unfold Chargebee.create_basic_auth_header.
  destruct (encode (u ++ lit ":" ++ p)) as [raw|e] eqn:Hraw; [|discriminate].
  rewrite bind_lift_Return, b64encode_str_eq, bind_ret.
  cbn [result ret snd]. inj_return.
  rewrite chargebee_basic.
  rewrite b64decode_b64encode by (eapply wf_encode; eassumption).
  rewrite bind_lift_Return, (decode_encode _ _ Hraw).
  change (catch any_exn (lift (Return (u ++ lit ":" ++ p)))
            (fun _ => http_error 401))
    with (lift (Return (u ++ lit ":" ++ p))).
  rewrite bind_lift_Return.
  change (u ++ lit ":" ++ p) with (u ++ 58 :: p).
  rewrite contains_app_sep, before_app_sep, after_app_sep by assumption.
  reflexivity.
Qed.

(** C7, as the code has it.  With a user name and a password configured,
    and for every user name without a colon and every password, the header
    built from that pair is accepted when the pair is the configured one and
    answered with 401 otherwise; the password may contain colons. *)
Theorem C7_basic_auth_first_colon eu ep u p hdr :
  nonempty eu = true -> nonempty ep = true ->
  ~ In 58 u ->
  result (Chargebee.create_basic_auth_header u p) = Return hdr ->
  result (Chargebee.verify_chargebee_auth (Some eu) (Some ep) (Some hdr))
  = if str_eqb u eu && str_eqb p ep then Return true
    else Raise (HTTPException 401).
Proof.
  intros Heu Hep Hu Hh.
  rewrite (chargebee_decoded _ _ u p) by assumption.
  destruct eu as [|e0 er]; [discriminate|].
  destruct ep as [|p0 pr]; [discriminate|].
  rewrite result_bind, result_ordinary_eq.
  destruct (str_eqb u (e0 :: er)); cbn [negb andb]; [|reflexivity].
  rewrite result_bind, result_ordinary_eq.
  destruct (str_eqb p (p0 :: pr)); reflexivity.
Qed.

Lemma C7_witness :
  result (Chargebee.verify_chargebee_auth
            (Some (lit "test_webhook_user")) (Some (lit "pass:with:colons"))
            (Some (lit "Basic dGVzdF93ZWJob29rX3VzZXI6cGFzczp3aXRoOmNvbG9ucw==")))
  = Return true
  /\ result (Chargebee.verify_chargebee_auth
               (Some (lit "test_webhook_user")) (Some (lit "pass:with:colons"))
               (Some (lit "Basic dGVzdF93ZWJob29rX3VzZXI6cGFzcw==")))
     = Raise (HTTPException 401).
Proof.
  split.
  - apply (C7_basic_auth_first_colon (lit "test_webhook_user")
             (lit "pass:with:colons") (lit "test_webhook_user")
             (lit "pass:with:colons")).
    + reflexivity.
    + reflexivity.
    + vm_compute. intuition discriminate.
    + vm_compute. reflexivity.
  - apply (C7_basic_auth_first_colon (lit "test_webhook_user")
             (lit "pass:with:colons") (lit "test_webhook_user")
             (lit "pass")).
    + reflexivity.
    + reflexivity.
    + vm_compute. intuition discriminate.
    + vm_compute. reflexivity.
Defined.

(** C7 as stated fails for a user name that contains a colon: the header of
    the configured pair itself is refused. *)
Lemma C7_counterexample_colon_in_username :
  ~ (forall u p hdr,
       nonempty u = true -> nonempty p = true ->
       result (Chargebee.create_basic_auth_header u p) = Return hdr ->
       result (Chargebee.verify_chargebee_auth (Some u) (Some p) (Some hdr))
       = Return true).
Proof.
  intros H.
  assert (E : result (Chargebee.create_basic_auth_header (lit "a:b") (lit "c"))
              = Return (lit "Basic YTpiOmM=")) by (vm_compute; reflexivity).
  specialize (H (lit "a:b") (lit "c") _ eq_refl eq_refl E).
  clear E. vm_compute in H. discriminate H.
Qed.

Lemma C10_witness :
  result (Github.verify_github_webhook Examples.evt_body
            (Some (join (lit "sha256=")
                     [lit "93b398b9"; lit "ca62b21fe8c9a04b5fc3cb0b";
                      lit "63f6bfa54334900bbc11785aef08f27d"; []]))
            (Some Examples.evt_secret))
  = Return true.
Proof.
  refine (proj1 (proj2
            (C10_github_prefix_removed_anywhere Examples.evt_body
               Examples.evt_secret (lit "s3cr3t") _)) _ _).
  - reflexivity.
  - vm_compute. reflexivity.
Defined.

(** * Replay windows *)

(** The routines that look at the clock on both sides. *)

Lemma resend_window now payload headers secret tolerance id ts sig t :
  lookup "svix-id" headers = Some id ->
  lookup "svix-timestamp" headers = Some ts ->
  lookup "svix-signature" headers = Some sig ->
  int_of_str ts = Return t ->
  (tolerance < Z.abs (now - t))%Z ->
  result (Resend.verify_svix_signature now payload headers secret tolerance)
  = Return false.
Proof.
  intros Hid Hts Hsig Ht Hw. unfold Resend.verify_svix_signature.
  rewrite Hid, Hts, Hsig.
  destruct id as [|i0 ir]; [reflexivity|].
  destruct ts as [|t0 tr]; [reflexivity|].
  destruct sig as [|s0 sr]; [reflexivity|].
  rewrite Ht. apply Z.ltb_lt in Hw. rewrite Hw. reflexivity.
Qed.

Lemma openai_window now payload id ts sig secret t :
  int_of_str ts = Return t ->
  (300 < Z.abs (now - t))%Z ->
  result (Openai.verify_openai_signature now payload (Some id) (Some ts)
            (Some sig) secret)
  = Return false.
Proof.
  intros Ht Hw. unfold Openai.verify_openai_signature.
  destruct id as [|i0 ir]; [reflexivity|].
  destruct ts as [|t0 tr]; [reflexivity|].
  destruct sig as [|s0 sr]; [reflexivity|].
  destruct (negb (contains 44 (s0 :: sr))); [reflexivity|].
  rewrite Ht.
  replace ((300 <? now - t) || (now - t <? -300))%Z with true; [reflexivity|].
  symmetry. apply orb_true_iff. rewrite Z.ltb_lt, Z.ltb_lt. lia.
Qed.

Lemma webflow_window now_ms raw_body signature ts secret t :
  int_of_str ts = Return t ->
  (300000 < Z.abs (now_ms - t))%Z ->
  result (Webflow.verify_webflow_signature now_ms raw_body signature ts secret)
  = Return false.
Proof.
  intros Ht Hw. unfold Webflow.verify_webflow_signature.
  rewrite Ht. apply Z.ltb_lt in Hw. rewrite Hw. reflexivity.
Qed.

Lemma elevenlabs_window now raw_body hdr secret ts sigs t :
  hdr <> [] ->
  fold_left Elevenlabs.parse_element (split 44 hdr) (None, []) = (Some ts, sigs) ->
  int_of_str ts = Return t ->
  (1800 < Z.abs (now - t))%Z ->
  exists e,
    result (Elevenlabs.verify_elevenlabs_webhook now raw_body (Some hdr) secret)
    = Raise e.
Proof.
  intros Hh Hp Ht Hw. unfold Elevenlabs.verify_elevenlabs_webhook.
  destruct hdr as [|h0 hr]; [congruence|]. rewrite Hp.
  destruct ts as [|t0 tr]; [eexists; reflexivity|].
  destruct sigs as [|s0 sr]; [eexists; reflexivity|].
  rewrite Ht, bind_lift_Return. apply Z.ltb_lt in Hw. rewrite Hw.
  eexists; reflexivity.
Qed.

(** Clerk looks at one side only: once the signature is verified, every
    timestamp that is not older than five minutes passes, however far in the
    future it lies. *)
Lemma clerk_window_one_sided now secret request id ts sig t :
  header "svix-id" request = Some id -> id <> [] ->
  header "svix-timestamp" request = Some ts -> ts <> [] ->
  header "svix-signature" request = Some sig -> sig <> [] ->
  secret <> [] -> startswith (lit "whsec_") secret = true ->
  result (Clerk.verify_clerk_signature (body request) id ts sig secret)
  = Return true ->
  int_of_str ts = Return t ->
  (now - 300 <= t)%Z ->
  result (Clerk.clerk_webhook now (Some secret) request) = Return tt.
Proof.
  intros Hid Hid' Hts Hts' Hsig Hsig' Hs Hs' Hv Ht Hw.
  unfold Clerk.clerk_webhook. rewrite Hid, Hts, Hsig.
  destruct id as [|i0 ir]; [congruence|].
  destruct ts as [|t0 tr]; [congruence|].
  destruct sig as [|s0 sr]; [congruence|].
  destruct secret as [|c0 cr]; [congruence|].
  rewrite Hs'. cbn [negb].
  rewrite result_bind, Hv. cbn [negb]. rewrite Ht.
  replace (300 <? now - t)%Z with false; [reflexivity|].
  symmetry. apply Z.ltb_ge. lia.
Qed.

(** C3, on the code.  At time 1000 the handler of Clerk lets through a
    request whose signed timestamp is 2000, a thousand seconds ahead of the
    clock; the handler of Paddle, which never reads the clock, lets through a
    request signed for the timestamp 1. *)
Theorem C3_timestamp_outside_window_accepted :
  int_of_str (lit "2000") = Return 2000%Z
  /\ result (Clerk.clerk_webhook 1000 (Some Examples.svix_secret)
               Examples.clerk_request_2000) = Return tt
  /\ result (Paddle.paddle_webhook (Some Examples.evt_secret)
               Examples.paddle_request_1) = Return tt.
Proof. repeat split; vm_compute; reflexivity. Qed.

(** * Which comparison each routine uses *)

Lemma comparisons_lift_bind {A B} (o : outcome A) (k : A -> M B) :
  comparisons (bind (lift o) k) =
  match o with
  | Return a => comparisons (k a)
  | Raise _ => []
  end.
Proof. destruct o as [a|e]; [rewrite bind_lift_Return|]; reflexivity. Qed.

Lemma comparisons_catch_ret {A} sel (m : M A) (b : A) :
  comparisons (catch sel m (fun _ => ret b)) = comparisons m.
Proof.
  destruct m as [l [a|e]]; cbn; [reflexivity|].
  destruct (sel e); cbn; [apply app_nil_r|reflexivity].
Qed.

Lemma comparisons_item1 l : comparisons (item1 l) = [].
Proof. destruct l as [|x [|y r]]; reflexivity. Qed.

Lemma comparisons_map_m_silent {A B} (f : A -> M B) l :
  (forall x, comparisons (f x) = []) -> comparisons (map_m f l) = [].
Proof.
  intros Hf. induction l as [|x l IH]; [reflexivity|].
  cbn [map_m]. rewrite comparisons_bind, Hf.
  destruct (result (f x)); [|reflexivity].
  cbn [app]. rewrite comparisons_bind, IH.
  destruct (result (map_m f l)); reflexivity.
Qed.

(** The routines of GitHub and GitLab compare through [compare_digest]
    only. *)
Lemma github_constant_time raw_body signature_header secret :
  Forall (eq ConstantTime)
    (comparisons
       (Github.verify_github_webhook raw_body signature_header secret)).
Proof.
  unfold Github.verify_github_webhook.
  destruct signature_header as [[|c r]|]; try (cbn; constructor).
  destruct secret as [s|]; [|cbn; constructor].
  unfold encode_opt. rewrite comparisons_lift_bind.
  destruct (encode s); [apply compare_digest_constant_time|constructor].
Qed.

Lemma gitlab_constant_time token_header secret :
  Forall (eq ConstantTime)
    (comparisons (Gitlab.verify_gitlab_webhook token_header secret)).
Proof.
  unfold Gitlab.verify_gitlab_webhook.
  destruct token_header as [[|c r]|]; try (cbn; constructor).
  destruct secret as [[|c' r']|]; try (cbn; constructor).
  apply compare_digest_constant_time.
Qed.

(** The routine of Clerk never calls [compare_digest]: whatever it is
    given, the only comparison it can make is the membership test. *)
Lemma clerk_never_constant_time body svix_id svix_timestamp svix_signature
  secret :
  Forall (eq Ordinary)
    (comparisons
       (Clerk.verify_clerk_signature body svix_id svix_timestamp
          svix_signature secret)).
Proof.
  unfold Clerk.verify_clerk_signature. rewrite comparisons_catch_ret.
  rewrite comparisons_lift_bind. destruct (decode body); [|constructor].
  rewrite comparisons_bind, comparisons_item1.
  destruct (result (item1 _)); [|constructor]. cbn [app].
  rewrite comparisons_lift_bind.
  match goal with |- context [b64decode ?x] => destruct (b64decode x) end;
    [|constructor].
  rewrite comparisons_lift_bind. destruct (encode _); [|constructor].
  rewrite b64encode_str_eq, bind_ret.
  rewrite comparisons_bind.
  rewrite comparisons_map_m_silent by (intros; apply comparisons_item1).
  destruct (result (map_m _ _)); [|constructor].
  cbn. constructor; [reflexivity|constructor].
Qed.

Lemma deepgram_ordinary expected_token dg_token :
  expected_token <> [] -> dg_token <> [] ->
  comparisons
    (Deepgram.verify_deepgram_webhook (Some expected_token) (Some dg_token))
  = [Ordinary].
Proof.
  intros He Hd. destruct expected_token as [|e0 er]; [congruence|].
  destruct dg_token as [|d0 dr]; [congruence|].
  unfold Deepgram.verify_deepgram_webhook.
  rewrite comparisons_bind. cbn [result ordinary_eq snd comparisons fst].
  destruct (str_eqb _ _); reflexivity.
Qed.

(** C1, on the code.  Whatever it is given, the routine of Clerk compares
    with the membership test only, and decides with it on a correctly signed
    request; the routines of FusionAuth, Deepgram, Chargebee and Postmark
    decide with [==] and [!=]. *)
Theorem C1_ordinary_comparison_decides :
  (forall body svix_id svix_timestamp svix_signature secret,
     Forall (eq Ordinary)
       (comparisons
          (Clerk.verify_clerk_signature body svix_id svix_timestamp
             svix_signature secret)))
  /\ (result (Clerk.verify_clerk_signature Examples.evt_body (lit "msg_1")
             (lit "2000") Examples.svix_signature_2000 Examples.svix_secret)
   = Return true
   /\ comparisons
        (Clerk.verify_clerk_signature Examples.evt_body (lit "msg_1")
           (lit "2000") Examples.svix_signature_2000 Examples.svix_secret)
      = [Ordinary])
  /\ comparisons
       (Fusionauth.verify_fusionauth_webhook Examples.toy_jwt_decode
          Examples.evt_body (Some (lit "token")) (Some Examples.evt_secret))
     = [Ordinary]
  /\ comparisons
       (Deepgram.verify_deepgram_webhook (Some Examples.evt_secret)
          (Some Examples.evt_secret))
     = [Ordinary]
  /\ comparisons
       (Chargebee.verify_chargebee_auth (Some (lit "test_webhook_user"))
          (Some (lit "pass:with:colons"))
          (Some (lit "Basic dGVzdF93ZWJob29rX3VzZXI6cGFzczp3aXRoOmNvbG9ucw==")))
     = [Ordinary; Ordinary]
  /\ comparisons
       (Postmark.handle_webhook Examples.postmark_token
          Examples.postmark_request)
     = [Ordinary].
Proof.
  split; [exact clerk_never_constant_time|].
  repeat split; vm_compute; reflexivity.
Qed.

(** * Which routines raise *)

Lemma catch_all_returns {A} (m : M A) (b : A) :
  exists a, result (catch any_exn m (fun _ => ret b)) = Return a.
Proof.
  rewrite result_catch. destruct (result m) as [a|e]; eexists; reflexivity.
Qed.


Lemma clerk_never_raises body id ts sig secret :
  exists b,
    result (Clerk.verify_clerk_signature body id ts sig secret) = Return b.
Proof. apply catch_all_returns. Qed.

Lemma any_m_result {A} (f : A -> M bool) l :
  (exists b, result (any_m f l) = Return b)
  \/ (exists e, result (any_m f l) = Raise e).
Proof.
  destruct (result (any_m f l)) as [b|e]; [left|right]; eexists; reflexivity.
Qed.


Lemma elevenlabs_handler_status now secret request :
  status (Elevenlabs.elevenlabs_webhook now secret request) = None
  \/ status (Elevenlabs.elevenlabs_webhook now secret request) = Some 400
  \/ status (Elevenlabs.elevenlabs_webhook now secret request) = Some 500.
Proof.
  unfold Elevenlabs.elevenlabs_webhook.
  destruct (header "elevenlabs-signature" request) as [[|c r]|];
    try (right; left; reflexivity).
  unfold status. rewrite result_catch, result_bind.
  destruct (result (Elevenlabs.verify_elevenlabs_webhook _ _ _ _)) as [b|e].
  - left. reflexivity.
  - cbn [any_exn]. destruct (is_ValueError e); [right; left|right; right];
      reflexivity.
Qed.

(** The routine of Resend decodes the body outside any [try]: a body that
    is not UTF-8 raises. *)
Lemma resend_raises_on_invalid_utf8 :
  result (Resend.verify_svix_signature 2000 [255]
            [("svix-id"%string, lit "msg_1");
             ("svix-timestamp"%string, lit "2000");
             ("svix-signature"%string, Examples.svix_signature_2000)]
            (Some Examples.svix_secret) 300)
  = Raise UnicodeDecodeError.
Proof. vm_compute. reflexivity. Qed.

(** * Headers with several candidate signatures *)

Lemma existsb_permutation {A} (f : A -> bool) l l' :
  Permutation l l' -> existsb f l = existsb f l'.
Proof.
  induction 1 as [|x l l' _ IH|x y l|l l' l'' _ IH1 _ IH2]; cbn [existsb].
  - reflexivity.
  - now rewrite IH.
  - destruct (f x), (f y); reflexivity.
  - now rewrite IH1.
Qed.

Lemma startswith_decompose p s :
  startswith p s = true -> s = p ++ skipn (length p) s.
Proof.
  revert s. induction p as [|x p IH]; intros s H; [reflexivity|].
  destruct s as [|c s]; [discriminate|].
  cbn [startswith] in H. apply andb_prop in H as [Hx Hp].
  apply N.eqb_eq in Hx. subst c. cbn [length skipn app]. f_equal. now apply IH.
Qed.

Lemma is_ascii_skipn n s : is_ascii s = true -> is_ascii (skipn n s) = true.
Proof.
  revert s. induction n as [|n IH]; intros s H; [exact H|].
  destruct s as [|c s]; [reflexivity|].
  cbn [skipn]. apply IH. unfold is_ascii in H. cbn [forallb] in H.
  now apply andb_prop in H as [_ H].
Qed.

(** A tagged candidate matches exactly when it is the tag followed by the
    expected signature. *)
Lemma tagged_match tag expected sig :
  startswith tag sig && str_eqb (skipn (length tag) sig) expected
  = str_eqb (tag ++ expected) sig.
Proof.
  destruct (startswith tag sig) eqn:Hs; cbn [andb].
  - apply startswith_decompose in Hs.
    destruct (str_eqb (skipn (length tag) sig) expected) eqn:E.
    + apply str_eqb_eq in E. symmetry. apply str_eqb_eq. congruence.
    + apply str_eqb_neq in E. symmetry. apply str_eqb_neq.
      intros H. apply E. rewrite Hs in H. now apply app_inv_head in H.
  - symmetry. apply str_eqb_neq. intros <-.
    rewrite startswith_app in Hs. discriminate.
Qed.

Lemma resend_check_signatures sigs expected :
  is_ascii expected = true ->
  forallb is_ascii sigs = true ->
  result (Resend.check_signatures sigs expected)
  = Return (existsb (str_eqb (lit "v1," ++ expected)) sigs).
Proof.
  intros He. induction sigs as [|sig sigs IH]; intros Hs; [reflexivity|].
  cbn [forallb] in Hs. apply andb_prop in Hs as [Hsig Hs].
  cbn [Resend.check_signatures existsb].
  rewrite <- (tagged_match (lit "v1,")).
  change (length (lit "v1,")) with 3%nat.
  destruct (startswith (lit "v1,") sig); cbn [andb orb]; [|now apply IH].
  rewrite compare_digest_ascii by (assumption || now apply is_ascii_skipn).
  unfold bind.
  destruct (str_eqb (skipn 3 sig) expected); cbn [orb].
  - reflexivity.
  - specialize (IH Hs). destruct (Resend.check_signatures sigs expected).
    cbn in *. exact IH.
Qed.

Lemma any_compare_digest sigs expected :
  is_ascii expected = true ->
  forallb is_ascii sigs = true ->
  result (any_m (fun sig => compare_digest sig expected) sigs)
  = Return (existsb (str_eqb expected) sigs).
Proof.
  intros He. induction sigs as [|sig sigs IH]; intros Hs; [reflexivity|].
  cbn [forallb] in Hs. apply andb_prop in Hs as [Hsig Hs].
  cbn [any_m existsb].
  rewrite compare_digest_ascii by assumption. unfold bind.
  replace (str_eqb expected sig) with (str_eqb sig expected).
  2:{ destruct (str_eqb sig expected) eqn:E.
      - apply str_eqb_eq in E. subst. symmetry. apply str_eqb_refl.
      - apply str_eqb_neq in E. symmetry. apply str_eqb_neq. congruence. }
  destruct (str_eqb sig expected); cbn [orb].
  - reflexivity.
  - specialize (IH Hs).
    destruct (any_m (fun sig => compare_digest sig expected) sigs).
    cbn in *. exact IH.
Qed.

(** The dictionary the handler of Resend passes to the routine. *)
Lemma resend_verify_candidates now payload secret tolerance id ts sig t key
  text msg :
  id <> [] -> ts <> [] -> sig <> [] ->
  int_of_str ts = Return t ->
  (Z.abs (now - t) <= tolerance)%Z ->
  b64decode (if startswith (lit "whsec_") secret then skipn 6 secret
             else secret) = Return key ->
  decode payload = Return text ->
  encode (id ++ lit "." ++ ts ++ lit "." ++ text) = Return msg ->
  forallb is_ascii (split_ws sig) = true ->
  result (Resend.verify_svix_signature now payload
            [("svix-id"%string, id); ("svix-timestamp"%string, ts);
             ("svix-signature"%string, sig)] (Some secret) tolerance)
  = Return (existsb
              (str_eqb (lit "v1,"
                        ++ b64encode (hmac_digest key msg hashlib_sha256)))
              (split_ws sig)).
Proof.
  intros Hid Hts Hsig Ht Hw Hk Htext Hmsg Hascii.
  destruct id as [|i0 ir]; [congruence|].
  destruct ts as [|t0 tr]; [congruence|].
  destruct sig as [|s0 sr]; [congruence|].
  unfold Resend.verify_svix_signature.
  cbn [lookup String.eqb Ascii.eqb Bool.eqb andb].
  rewrite Ht.
  replace (tolerance <? Z.abs (now - t))%Z with false
    by (symmetry; apply Z.ltb_ge; lia).
  cbv zeta.
  match goal with
  | |- context [b64decode ?x] =>
      replace (b64decode x) with (@Return bytes key) by (symmetry; exact Hk)
  end.
  rewrite bind_lift_Return, Htext, bind_lift_Return, Hmsg,
    bind_lift_Return, b64encode_str_eq, bind_ret.
  apply resend_check_signatures; [apply is_ascii_b64encode|assumption].
Qed.

Lemma paddle_verify_candidates payload hdr secret ts sigs key msg :
  hdr <> [] ->
  fold_left Paddle.parse_part (split 59 hdr) (None, []) = (Some ts, sigs) ->
  ts <> [] ->
  encode secret = Return key ->
  encode (ts ++ lit ":" ++ payload) = Return msg ->
  forallb is_ascii sigs = true ->
  result (Paddle.verify_paddle_signature payload (Some hdr) (Some secret))
  = Return (existsb (str_eqb (hmac_hexdigest key msg hashlib_sha256)) sigs).
Proof.
  intros Hh Hp Hts Hk Hmsg Hascii.
  destruct hdr as [|h0 hr]; [congruence|].
  destruct ts as [|t0 tr]; [congruence|].
  unfold Paddle.verify_paddle_signature. rewrite Hp.
  destruct sigs as [|s0 sr]; [reflexivity|].
  unfold encode_opt. rewrite Hk, bind_lift_Return, Hmsg, bind_lift_Return.
  rewrite result_catch, any_compare_digest; [reflexivity|apply is_ascii_hex|assumption].
Qed.

Lemma clerk_verify_candidates body id ts sig secret text encoded key msg sigs :
  decode body = Return text ->
  result (item1 (split 95 secret)) = Return encoded ->
  b64decode encoded = Return key ->
  encode (id ++ lit "." ++ ts ++ lit "." ++ text) = Return msg ->
  result (map_m (fun s => item1 (split 44 s)) (split 32 sig)) = Return sigs ->
  result (Clerk.verify_clerk_signature body id ts sig secret)
  = Return (existsb
              (str_eqb (b64encode (hmac_digest key msg hashlib_sha256))) sigs).
Proof.
  intros Htext Henc Hk Hmsg Hsigs.
  unfold Clerk.verify_clerk_signature.
  rewrite result_catch, Htext, bind_lift_Return.
  rewrite result_bind, Henc, Hk, bind_lift_Return, Hmsg, bind_lift_Return.
  rewrite b64encode_str_eq, bind_ret, result_bind, Hsigs. reflexivity.
Qed.

(** A text made of pieces without the separator splits into its pieces. *)
Lemma split_join sep x parts :
  (forall p, In p (x :: parts) -> ~ In sep p) ->
  split sep (join [sep] (x :: parts)) = x :: parts.
Proof.
  revert x. induction parts as [|y parts IH]; intros x H.
  - cbn [join]. apply split_absent. apply H. now left.
  - change (join [sep] (x :: y :: parts))
      with (x ++ sep :: join [sep] (y :: parts)).
    rewrite split_app by (apply H; now left).
    f_equal. apply IH. intros p Hp. apply H. now right.
Qed.

Lemma not_in_tagged (sep : N) (tag s : str) :
  ~ In sep tag -> ~ In sep s -> ~ In sep (tag ++ s).
Proof. intros Ht Hs Hin. apply in_app_or in Hin as [Hin|Hin]; auto. Qed.

(** The parts [h1=...] of a header of Paddle are its candidates. *)
Lemma paddle_parse_candidates sigs st :
  fold_left Paddle.parse_part (map (app (lit "h1=")) sigs) st
  = (fst st, snd st ++ sigs).
Proof.
  revert st. induction sigs as [|s sigs IH]; intros [ts acc]; cbn [map fold_left].
  - cbn [fst snd]. now rewrite app_nil_r.
  - rewrite IH. cbn [fst snd]. change (snd (Paddle.parse_part (ts, acc) (lit "h1=" ++ s)))
      with (acc ++ [s]). change (fst (Paddle.parse_part (ts, acc) (lit "h1=" ++ s))) with ts.
    now rewrite <- app_assoc.
Qed.

Lemma paddle_header_candidates ts sigs :
  ~ In 59 ts -> (forall s, In s sigs -> ~ In 59 s) ->
  fold_left Paddle.parse_part
    (split 59 (join [59] ((lit "ts=" ++ ts) :: map (app (lit "h1=")) sigs)))
    (None, [])
  = (Some ts, sigs).
Proof.
  intros Hts Hs. rewrite split_join.
  - cbn [fold_left]. rewrite paddle_parse_candidates. reflexivity.
  - intros p [<-|Hp].
    + apply not_in_tagged; [cbv; intuition discriminate|exact Hts].
    + apply in_map_iff in Hp as (s & <- & Hin).
      apply not_in_tagged; [cbv; intuition discriminate|now apply Hs].
Qed.

Lemma join_tagged_nonempty sep tag ts parts :
  join sep ((lit tag ++ ts) :: parts) <> [] \/ lit tag = [].
Proof.
  destruct (lit tag) as [|c r] eqn:E; [now right|left].
  destruct parts; cbn [join app]; discriminate.
Qed.

Lemma paddle_text_candidates payload secret ts sigs key msg :
  ts <> [] -> ~ In 59 ts -> (forall s, In s sigs -> ~ In 59 s) ->
  encode secret = Return key ->
  encode (ts ++ lit ":" ++ payload) = Return msg ->
  forallb is_ascii sigs = true ->
  result (Paddle.verify_paddle_signature payload
            (Some (join [59]
                     ((lit "ts=" ++ ts) :: map (app (lit "h1=")) sigs)))
            (Some secret))
  = Return (existsb (str_eqb (hmac_hexdigest key msg hashlib_sha256)) sigs).
Proof.
  intros Hts Hno Hs Hk Hmsg Hascii.
  apply (paddle_verify_candidates payload _ secret ts sigs key msg);
    try assumption.
  - destruct (join_tagged_nonempty [59] "ts=" ts (map (app (lit "h1=")) sigs))
      as [H|H]; [exact H|discriminate H].
  - now apply paddle_header_candidates.
Qed.

(** The candidates of a header of Clerk. *)
Lemma clerk_parse_candidates (cands : list (str * str)) :
  cands <> [] ->
  (forall c, In c cands ->
     ~ In 32 (fst c) /\ ~ In 44 (fst c) /\ ~ In 32 (snd c) /\ ~ In 44 (snd c)) ->
  result (map_m (fun s => item1 (split 44 s))
            (split 32 (join [32] (map (fun c => fst c ++ 44 :: snd c) cands))))
  = Return (map snd cands).
Proof.
  intros Hne H. destruct cands as [|c0 cands]; [congruence|]. clear Hne.
  cbn [map]. rewrite split_join.
  - change ((fst c0 ++ 44 :: snd c0) :: map (fun c => fst c ++ 44 :: snd c) cands)
      with (map (fun c => fst c ++ 44 :: snd c) (c0 :: cands)).
    change (snd c0 :: map snd cands) with (map snd (c0 :: cands)).
    induction (c0 :: cands) as [|c l IH]; [reflexivity|].
    cbn [map map_m]. destruct (H c (or_introl eq_refl)) as (_ & Ht & _ & Hv).
    rewrite split_app by exact Ht. rewrite split_absent by exact Hv.
    cbn [item1]. rewrite bind_ret, result_bind, IH.
    + reflexivity.
    + intros c' Hc'. apply H. now right.
  - intros p Hp.
    change ((fst c0 ++ 44 :: snd c0) :: map (fun c => fst c ++ 44 :: snd c) cands)
      with (map (fun c => fst c ++ 44 :: snd c) (c0 :: cands)) in Hp.
    apply in_map_iff in Hp as (c & <- & Hin).
    destruct (H c Hin) as (Ht & _ & Hv & _).
    intros Hin'. apply in_app_or in Hin' as [Hin'|[Hin'|Hin']]; auto. discriminate.
Qed.

Lemma clerk_text_candidates body id ts prefix encoded cands text key msg :
  decode body = Return text ->
  ~ In 95 prefix -> ~ In 95 encoded ->
  b64decode encoded = Return key ->
  encode (id ++ lit "." ++ ts ++ lit "." ++ text) = Return msg ->
  (forall c, In c cands ->
     ~ In 32 (fst c) /\ ~ In 44 (fst c) /\ ~ In 32 (snd c) /\ ~ In 44 (snd c)) ->
  result (Clerk.verify_clerk_signature body id ts
            (join [32] (map (fun c => fst c ++ 44 :: snd c) cands))
            (prefix ++ 95 :: encoded))
  = Return (existsb
              (str_eqb (b64encode (hmac_digest key msg hashlib_sha256)))
              (map snd cands)).
Proof.
  intros Htext Hp He Hk Hmsg Hc.
  assert (Hsecret : result (item1 (split 95 (prefix ++ 95 :: encoded)))
                    = Return encoded).
  { rewrite split_app by exact Hp. rewrite split_absent by exact He.
    reflexivity. }
  destruct cands as [|c0 cands].
  - unfold Clerk.verify_clerk_signature.
    rewrite result_catch, Htext, bind_lift_Return.
    rewrite result_bind, Hsecret, Hk, bind_lift_Return, Hmsg, bind_lift_Return.
    rewrite b64encode_str_eq, bind_ret. reflexivity.
  - apply (clerk_verify_candidates body id ts _ _ text encoded key msg);
      try assumption.
    apply clerk_parse_candidates; [discriminate|exact Hc].
Qed.

Lemma not_in_by_contains c s : contains c s = false -> ~ In c s.
Proof.
  unfold contains. intros H Hin.
  assert (E : existsb (N.eqb c) s = true)
    by (apply existsb_exists; exists c; split; [exact Hin|apply N.eqb_refl]).
  congruence.
Qed.

(** C4, as the code has it.  Resend: once the headers are in order, the
    routine returns True exactly when [v1,] followed by the expected
    signature is among the blank-separated candidates.  Paddle: for a header
    [ts=...;h1=...;...;h1=...] with ASCII candidates, exactly when the
    expected digest is among the candidates.  Clerk: for candidates
    [tag,value] separated by single spaces, exactly when the expected
    signature is among the values.  So neither other candidates nor the
    order of the candidates matter. *)
Theorem C4_any_candidate_matches :
  (forall now payload secret tolerance id ts sig t key text msg,
     id <> [] -> ts <> [] -> sig <> [] ->
     int_of_str ts = Return t ->
     (Z.abs (now - t) <= tolerance)%Z ->
     b64decode (if startswith (lit "whsec_") secret then skipn 6 secret
                else secret) = Return key ->
     decode payload = Return text ->
     encode (id ++ lit "." ++ ts ++ lit "." ++ text) = Return msg ->
     forallb is_ascii (split_ws sig) = true ->
     result (Resend.verify_svix_signature now payload
               [("svix-id"%string, id); ("svix-timestamp"%string, ts);
                ("svix-signature"%string, sig)] (Some secret) tolerance)
     = Return (existsb
                 (str_eqb (lit "v1,"
                           ++ b64encode (hmac_digest key msg hashlib_sha256)))
                 (split_ws sig)))
  /\ (forall payload secret ts sigs key msg,
        ts <> [] -> ~ In 59 ts -> (forall s, In s sigs -> ~ In 59 s) ->
        encode secret = Return key ->
        encode (ts ++ lit ":" ++ payload) = Return msg ->
        forallb is_ascii sigs = true ->
        result (Paddle.verify_paddle_signature payload
                  (Some (join [59]
                           ((lit "ts=" ++ ts) :: map (app (lit "h1=")) sigs)))
                  (Some secret))
        = Return (existsb (str_eqb (hmac_hexdigest key msg hashlib_sha256))
                    sigs))
  /\ (forall body id ts prefix encoded cands text key msg,
        decode body = Return text ->
        ~ In 95 prefix -> ~ In 95 encoded ->
        b64decode encoded = Return key ->
        encode (id ++ lit "." ++ ts ++ lit "." ++ text) = Return msg ->
        (forall c, In c cands ->
           ~ In 32 (fst c) /\ ~ In 44 (fst c)
           /\ ~ In 32 (snd c) /\ ~ In 44 (snd c)) ->
        result (Clerk.verify_clerk_signature body id ts
                  (join [32] (map (fun c => fst c ++ 44 :: snd c) cands))
                  (prefix ++ 95 :: encoded))
        = Return (existsb
                    (str_eqb (b64encode (hmac_digest key msg hashlib_sha256)))
                    (map snd cands)))
  /\ (forall now payload secret tolerance id ts sig sig' t key text msg,
        id <> [] -> ts <> [] -> sig <> [] -> sig' <> [] ->
        int_of_str ts = Return t ->
        (Z.abs (now - t) <= tolerance)%Z ->
        b64decode (if startswith (lit "whsec_") secret then skipn 6 secret
                   else secret) = Return key ->
        decode payload = Return text ->
        encode (id ++ lit "." ++ ts ++ lit "." ++ text) = Return msg ->
        forallb is_ascii (split_ws sig) = true ->
        Permutation (split_ws sig) (split_ws sig') ->
        result (Resend.verify_svix_signature now payload
                  [("svix-id"%string, id); ("svix-timestamp"%string, ts);
                   ("svix-signature"%string, sig)] (Some secret) tolerance)
        = result (Resend.verify_svix_signature now payload
                    [("svix-id"%string, id); ("svix-timestamp"%string, ts);
                     ("svix-signature"%string, sig')] (Some secret) tolerance))
  /\ (forall payload secret ts sigs sigs' key msg,
        ts <> [] -> ~ In 59 ts -> (forall s, In s sigs -> ~ In 59 s) ->
        encode secret = Return key ->
        encode (ts ++ lit ":" ++ payload) = Return msg ->
        forallb is_ascii sigs = true ->
        Permutation sigs sigs' ->
        result (Paddle.verify_paddle_signature payload
                  (Some (join [59]
                           ((lit "ts=" ++ ts) :: map (app (lit "h1=")) sigs)))
                  (Some secret))
        = result (Paddle.verify_paddle_signature payload
                    (Some (join [59]
                             ((lit "ts=" ++ ts)
                              :: map (app (lit "h1=")) sigs')))
                    (Some secret)))
  /\ (forall body id ts prefix encoded cands cands' text key msg,
        decode body = Return text ->
        ~ In 95 prefix -> ~ In 95 encoded ->
        b64decode encoded = Return key ->
        encode (id ++ lit "." ++ ts ++ lit "." ++ text) = Return msg ->
        (forall c, In c cands ->
           ~ In 32 (fst c) /\ ~ In 44 (fst c)
           /\ ~ In 32 (snd c) /\ ~ In 44 (snd c)) ->
        Permutation cands cands' ->
        result (Clerk.verify_clerk_signature body id ts
                  (join [32] (map (fun c => fst c ++ 44 :: snd c) cands))
                  (prefix ++ 95 :: encoded))
        = result (Clerk.verify_clerk_signature body id ts
                    (join [32] (map (fun c => fst c ++ 44 :: snd c) cands'))
                    (prefix ++ 95 :: encoded))).
Proof.
  split; [exact resend_verify_candidates|].
  split; [exact paddle_text_candidates|].
  split; [exact clerk_text_candidates|].
  split; [|split].
  - intros now payload secret tolerance id ts sig sig' t key text msg
      Hid Hts Hsig Hsig' Ht Hw Hk Htext Hmsg Hascii Hperm.
    rewrite (resend_verify_candidates now payload secret tolerance id ts sig
               t key text msg) by assumption.
    rewrite (resend_verify_candidates now payload secret tolerance id ts sig'
               t key text msg); try assumption.
    + f_equal. now apply existsb_permutation.
    + rewrite forallb_forall in *. intros c Hc. apply Hascii.
      eapply Permutation_in; [symmetry; exact Hperm|exact Hc].
  - intros payload secret ts sigs sigs' key msg
      Hts Hno Hs Hk Hmsg Hascii Hperm.
    rewrite (paddle_text_candidates payload secret ts sigs key msg)
      by assumption.
    rewrite (paddle_text_candidates payload secret ts sigs' key msg);
      try assumption.
    + f_equal. now apply existsb_permutation.
    + intros s Hin. apply Hs.
      eapply Permutation_in; [symmetry; exact Hperm|exact Hin].
    + rewrite forallb_forall in *. intros c Hc. apply Hascii.
      eapply Permutation_in; [symmetry; exact Hperm|exact Hc].
  - intros body id ts prefix encoded cands cands' text key msg
      Htext Hp He Hk Hmsg Hc Hperm.
    rewrite (clerk_text_candidates body id ts prefix encoded cands text key
               msg) by assumption.
    rewrite (clerk_text_candidates body id ts prefix encoded cands' text key
               msg); try assumption.
    + f_equal. apply existsb_permutation. now apply Permutation_map.
    + intros c Hin. apply Hc.
      eapply Permutation_in; [symmetry; exact Hperm|exact Hin].
Qed.

(** A valid candidate after a garbage one is found by the three routines. *)
Lemma C4_witness :
  result (Resend.verify_svix_signature 2000 Examples.evt_body
            [("svix-id"%string, lit "msg_1");
             ("svix-timestamp"%string, lit "2000");
             ("svix-signature"%string,
              lit "v1,garbage " ++ Examples.svix_signature_2000)]
            (Some Examples.svix_secret) 300)
  = Return true
  /\ result (Paddle.verify_paddle_signature Examples.evt_body
               (Some (lit "ts=1;h1=garbage;h1=" ++ Examples.paddle_digest_1))
               (Some Examples.evt_secret))
     = Return true
  /\ result (Clerk.verify_clerk_signature Examples.evt_body (lit "msg_1")
               (lit "2000") (lit "v1,garbage " ++ Examples.svix_signature_2000)
               Examples.svix_secret)
     = Return true.
Proof.
  split; [|split].
  - etransitivity.
    + apply (proj1 C4_any_candidate_matches 2000%Z Examples.evt_body
               Examples.svix_secret 300%Z (lit "msg_1") (lit "2000")
               (lit "v1,garbage " ++ Examples.svix_signature_2000) 2000%Z
               (lit "test_secret") Examples.evt_body
               (lit "msg_1.2000." ++ Examples.evt_body)).
      * discriminate.
      * discriminate.
      * discriminate.
      * vm_compute. reflexivity.
      * vm_compute. discriminate.
      * vm_compute. reflexivity.
      * vm_compute. reflexivity.
      * vm_compute. reflexivity.
      * vm_compute. reflexivity.
    + vm_compute. reflexivity.
  - etransitivity.
    + apply (proj1 (proj2 C4_any_candidate_matches) Examples.evt_body
               Examples.evt_secret (lit "1")
               [lit "garbage"; Examples.paddle_digest_1]
               Examples.evt_secret (lit "1:" ++ Examples.evt_body)).
      * discriminate.
      * apply not_in_by_contains. vm_compute. reflexivity.
      * intros s [<-|[<-|[]]]; apply not_in_by_contains; vm_compute;
          reflexivity.
      * vm_compute. reflexivity.
      * vm_compute. reflexivity.
      * vm_compute. reflexivity.
    + vm_compute. reflexivity.
  - etransitivity.
    + apply (proj1 (proj2 (proj2 C4_any_candidate_matches)) Examples.evt_body
               (lit "msg_1") (lit "2000") (lit "whsec")
               (lit "dGVzdF9zZWNyZXQ=")
               [(lit "v1", lit "garbage");
                (lit "v1", skipn 3 Examples.svix_signature_2000)]
               Examples.evt_body (lit "test_secret")
               (lit "msg_1.2000." ++ Examples.evt_body)).
      * vm_compute. reflexivity.
      * apply not_in_by_contains. vm_compute. reflexivity.
      * apply not_in_by_contains. vm_compute. reflexivity.
      * vm_compute. reflexivity.
      * vm_compute. reflexivity.
      * intros c [<-|[<-|[]]]; repeat split; apply not_in_by_contains;
          vm_compute; reflexivity.
    + vm_compute. reflexivity.
Defined.

(** C4 as stated fails.  Clerk refuses a header whose first candidate has no
    comma although the second one is valid; Paddle refuses a header in which
    a candidate that is not ASCII precedes the valid one, and accepts it in
    the other order. *)
Lemma C4_counterexample_garbage_before_valid :
  (result (Clerk.verify_clerk_signature Examples.evt_body (lit "msg_1")
             (lit "2000") Examples.svix_signature_2000 Examples.svix_secret)
   = Return true
   /\ result (Clerk.verify_clerk_signature Examples.evt_body (lit "msg_1")
                (lit "2000") (lit "garbage " ++ Examples.svix_signature_2000)
                Examples.svix_secret)
      = Return false)
  /\ (result (Paddle.verify_paddle_signature Examples.evt_body
                (Some (lit "ts=1;h1=" ++ [233] ++ lit ";h1="
                       ++ Examples.paddle_digest_1))
                (Some Examples.evt_secret))
      = Return false
      /\ result (Paddle.verify_paddle_signature Examples.evt_body
                   (Some (lit "ts=1;h1=" ++ Examples.paddle_digest_1
                          ++ lit ";h1=" ++ [233]))
                   (Some Examples.evt_secret))
         = Return true).
Proof. repeat split; vm_compute; reflexivity. Qed.

(** ** ElevenLabs: every failure is an exception *)

Lemma compare_digest_non_ascii a b :
  is_ascii a && is_ascii b = false ->
  result (compare_digest a b) = Raise TypeError.
Proof. unfold compare_digest. intros ->. reflexivity. Qed.


Lemma int_of_str_raises s e : int_of_str s = Raise e -> e = ValueError.
Proof.
  unfold int_of_str.
  destruct (match strip s with
            | 45 :: r => (true, r)
            | 43 :: r => (false, r)
            | r => (false, r)
            end) as [negative digits].
  destruct (digits_value digits 0 false); [|congruence].
  destruct (int_max_str_digits <? count_digits digits); congruence.
Qed.











(** * Round trip of the HMAC schemes with a timestamp *)

(** ** Characters of hexadecimal and base64 text *)








(** ** [split] on blanks *)




(** ** Inversion of a successful computation *)







Lemma is_ascii_digits s : forallb is_digit s = true -> is_ascii s = true.
Proof.
  apply forallb_impl. intros c H. unfold is_digit in H.
  apply andb_prop in H as [_ H]. apply N.leb_le in H. apply N.ltb_lt. lia.
Qed.

(** ** Paddle *)



(** ** Resend, Clerk, OpenAI, Replicate *)







Lemma str_eqb_sym a b : str_eqb a b = str_eqb b a.
Proof.
  destruct (str_eqb b a) eqn:E.
  - apply str_eqb_eq in E. subst. apply str_eqb_refl.
  - apply str_eqb_neq in E. apply str_eqb_neq. congruence.
Qed.



(** ** ElevenLabs and Webflow *)








(** * Further properties of the receivers *)

(** ** More on the library model *)

Lemma split_nonempty sep s : split sep s <> [].
Proof.
  destruct s as [|c r]; cbn [split]; [discriminate|].
  destruct (c =? sep); [discriminate|].
  destruct (split sep r); discriminate.
Qed.

Lemma join_cons sep x y l :
  join sep (x :: y :: l) = x ++ sep ++ join sep (y :: l).
Proof. reflexivity. Qed.

Lemma join_split sep s : join [sep] (split sep s) = s.
Proof.
  induction s as [|c r IH]; [reflexivity|].
  cbn [split]. pose proof (split_nonempty sep r) as Hn.
  destruct (split sep r) as [|h t]; [congruence|].
  destruct (c =? sep) eqn:E.
  - apply N.eqb_eq in E. subst c. rewrite join_cons, IH. reflexivity.
  - destruct t as [|h' t'].
    + cbn [join] in *. now rewrite IH.
    + rewrite join_cons. rewrite join_cons in IH.
      rewrite <- IH. reflexivity.
Qed.

Lemma split_two sep s a b : split sep s = [a; b] -> s = a ++ sep :: b.
Proof.
  intros H. rewrite <- (join_split sep s), H. reflexivity.
Qed.

Lemma before_after c s :
  contains c s = true -> s = before c s ++ c :: after c s.
Proof.
  unfold contains. induction s as [|x r IH]; cbn [existsb before after app].
  - discriminate.
  - rewrite N.eqb_sym. destruct (x =? c) eqn:E.
    + apply N.eqb_eq in E. subst. reflexivity.
    + cbn [orb app]. intros H. f_equal. apply IH, H.
Qed.

Lemma before_no_sep c s : ~ In c (before c s).
Proof.
  induction s as [|x r IH]; cbn [before]; [intros []|].
  destruct (x =? c) eqn:E; [intros []|].
  apply N.eqb_neq in E. intros [H|H]; [congruence|now apply IH].
Qed.

Lemma app_out_Raise {A} (x : list A) o e :
  app_out x o = Raise e -> o = Raise e.
Proof. destruct o; cbn; congruence. Qed.

Lemma cons_out_Raise {A} (x : A) o e :
  cons_out x o = Raise e -> o = Raise e.
Proof. destruct o; cbn; congruence. Qed.

Lemma encode_raises s e : encode s = Raise e -> e = UnicodeEncodeError.
Proof.
  induction s as [|c r IH]; cbn [encode]; [discriminate|].
  destruct (encode_char c); [|congruence].
  intros H. apply app_out_Raise in H. auto.
Qed.

Lemma decode_raises_upto n : forall bs e,
  (length bs <= n)%nat -> decode bs = Raise e -> e = UnicodeDecodeError.
Proof.
  induction n as [|n IH]; intros bs e Hl.
  - destruct bs; [discriminate|cbn in Hl; lia].
  - destruct bs as [|b0 r0]; [discriminate|]. cbn [length] in Hl.
    cbn [decode].
    destruct (b0 <? 0x80).
    { intros H. apply cons_out_Raise in H. apply (IH r0); [lia|exact H]. }
    destruct ((0xC2 <=? b0) && (b0 <=? 0xDF)).
    { destruct r0 as [|b1 r1]; [congruence|]. cbn [length] in Hl.
      destruct (is_cont b1); [|congruence].
      intros H. apply cons_out_Raise in H. apply (IH r1); [lia|exact H]. }
    destruct ((0xE0 <=? b0) && (b0 <=? 0xEF)).
    { destruct r0 as [|b1 [|b2 r2]]; try congruence. cbn [length] in Hl.
      cbv zeta.
      match goal with |- (if ?c then _ else _) = _ -> _ => destruct c end;
        [|congruence].
      intros H. apply cons_out_Raise in H. apply (IH r2); [lia|exact H]. }
    destruct ((0xF0 <=? b0) && (b0 <=? 0xF4)); [|congruence].
    destruct r0 as [|b1 [|b2 [|b3 r3]]]; try congruence. cbn [length] in Hl.
    cbv zeta.
    match goal with |- (if ?c then _ else _) = _ -> _ => destruct c end;
      [|congruence].
    intros H. apply cons_out_Raise in H. apply (IH r3); [lia|exact H].
Qed.

Lemma decode_raises bs e : decode bs = Raise e -> e = UnicodeDecodeError.
Proof. apply (decode_raises_upto (length bs)). lia. Qed.

Lemma a2b_base64_raises s : forall quad_pos leftchar pads e,
  a2b_base64 s quad_pos leftchar pads = Raise e -> e = BinasciiError.
Proof.
  induction s as [|ch rest IH]; intros quad_pos leftchar pads e;
    cbn [a2b_base64].
  - destruct (quad_pos =? 0); congruence.
  - destruct (ch =? b64_pad).
    + destruct (2 <=? quad_pos); [|apply IH].
      destruct (4 <=? quad_pos + (pads + 1)); [discriminate|apply IH].
    + destruct (b64_value ch) as [v|]; [|apply IH].
      destruct (quad_pos =? 0); [apply IH|].
      destruct (quad_pos =? 1);
        [intros H; apply cons_out_Raise in H; revert H; apply IH|].
      destruct (quad_pos =? 2);
        intros H; apply cons_out_Raise in H; revert H; apply IH.
Qed.

Lemma b64decode_raises s e :
  b64decode s = Raise e -> e = ValueError \/ e = BinasciiError.
Proof.
  unfold b64decode. destruct (is_ascii s).
  - intros H. right. eapply a2b_base64_raises, H.
  - intros [= <-]. now left.
Qed.

Lemma compare_digest_raises a b e :
  result (compare_digest a b) = Raise e ->
  e = TypeError /\ is_ascii a && is_ascii b = false.
Proof.
  unfold compare_digest. destruct (is_ascii a && is_ascii b); cbn.
  - discriminate.
  - intros [= <-]. auto.
Qed.

(** [replace] with an ASCII pattern and nothing in its place keeps every
    character outside ASCII. *)

Lemma is_ascii_cons c s : is_ascii (c :: s) = (c <? 128) && is_ascii s.
Proof. reflexivity. Qed.

Lemma startswith_cons_inv p pre c s :
  startswith (p :: pre) (c :: s) = true -> p = c /\ startswith pre s = true.
Proof.
  cbn [startswith]. intros H. apply andb_prop in H as [H1 H2].
  apply N.eqb_eq in H1. auto.
Qed.

Lemma replace_from_ascii o0 old' suffix s :
  is_ascii (o0 :: old') = true ->
  (exists pre, o0 :: old' = pre ++ suffix) ->
  startswith suffix s = true ->
  is_ascii (replace_from (o0 :: old') [] (length suffix) s) = is_ascii s.
Proof.
  intros Hold. revert suffix.
  induction s as [|c r IH]; intros suffix Hsuf Hst.
  - destruct suffix; reflexivity.
  - destruct suffix as [|x suffix'].
    + cbn [length replace_from].
      destruct (startswith (o0 :: old') (c :: r)) eqn:Hm.
      * apply startswith_cons_inv in Hm as [<- Hm].
        cbn [app length]. replace (S (length old') - 1)%nat
          with (length old') by lia.
        rewrite (IH old').
        -- rewrite is_ascii_cons. rewrite is_ascii_cons in Hold.
           apply andb_prop in Hold as [-> _]. reflexivity.
        -- exists [o0]. reflexivity.
        -- exact Hm.
      * rewrite !is_ascii_cons. f_equal. apply (IH []); [|reflexivity].
        exists (o0 :: old'). now rewrite app_nil_r.
    + apply startswith_cons_inv in Hst as [<- Hst].
      cbn [length replace_from]. rewrite (IH suffix').
      * rewrite is_ascii_cons.
        destruct Hsuf as [pre Hpre]. rewrite Hpre in Hold.
        rewrite is_ascii_app, is_ascii_cons in Hold.
        apply andb_prop in Hold as [_ Hold].
        apply andb_prop in Hold as [-> _]. reflexivity.
      * destruct Hsuf as [pre ->]. exists (pre ++ [x]).
        now rewrite <- app_assoc.
      * exact Hst.
Qed.

Lemma replace_ascii o0 old' s :
  is_ascii (o0 :: old') = true ->
  is_ascii (replace (o0 :: old') [] s) = is_ascii s.
Proof.
  intros H. apply (replace_from_ascii o0 old' [] s H); [|reflexivity].
  exists (o0 :: old'). now rewrite app_nil_r.
Qed.

Lemma not_ascii_nonempty h : is_ascii h = false -> exists c r, h = c :: r.
Proof. destruct h as [|c r]; [discriminate|eauto]. Qed.

(** The guard [if not verify(...): raise HTTPException(c)]. *)

Lemma status_bind_guard (m : M bool) (c : N) :
  status (ok <- m ;; if negb ok then http_error c else ret tt) =
  match result m with
  | Return true => None
  | Return false => Some c
  | Raise (HTTPException c') => Some c'
  | Raise _ => Some 500
  end.
Proof.
  unfold status. rewrite result_bind.
  destruct (result m) as [[|]|e]; reflexivity.
Qed.

Lemma result_bind_guard (m : M bool) (c : N) :
  result (ok <- m ;; if negb ok then http_error c else ret tt) =
  match result m with
  | Return true => Return tt
  | Return false => Raise (HTTPException c)
  | Raise e => Raise e
  end.
Proof.
  rewrite result_bind. destruct (result m) as [[|]|e]; reflexivity.
Qed.

Lemma svix_headers_lookup request name :
  name = "svix-id"%string \/ name = "svix-timestamp"%string
  \/ name = "svix-signature"%string ->
  lookup name (Resend.svix_headers request) = header name request.
Proof.
  unfold Resend.svix_headers. cbn [flat_map].
  intros [-> | [-> | ->]];
    destruct (header "svix-id" request);
    destruct (header "svix-timestamp" request);
    destruct (header "svix-signature" request); reflexivity.
Qed.
(** ** Which signature is accepted *)

Lemma unique_shopify body sig secret :
  result (Shopify.verify_shopify_webhook body (Some sig) (Some secret))
  = Return true ->
  result (Shopify.generate_shopify_signature body secret) = Return sig.
Proof.
  unfold Shopify.verify_shopify_webhook, Shopify.generate_shopify_signature,
    encode_opt.
  destruct (encode secret) as [key|e]; [|discriminate].
  rewrite !bind_lift_Return, b64encode_str_eq, bind_ret.
  intros H. apply compare_digest_true in H as [-> _]. reflexivity.
Qed.

Lemma unique_vercel body sig secret :
  result (Vercel.verify_signature body sig secret) = Return true ->
  result (Vercel.generate_vercel_signature body secret) = Return sig.
Proof.
  unfold Vercel.verify_signature, Vercel.generate_vercel_signature.
  destruct (nonempty secret); cbn [negb]; [|discriminate].
  destruct (encode secret) as [key|e]; [|discriminate].
  rewrite !bind_lift_Return.
  intros H. apply compare_digest_true in H as [-> _]. reflexivity.
Qed.

Lemma unique_woocommerce body sig secret :
  result (Woocommerce.verify_woocommerce_webhook body (Some sig) (Some secret))
  = Return true ->
  result (Woocommerce.generate_test_signature body secret) = Return sig.
Proof.
  unfold Woocommerce.verify_woocommerce_webhook,
    Woocommerce.generate_test_signature.
  destruct sig as [|s0 sr]; [discriminate|].
  destruct secret as [|c0 cr]; [discriminate|].
  destruct body as [|b0 br]; [discriminate|].
  destruct (encode (c0 :: cr)) as [key|e]; [|discriminate].
  rewrite !bind_lift_Return.
  rewrite decode_ascii by apply is_ascii_b64encode.
  rewrite bind_lift_Return.
  intros H. apply compare_digest_true in H as [-> _]. reflexivity.
Qed.

Lemma unique_cursor body sig secret :
  result (Cursor.verify_cursor_webhook body (Some sig) (Some secret))
  = Return true ->
  result (Cursor.generate_signature body secret) = Return sig.
Proof.
  unfold Cursor.verify_cursor_webhook, Cursor.generate_signature.
  destruct sig as [|s0 sr]; [discriminate|].
  destruct secret as [|c0 cr]; [discriminate|].
  destruct (split 61 (s0 :: sr)) as [|p0 [|signature [|x t]]] eqn:Hsp;
    try discriminate.
  destruct (str_eqb p0 (lit "sha256")) eqn:Hp; cbn [negb]; [|discriminate].
  apply str_eqb_eq in Hp. subst p0.
  destruct (encode (c0 :: cr)) as [key|e]; [|discriminate].
  rewrite !bind_lift_Return.
  intros H. apply compare_digest_true in H as [-> _].
  rewrite (split_two _ _ _ _ Hsp). reflexivity.
Qed.

Lemma unique_hookdeck body sig secret :
  result (Hookdeck.verify_hookdeck_signature body (Some sig) (Some secret))
  = Return true ->
  result (Hookdeck.generate_hookdeck_signature body secret) = Return sig.
Proof.
  unfold Hookdeck.verify_hookdeck_signature,
    Hookdeck.generate_hookdeck_signature.
  destruct sig as [|s0 sr]; [discriminate|].
  destruct secret as [|c0 cr]; [discriminate|].
  destruct (encode (c0 :: cr)) as [key|e]; [|discriminate].
  rewrite !bind_lift_Return, b64encode_str_eq.
  rewrite decode_ascii by apply is_ascii_b64encode.
  rewrite bind_lift_Return.
  intros H. apply compare_digest_true in H as [H _]. rewrite <- H. reflexivity.
Qed.

Lemma catalog_accepted_signature sch body sig secret :
  sch <> Catalog.GitHub ->
  result (Catalog.verify sch body sig secret) = Return true ->
  Catalog.guards sch body secret = true
  /\ result (Catalog.valid_signature sch body secret) = Return sig.
Proof.
  intros Hs Hv. split.
  - destruct sch; cbn [Catalog.verify Catalog.guards] in *;
      try reflexivity.
    + unfold Vercel.verify_signature in Hv.
      destruct (nonempty secret); [reflexivity|discriminate].
    + unfold Woocommerce.verify_woocommerce_webhook in Hv.
      destruct sig as [|s0 sr]; [discriminate|].
      destruct secret as [|c0 cr]; [discriminate|].
      destruct body as [|b0 br]; [discriminate|]. reflexivity.
    + unfold Cursor.verify_cursor_webhook in Hv.
      destruct sig as [|s0 sr]; [discriminate|].
      destruct secret as [|c0 cr]; [discriminate|]. reflexivity.
    + unfold Hookdeck.verify_hookdeck_signature in Hv.
      destruct sig as [|s0 sr]; [discriminate|].
      destruct secret as [|c0 cr]; [discriminate|]. reflexivity.
  - destruct sch; cbn [Catalog.verify Catalog.valid_signature] in *.
    + congruence.
    + now apply unique_shopify.
    + now apply unique_vercel.
    + now apply unique_woocommerce.
    + now apply unique_cursor.
    + now apply unique_hookdeck.
Qed.

(** X1.  The schemes that send the HMAC in base64 (Shopify, WooCommerce,
    Hookdeck): the routine accepts one header value and no other, the one
    the sender computes over the same body with the same secret, and only
    when the routine's own emptiness guards pass. *)
Theorem base64_schemes_accept_exactly_the_senders_signature sch body sig
  secret :
  sch = Catalog.Shopify \/ sch = Catalog.WooCommerce
  \/ sch = Catalog.Hookdeck ->
  result (Catalog.verify sch body sig secret) = Return true
  <-> Catalog.guards sch body secret = true
      /\ result (Catalog.valid_signature sch body secret) = Return sig.
Proof.
  intros Hs. split.
  - apply catalog_accepted_signature.
    destruct Hs as [-> | [-> | ->]]; discriminate.
  - intros [Hg Hsig]. now apply catalog_roundtrip.
Qed.

Lemma base64_schemes_accept_exactly_the_senders_signature_witness :
  result (Catalog.verify Catalog.Shopify Examples.evt_body
            (lit "k7OYucpish/oyaBLX8PLC2P2v6VDNJALvBF4Wu8I8n0=")
            Examples.evt_secret) = Return true
  /\ result (Catalog.verify Catalog.Shopify Examples.evt_body
               (lit "k7OYucpish/oyaBLX8PLC2P2v6VDNJALvBF4Wu8I8n0")
               Examples.evt_secret) <> Return true.
Proof.
  split.
  - apply base64_schemes_accept_exactly_the_senders_signature; [now left|].
    split; vm_compute; reflexivity.
  - intros H.
    apply base64_schemes_accept_exactly_the_senders_signature in H;
      [|now left].
    destruct H as [_ H]. vm_compute in H. discriminate H.
Defined.

(** X2.  The schemes that send the HMAC in hexadecimal without a window
    (Vercel with SHA-1, Cursor with SHA-256 after [sha256=]): the routine
    accepts exactly the header value the sender computes, for Cursor
    [sha256=] followed by the digest, and only with a non-empty secret. *)
Theorem hex_schemes_accept_exactly_the_senders_signature sch body sig secret :
  sch = Catalog.Vercel \/ sch = Catalog.Cursor ->
  result (Catalog.verify sch body sig secret) = Return true
  <-> Catalog.guards sch body secret = true
      /\ result (Catalog.valid_signature sch body secret) = Return sig.
Proof.
  intros Hs. split.
  - apply catalog_accepted_signature.
    destruct Hs as [-> | ->]; discriminate.
  - intros [Hg Hsig]. now apply catalog_roundtrip.
Qed.

Lemma hex_schemes_accept_exactly_the_senders_signature_witness :
  result (Catalog.verify Catalog.Cursor Examples.evt_body
            (lit "sha256=" ++ Examples.evt_digest) Examples.evt_secret)
  = Return true
  /\ result (Catalog.verify Catalog.Cursor Examples.evt_body
               Examples.evt_digest Examples.evt_secret) <> Return true.
Proof.
  split.
  - apply hex_schemes_accept_exactly_the_senders_signature; [now right|].
    split; vm_compute; reflexivity.
  - intros H.
    apply hex_schemes_accept_exactly_the_senders_signature in H;
      [|now right].
    destruct H as [_ H]. vm_compute in H. discriminate H.
Defined.

(** X3.  OpenAI: the routine returns True only for the three headers of a
    delivery whose timestamp is at most 300 seconds away from the clock and
    whose signature header is exactly the one the sender computes,
    [v1,] followed by the base64 HMAC. *)
Theorem openai_accepted_signature now payload id ts sig secret :
  result (Openai.verify_openai_signature now payload id ts sig secret)
  = Return true ->
  exists id' ts' sig' t,
    id = Some id' /\ ts = Some ts' /\ sig = Some sig'
    /\ int_of_str ts' = Return t
    /\ (Z.abs (now - t) <= 300)%Z
    /\ result (Openai.generate_standard_webhooks_signature payload secret
                 id' ts') = Return sig'.
Proof.
  unfold Openai.verify_openai_signature,
    Openai.generate_standard_webhooks_signature.
  destruct id as [[|i0 ir]|]; try discriminate.
  destruct ts as [[|t0 tr]|]; try discriminate.
  destruct sig as [[|s0 sr]|]; try discriminate.
  destruct (contains 44 (s0 :: sr)) eqn:Hc; cbn [negb]; [|discriminate].
  cbv zeta.
  destruct (int_of_str (t0 :: tr)) as [t|e] eqn:Ht.
  2:{ destruct (is_ValueError e); discriminate. }
  destruct ((300 <? now - t) || (now - t <? -300))%Z eqn:Hw; [discriminate|].
  apply orb_false_iff in Hw as [Hw1 Hw2].
  apply Z.ltb_ge in Hw1, Hw2.
  unfold split1. rewrite Hc.
  destruct (str_eqb (before 44 (s0 :: sr)) (lit "v1")) eqn:Hv;
    cbn [negb]; [|discriminate].
  apply str_eqb_eq in Hv.
  destruct (decode payload) as [text|e] eqn:Hd; [|discriminate].
  rewrite !bind_lift_Return.
  match goal with |- context [b64decode ?x] =>
    destruct (b64decode x) as [key|e] eqn:Hk end; [|discriminate].
  match goal with |- context [encode ?x] =>
    destruct (encode x) as [msg|e] eqn:Hm end; [|discriminate].
  rewrite !bind_lift_Return, b64encode_str_eq, !bind_ret.
  intros H. apply compare_digest_true in H as [H _].
  exists (i0 :: ir), (t0 :: tr), (s0 :: sr), t.
  split; [reflexivity|]. split; [reflexivity|]. split; [reflexivity|].
  split; [exact Ht|]. split; [lia|].
  cbv zeta. rewrite !bind_lift_Return, Hm, bind_lift_Return, b64encode_str_eq, bind_ret.
  cbn [result ret snd]. f_equal.
  rewrite (before_after 44 (s0 :: sr) Hc) at 1. rewrite Hv, <- H. reflexivity.
Qed.

Lemma openai_accepted_signature_witness :
  exists id ts sig t,
    Some (lit "msg_1") = Some id /\ Some (lit "2000") = Some ts
    /\ Some Examples.svix_signature_2000 = Some sig
    /\ int_of_str ts = Return t
    /\ (Z.abs (2100 - t) <= 300)%Z
    /\ result (Openai.generate_standard_webhooks_signature Examples.evt_body
                 Examples.svix_secret id ts) = Return sig.
Proof.
  apply (openai_accepted_signature 2100 Examples.evt_body
           (Some (lit "msg_1")) (Some (lit "2000"))
           (Some Examples.svix_signature_2000) Examples.svix_secret).
  vm_compute. reflexivity.
Defined.

(** X4.  Webflow: the routine returns True only when the timestamp is at
    most 300000 milliseconds away from the clock, the body is UTF-8 and the
    signature is exactly the hexadecimal HMAC the sender computes over
    [timestamp:body]. *)
Theorem webflow_accepted_signature now_ms raw_body signature ts secret :
  result (Webflow.verify_webflow_signature now_ms raw_body signature ts secret)
  = Return true ->
  exists t text,
    int_of_str ts = Return t
    /\ (Z.abs (now_ms - t) <= 300000)%Z
    /\ decode raw_body = Return text
    /\ result (Webflow.generate_signature text ts secret) = Return signature.
Proof.
  unfold Webflow.verify_webflow_signature, Webflow.generate_signature.
  destruct (int_of_str ts) as [t|e] eqn:Ht.
  2:{ destruct (is_ValueError e); discriminate. }
  cbv zeta. destruct (300000 <? Z.abs (now_ms - t))%Z eqn:Hw; [discriminate|].
  apply Z.ltb_ge in Hw.
  destruct (decode raw_body) as [text|e]; [|discriminate].
  rewrite bind_lift_Return.
  destruct (encode secret) as [key|e] eqn:Hk; [|discriminate].
  rewrite !bind_lift_Return.
  destruct (encode (ts ++ lit ":" ++ text)) as [msg|e] eqn:Hm; [|discriminate].
  rewrite !bind_lift_Return.
  intros H. apply compare_digest_true in H as [-> _].
  exists t, text. repeat split; [lia|].
  rewrite Hm, bind_lift_Return. reflexivity.
Qed.

Lemma webflow_accepted_signature_witness :
  exists t text,
    int_of_str (lit "2000000") = Return t
    /\ (Z.abs (2100000 - t) <= 300000)%Z
    /\ decode Examples.evt_body = Return text
    /\ result (Webflow.generate_signature text (lit "2000000")
                 Examples.evt_secret)
       = Return (hmac_hexdigest Examples.evt_secret
                   (lit "2000000:" ++ Examples.evt_body) hashlib_sha256).
Proof.
  apply (webflow_accepted_signature 2100000 Examples.evt_body
           (hmac_hexdigest Examples.evt_secret
              (lit "2000000:" ++ Examples.evt_body) hashlib_sha256)
           (lit "2000000") Examples.evt_secret).
  vm_compute. reflexivity.
Defined.

(** ** Timestamps *)

(** X5.  Resend, OpenAI and Webflow return False, and ElevenLabs raises
    ValueError, for every timestamp further from the clock than the
    tolerance, in the past as in the future and whatever the signature
    is. *)
Theorem replay_window_both_sides now t ts :
  int_of_str ts = Return t ->
  (forall payload headers secret tolerance id sig,
     lookup "svix-id" headers = Some id ->
     lookup "svix-timestamp" headers = Some ts ->
     lookup "svix-signature" headers = Some sig ->
     (tolerance < Z.abs (now - t))%Z ->
     result (Resend.verify_svix_signature now payload headers secret tolerance)
     = Return false)
  /\ (forall payload id sig secret,
        (300 < Z.abs (now - t))%Z ->
        result (Openai.verify_openai_signature now payload (Some id) (Some ts)
                  (Some sig) secret) = Return false)
  /\ (forall raw_body signature secret,
        (300000 < Z.abs (now - t))%Z ->
        result (Webflow.verify_webflow_signature now raw_body signature ts
                  secret) = Return false)
  /\ (forall raw_body hdr sigs secret,
        fold_left Elevenlabs.parse_element (split 44 hdr) (None, [])
        = (Some ts, sigs) ->
        (1800 < Z.abs (now - t))%Z ->
        result (Elevenlabs.verify_elevenlabs_webhook now raw_body (Some hdr)
                  secret) = Raise ValueError).
Proof.
  intros Ht. split; [|split; [|split]].
  - intros. now apply (resend_window _ _ _ _ _ id ts sig t).
  - intros. now apply (openai_window _ _ _ _ _ _ t).
  - intros. now apply (webflow_window _ _ _ _ _ t).
  - intros raw_body hdr sigs secret Hp Hw.
    unfold Elevenlabs.verify_elevenlabs_webhook.
    destruct hdr as [|h0 hr]; [reflexivity|]. rewrite Hp.
    destruct ts as [|t0 tr]; [reflexivity|].
    destruct sigs as [|s0 sr]; [reflexivity|].
    rewrite Ht, bind_lift_Return. apply Z.ltb_lt in Hw. rewrite Hw.
    reflexivity.
Qed.

Lemma replay_window_both_sides_witness :
  result (Webflow.verify_webflow_signature 1000000 Examples.evt_body
            Examples.evt_digest (lit "2000000") Examples.evt_secret)
  = Return false
  /\ result (Webflow.verify_webflow_signature 3000000 Examples.evt_body
               Examples.evt_digest (lit "2000000") Examples.evt_secret)
     = Return false.
Proof.
  split.
  - apply (proj1 (proj2 (proj2
      (replay_window_both_sides 1000000 2000000 (lit "2000000") eq_refl)))).
    reflexivity.
  - apply (proj1 (proj2 (proj2
      (replay_window_both_sides 3000000 2000000 (lit "2000000") eq_refl)))).
    reflexivity.
Defined.

(** X6.  A timestamp that [int()] does not accept is refused without an
    exception: Resend, OpenAI and Webflow return False, and the handler of
    Clerk, which parses the timestamp itself, answers 400. *)
Theorem malformed_timestamp_is_rejected now ts e :
  int_of_str ts = Raise e ->
  (forall payload headers secret tolerance,
     lookup "svix-timestamp" headers = Some ts ->
     result (Resend.verify_svix_signature now payload headers secret tolerance)
     = Return false)
  /\ (forall payload id sig secret,
        result (Openai.verify_openai_signature now payload id (Some ts) sig
                  secret) = Return false)
  /\ (forall raw_body signature secret,
        result (Webflow.verify_webflow_signature now raw_body signature ts
                  secret) = Return false)
  /\ (forall secret request,
        startswith (lit "whsec_") secret = true ->
        header "svix-timestamp" request = Some ts ->
        status (Clerk.clerk_webhook now (Some secret) request) = Some 400).
Proof.
  intros He. pose proof (int_of_str_raises _ _ He) as ->.
  split; [|split; [|split]].
  - intros payload headers secret tolerance Hts.
    unfold Resend.verify_svix_signature. rewrite Hts.
    destruct (lookup "svix-id" headers) as [[|i0 ir]|]; try reflexivity.
    destruct ts as [|t0 tr]; [reflexivity|].
    destruct (lookup "svix-signature" headers) as [[|s0 sr]|];
      try reflexivity.
    rewrite He. reflexivity.
  - intros payload id sig secret. unfold Openai.verify_openai_signature.
    destruct id as [[|i0 ir]|]; try reflexivity.
    destruct ts as [|t0 tr]; [reflexivity|].
    destruct sig as [[|s0 sr]|]; try reflexivity.
    destruct (negb (contains 44 (s0 :: sr))); [reflexivity|].
    rewrite He. reflexivity.
  - intros raw_body signature secret. unfold Webflow.verify_webflow_signature.
    rewrite He. reflexivity.
  - intros secret request Hs Hts. unfold Clerk.clerk_webhook. rewrite Hts.
    destruct (header "svix-id" request) as [[|i0 ir]|]; try reflexivity.
    destruct ts as [|t0 tr]; [reflexivity|].
    destruct (header "svix-signature" request) as [[|s0 sr]|];
      try reflexivity.
    destruct secret as [|c0 cr]; [discriminate|].
    rewrite Hs. cbn [negb].
    unfold status. rewrite result_bind.
    destruct (clerk_never_raises (body request) (i0 :: ir) (t0 :: tr)
                (s0 :: sr) (c0 :: cr)) as [b ->].
    destruct b; cbn [negb]; [|reflexivity].
    rewrite He. reflexivity.
Qed.

Lemma malformed_timestamp_is_rejected_witness :
  result (Webflow.verify_webflow_signature 1000 Examples.evt_body
            Examples.evt_digest (lit "12a") Examples.evt_secret)
  = Return false.
Proof.
  apply (proj1 (proj2 (proj2
    (malformed_timestamp_is_rejected 1000 (lit "12a") ValueError eq_refl)))).
Defined.

(** ** Tokens *)

Lemma openclaw_accepted auth_header x_token secret :
  result (Openclaw.verify_openclaw_webhook auth_header x_token secret)
  = Return true
  <-> exists token,
        Openclaw.extract_token auth_header x_token = Some token
        /\ secret = Some token /\ token <> [] /\ is_ascii token = true.
Proof.
  unfold Openclaw.verify_openclaw_webhook. cbv zeta.
  destruct (Openclaw.extract_token auth_header x_token) as [[|t0 tr]|].
  - split; [discriminate|]. intros (t & [= <-] & _ & Hne & _). congruence.
  - destruct secret as [[|s0 sr]|].
    + split; [discriminate|]. intros (t & [= <-] & [= ] & _).
    + rewrite compare_digest_true. split.
      * intros [E Ha]. exists (t0 :: tr). rewrite <- E.
        repeat split; try assumption. discriminate.
      * intros (t & [= <-] & [= -> ->] & _ & Ha). auto.
    + split; [discriminate|]. intros (t & _ & [= ] & _).
  - split; [discriminate|]. intros (t & [= ] & _).
Qed.

(** X7.  OpenClaw: the routine returns True exactly when the token taken
    from the request is the configured one, non-empty and ASCII; that token
    is the custom header when it is not empty, and otherwise what follows
    [Bearer ] in the [Authorization] header, if it starts so. *)
Theorem openclaw_accepts_iff auth_header x_token secret :
  (result (Openclaw.verify_openclaw_webhook auth_header x_token secret)
   = Return true
   <-> exists token,
         Openclaw.extract_token auth_header x_token = Some token
         /\ secret = Some token /\ token <> [] /\ is_ascii token = true)
  /\ (truthy x_token = true ->
      Openclaw.extract_token auth_header x_token = x_token)
  /\ (truthy x_token = false ->
      forall token,
        Openclaw.extract_token (Some (lit "Bearer " ++ token)) x_token
        = Some token)
  /\ (truthy x_token = false ->
      forall header,
        startswith (lit "Bearer ") header = false ->
        Openclaw.extract_token (Some header) x_token = None).
Proof.
  split; [apply openclaw_accepted|].
  unfold Openclaw.extract_token. split; [|split].
  - intros ->. reflexivity.
  - intros -> token. reflexivity.
  - intros -> header Hb. destruct header as [|h0 hr]; [reflexivity|].
    now rewrite Hb.
Qed.

Lemma openclaw_accepts_iff_witness :
  Openclaw.extract_token (Some (lit "Bearer test-secret-token")) (Some [])
  = Some Examples.claw_secret.
Proof.
  apply (proj1 (proj2 (proj2 (openclaw_accepts_iff None (Some []) None)))
           eq_refl Examples.claw_secret).
Defined.

(** X8.  OpenClaw: a non-empty [X-OpenClaw-Token] that is not the secret is
    answered 401 by both hooks, whatever the [Authorization] header
    carries. *)
Theorem openclaw_custom_header_overrides_bearer secret request x :
  header "x-openclaw-token" request = Some x ->
  x <> [] -> x <> secret ->
  is_ascii x = true -> is_ascii secret = true ->
  status (Openclaw.openclaw_wake_hook (Some secret) request) = Some 401
  /\ (query_param "token" request = None ->
      status (Openclaw.openclaw_agent_hook (Some secret) request) = Some 401).
Proof.
  intros Hx Hne Hdiff Hax Has.
  assert (Hv : result (Openclaw.verify_openclaw_webhook
                         (header "authorization" request)
                         (header "x-openclaw-token" request) (Some secret))
               = Return false).
  { unfold Openclaw.verify_openclaw_webhook, Openclaw.extract_token.
    rewrite Hx. destruct x as [|x0 xr]; [congruence|]. cbn [truthy].
    destruct secret as [|s0 sr]; [reflexivity|].
    rewrite compare_digest_ascii by assumption.
    cbn [result snd]. f_equal. apply str_eqb_neq. exact Hdiff. }
  split.
  - unfold Openclaw.openclaw_wake_hook. cbv zeta.
    rewrite status_bind_guard, Hv. reflexivity.
  - intros Hq. unfold Openclaw.openclaw_agent_hook. rewrite Hq. cbv zeta.
    rewrite status_bind_guard, Hv. reflexivity.
Qed.

Lemma openclaw_custom_header_overrides_bearer_witness :
  status (Openclaw.openclaw_wake_hook (Some Examples.claw_secret)
            MoreExamples.claw_request_two_tokens) = Some 401.
Proof.
  refine (proj1 (openclaw_custom_header_overrides_bearer Examples.claw_secret
                   MoreExamples.claw_request_two_tokens (lit "other")
                   eq_refl _ _ eq_refl eq_refl));
    discriminate.
Defined.

(** X9.  GitLab: the handler lets a request through exactly when the header
    [X-Gitlab-Token] is the configured token, non-empty and ASCII. *)
Theorem gitlab_handler_passes_iff env_token request :
  status (Gitlab.handle_gitlab_webhook env_token request) = None
  <-> exists token,
        header "x-gitlab-token" request = Some token
        /\ env_token = Some token /\ token <> [] /\ is_ascii token = true.
Proof.
  unfold Gitlab.handle_gitlab_webhook. rewrite status_bind_guard.
  unfold Gitlab.verify_gitlab_webhook.
  destruct (header "x-gitlab-token" request) as [[|t0 tr]|].
  - split; [discriminate|]. intros (t & [= <-] & _ & Hne & _). congruence.
  - destruct env_token as [[|s0 sr]|].
    + split; [discriminate|]. intros (t & [= <-] & [= ] & _).
    + unfold compare_digest.
      destruct (is_ascii (t0 :: tr) && is_ascii (s0 :: sr)) eqn:Ha.
      * cbn [result snd]. apply andb_prop in Ha as [Ha _].
        destruct (str_eqb (t0 :: tr) (s0 :: sr)) eqn:E.
        -- apply str_eqb_eq in E. split; [intros _|reflexivity].
           exists (t0 :: tr). split; [reflexivity|].
           split; [now rewrite E|]. split; [discriminate|exact Ha].
        -- apply str_eqb_neq in E. split; [discriminate|].
           intros (t & [= <-] & [= -> ->] & _). congruence.
      * cbn [result raise snd]. split; [discriminate|].
        intros (t & [= <-] & [= -> ->] & _ & Hat).
        rewrite Hat in Ha. discriminate.
    + split; [discriminate|]. intros (t & _ & [= ] & _).
  - split; [discriminate|]. intros (t & [= ] & _).
Qed.

(** X10.  Deepgram: the dependency returns True exactly when the header
    [dg-token] is the configured, non-empty token; it never returns False:
    a missing token is a 401 even when nothing is configured, a missing
    configuration a 500, another token a 403. *)
Theorem deepgram_true_or_http_error expected_token dg_token :
  (result (Deepgram.verify_deepgram_webhook expected_token dg_token)
   = Return true
   <-> exists token,
         dg_token = Some token /\ expected_token = Some token /\ token <> [])
  /\ (truthy dg_token = false ->
      result (Deepgram.verify_deepgram_webhook expected_token dg_token)
      = Raise (HTTPException 401))
  /\ (truthy dg_token = true -> truthy expected_token = false ->
      result (Deepgram.verify_deepgram_webhook expected_token dg_token)
      = Raise (HTTPException 500))
  /\ (truthy dg_token = true -> truthy expected_token = true ->
      dg_token <> expected_token ->
      result (Deepgram.verify_deepgram_webhook expected_token dg_token)
      = Raise (HTTPException 403)).
Proof.
  unfold Deepgram.verify_deepgram_webhook.
  split; [|split; [|split]].
  - destruct dg_token as [[|d0 dr]|].
    + split; [discriminate|]. intros (t & [= <-] & _ & Hne). congruence.
    + destruct expected_token as [[|e0 er]|].
      * split; [discriminate|]. intros (t & [= <-] & [= ] & _).
      * rewrite result_bind, result_ordinary_eq.
        destruct (str_eqb (d0 :: dr) (e0 :: er)) eqn:E.
        -- apply str_eqb_eq in E. split; [intros _|reflexivity].
           exists (d0 :: dr). split; [reflexivity|].
           split; [now rewrite E|discriminate].
        -- apply str_eqb_neq in E. split; [discriminate|].
           intros (t & [= <-] & [= -> ->] & _). congruence.
      * split; [discriminate|]. intros (t & _ & [= ] & _).
    + split; [discriminate|]. intros (t & [= ] & _).
  - destruct dg_token as [[|d0 dr]|]; [reflexivity|discriminate|reflexivity].
  - destruct dg_token as [[|d0 dr]|]; try discriminate. intros _.
    destruct expected_token as [[|e0 er]|]; [reflexivity|discriminate|
                                             reflexivity].
  - destruct dg_token as [[|d0 dr]|]; try discriminate. intros _.
    destruct expected_token as [[|e0 er]|]; try discriminate. intros _ Hd.
    rewrite result_bind, result_ordinary_eq.
    replace (str_eqb (d0 :: dr) (e0 :: er)) with false; [reflexivity|].
    symmetry. apply str_eqb_neq. congruence.
Qed.

Lemma deepgram_true_or_http_error_witness :
  result (Deepgram.verify_deepgram_webhook (Some (lit "key-id"))
            (Some (lit "other")))
  = Raise (HTTPException 403).
Proof.
  apply (proj2 (proj2 (proj2
    (deepgram_true_or_http_error (Some (lit "key-id")) (Some (lit "other")))))).
  - reflexivity.
  - reflexivity.
  - discriminate.
Defined.

(** ** Chargebee *)

Lemma chargebee_accepted eu ep authorization :
  result (Chargebee.verify_chargebee_auth eu ep authorization) = Return true ->
  exists u p enc raw,
    eu = Some u /\ ep = Some p /\ u <> [] /\ p <> []
    /\ authorization = Some (lit "Basic " ++ enc)
    /\ b64decode enc = Return raw
    /\ decode raw = Return (u ++ lit ":" ++ p)
    /\ ~ In 58 u.
Proof.
  unfold Chargebee.verify_chargebee_auth.
  destruct authorization as [[|a0 ar]|]; try discriminate.
  destruct (startswith (lit "Basic ") (a0 :: ar)) eqn:Hb; cbn [negb];
    [|discriminate].
  apply startswith_decompose in Hb.
  change (length (lit "Basic ")) with 6%nat in Hb.
  cbv zeta. rewrite result_bind, result_catch, result_bind.
  cbn [lift result snd].
  destruct (b64decode (skipn 6 (a0 :: ar))) as [raw|e] eqn:Hraw;
    [|discriminate].
  destruct (decode raw) as [decoded|e] eqn:Hdec; [|discriminate].
  destruct (contains 58 decoded) eqn:Hc; cbn [negb]; [|discriminate].
  destruct eu as [[|e0 er]|]; try discriminate.
  destruct ep as [[|p0 pr]|]; try discriminate.
  rewrite result_bind, result_ordinary_eq.
  destruct (str_eqb (before 58 decoded) (e0 :: er)) eqn:Eu; cbn [negb];
    [|discriminate].
  rewrite result_bind, result_ordinary_eq.
  destruct (str_eqb (after 58 decoded) (p0 :: pr)) eqn:Ep; cbn [negb];
    [|discriminate].
  intros _. apply str_eqb_eq in Eu, Ep.
  exists (e0 :: er), (p0 :: pr), (skipn 6 (a0 :: ar)), raw.
  split; [reflexivity|]. split; [reflexivity|].
  split; [discriminate|]. split; [discriminate|].
  split; [now rewrite <- Hb|]. split; [exact Hraw|].
  split.
  - rewrite Hdec. f_equal. rewrite (before_after 58 decoded Hc) at 1.
    now rewrite Eu, Ep.
  - rewrite <- Eu. apply before_no_sep.
Qed.

(** X11.  Chargebee: the dependency returns True only for a header
    [Basic ] followed by the base64 of [user:password] for the configured,
    non-empty pair; a configured user name that contains a colon therefore
    locks every request out. *)
Theorem chargebee_accepts_only_the_configured_pair eu ep authorization :
  (result (Chargebee.verify_chargebee_auth eu ep authorization) = Return true ->
   exists u p enc raw,
     eu = Some u /\ ep = Some p /\ u <> [] /\ p <> []
     /\ authorization = Some (lit "Basic " ++ enc)
     /\ b64decode enc = Return raw
     /\ decode raw = Return (u ++ lit ":" ++ p))
  /\ (forall u, eu = Some u -> In 58 u ->
      result (Chargebee.verify_chargebee_auth eu ep authorization)
      <> Return true).
Proof.
  split.
  - intros H. apply chargebee_accepted in H
      as (u & p & enc & raw & H1 & H2 & H3 & H4 & H5 & H6 & H7 & _).
    exists u, p, enc, raw. auto 10.
  - intros u Hu Hin H. apply chargebee_accepted in H
      as (u' & p & enc & raw & H1 & _ & _ & _ & _ & _ & _ & Hno).
    rewrite Hu in H1. apply some_inj in H1. subst u'. contradiction.
Qed.

Lemma chargebee_accepts_only_the_configured_pair_witness :
  result (Chargebee.verify_chargebee_auth (Some (lit "a:b")) (Some (lit "c"))
            (Some (lit "Basic YTpiOmM=")))
  <> Return true.
Proof.
  apply (proj2 (chargebee_accepts_only_the_configured_pair
                  (Some (lit "a:b")) (Some (lit "c"))
                  (Some (lit "Basic YTpiOmM="))) (lit "a:b") eq_refl).
  cbv. auto.
Defined.

(** X12.  Chargebee: whatever the header and the configuration, the
    dependency returns True or raises an HTTPException with status 401 or
    500; undecodable base64 and text that is not UTF-8 are a 401. *)
Theorem chargebee_only_raises_401_or_500 eu ep authorization :
  result (Chargebee.verify_chargebee_auth eu ep authorization) = Return true
  \/ result (Chargebee.verify_chargebee_auth eu ep authorization)
     = Raise (HTTPException 401)
  \/ result (Chargebee.verify_chargebee_auth eu ep authorization)
     = Raise (HTTPException 500).
Proof.
  unfold Chargebee.verify_chargebee_auth.
  destruct authorization as [[|a0 ar]|]; try (right; left; reflexivity).
  destruct (startswith (lit "Basic ") (a0 :: ar)); cbn [negb];
    [|right; left; reflexivity].
  cbv zeta. rewrite result_bind, result_catch, result_bind.
  cbn [lift result snd].
  destruct (b64decode (skipn 6 (a0 :: ar))) as [raw|e];
    [|right; left; reflexivity].
  destruct (decode raw) as [decoded|e]; [|right; left; reflexivity].
  destruct (contains 58 decoded); cbn [negb]; [|right; left; reflexivity].
  destruct eu as [[|e0 er]|]; try (right; right; reflexivity).
  destruct ep as [[|p0 pr]|]; try (right; right; reflexivity).
  rewrite result_bind, result_ordinary_eq.
  destruct (str_eqb _ (e0 :: er)); cbn [negb]; [|right; left; reflexivity].
  rewrite result_bind, result_ordinary_eq.
  destruct (str_eqb _ (p0 :: pr)); cbn [negb]; [left|right; left];
    reflexivity.
Qed.

(** ** What the handlers answer *)

Lemma woocommerce_verify_raises raw_body signature secret e :
  result (Woocommerce.verify_woocommerce_webhook raw_body signature secret)
  = Raise e ->
  e = UnicodeEncodeError \/ e = TypeError.
Proof.
  unfold Woocommerce.verify_woocommerce_webhook.
  destruct signature as [[|s0 sr]|]; try discriminate.
  destruct secret as [[|c0 cr]|]; try discriminate.
  destruct raw_body as [|b0 br]; try discriminate.
  destruct (encode (c0 :: cr)) as [key|e'] eqn:Hk.
  - rewrite bind_lift_Return.
    rewrite decode_ascii by apply is_ascii_b64encode.
    rewrite bind_lift_Return. intros H.
    apply compare_digest_raises in H as [-> _]. now right.
  - intros [= <-]. left. eapply encode_raises, Hk.
Qed.

(** X13.  WooCommerce: up to the verification the handler lets the request
    through or raises an HTTPException with status 400 or 500; no other
    exception leaves it. *)
Theorem woocommerce_handler_only_raises_http secret request :
  result (Woocommerce.handle_webhook secret request) = Return tt
  \/ result (Woocommerce.handle_webhook secret request)
     = Raise (HTTPException 400)
  \/ result (Woocommerce.handle_webhook secret request)
     = Raise (HTTPException 500).
Proof.
  unfold Woocommerce.handle_webhook. cbv zeta.
  rewrite result_catch, result_bind_guard.
  destruct (result (Woocommerce.verify_woocommerce_webhook _ _ _))
    as [[|]|e] eqn:Hv; [now left|right; left; reflexivity|].
  apply woocommerce_verify_raises in Hv as [-> | ->];
    right; right; reflexivity.
Qed.

(** X14.  Replicate: the handler answers 400 or 500 or lets the request
    through, and once a secret is configured it never answers 500: every
    exception of the verification becomes a 400. *)
Theorem replicate_handler_statuses now env_secret request :
  (status (Replicate.handle_replicate_webhook now env_secret request) = None
   \/ status (Replicate.handle_replicate_webhook now env_secret request)
      = Some 400
   \/ status (Replicate.handle_replicate_webhook now env_secret request)
      = Some 500)
  /\ (truthy env_secret = true ->
      status (Replicate.handle_replicate_webhook now env_secret request)
      <> Some 500).
Proof.
  unfold Replicate.handle_replicate_webhook.
  destruct (header "webhook-id" request) as [[|i0 ir]|];
    try (split; [right; left; reflexivity|discriminate]).
  destruct (header "webhook-timestamp" request) as [[|t0 tr]|];
    try (split; [right; left; reflexivity|discriminate]).
  destruct (header "webhook-signature" request) as [[|s0 sr]|];
    try (split; [right; left; reflexivity|discriminate]).
  destruct env_secret as [[|c0 cr]|];
    try (split; [right; right; reflexivity|discriminate]).
  cbv zeta. unfold status. rewrite result_bind, result_catch.
  destruct (result (Replicate.verify_replicate_signature _ _ _ _ _ _))
    as [[|]|e]; cbn [any_exn negb];
    (split; [|discriminate]); [left|right; left|right; left]; reflexivity.
Qed.

(** X15.  A signature header with a character outside ASCII makes
    [hmac.compare_digest] raise TypeError, which nothing catches: the
    handlers of GitHub, Shopify, Vercel and Hookdeck answer 500, not their
    status for a bad signature. *)
Theorem non_ascii_signature_answers_500 request h secret key :
  is_ascii h = false -> secret <> [] -> encode secret = Return key ->
  (header "x-hub-signature-256" request = Some h ->
   status (Github.github_webhook (Some secret) request) = Some 500)
  /\ (header "x-shopify-hmac-sha256" request = Some h ->
      status (Shopify.shopify_webhook (Some secret) request) = Some 500)
  /\ (header "x-vercel-signature" request = Some h ->
      status (Vercel.handle_vercel_webhook secret request) = Some 500)
  /\ (header "x-hookdeck-signature" request = Some h ->
      status (Hookdeck.webhook (Some secret) request) = Some 500).
Proof.
  intros Hh Hs Hk.
  destruct (not_ascii_nonempty h Hh) as (h0 & hr & ->).
  destruct secret as [|c0 cr]; [congruence|].
  repeat split; intros Hhdr.
  - unfold Github.github_webhook. cbv zeta.
    rewrite status_bind_guard, Hhdr.
    unfold Github.verify_github_webhook, encode_opt. cbv zeta.
    rewrite Hk, bind_lift_Return.
    rewrite compare_digest_non_ascii; [reflexivity|].
    change (lit "sha256=") with (115 :: skipn 1 (lit "sha256=")).
    rewrite replace_ascii by reflexivity. now rewrite Hh.
  - unfold Shopify.shopify_webhook. cbv zeta. rewrite Hhdr. cbn [truthy negb].
    rewrite status_bind_guard.
    unfold Shopify.verify_shopify_webhook, encode_opt.
    rewrite Hk, bind_lift_Return, b64encode_str_eq, bind_ret.
    rewrite compare_digest_non_ascii; [reflexivity|].
    rewrite Hh. apply andb_false_r.
  - unfold Vercel.handle_vercel_webhook. rewrite Hhdr. cbv zeta.
    cbn [nonempty negb]. rewrite status_bind_guard.
    unfold Vercel.verify_signature. cbn [nonempty negb].
    rewrite Hk, bind_lift_Return.
    rewrite compare_digest_non_ascii; [reflexivity|]. now rewrite Hh.
  - unfold Hookdeck.webhook. cbv zeta. rewrite status_bind_guard, Hhdr.
    unfold Hookdeck.verify_hookdeck_signature.
    rewrite Hk, bind_lift_Return.
    rewrite decode_ascii by apply is_ascii_b64encode.
    rewrite bind_lift_Return.
    rewrite compare_digest_non_ascii; [reflexivity|].
    rewrite Hh. apply andb_false_r.
Qed.

Lemma non_ascii_signature_answers_500_witness :
  status (Github.github_webhook (Some Examples.evt_secret)
            MoreExamples.github_request_latin1) = Some 500.
Proof.
  refine (proj1 (non_ascii_signature_answers_500
                   MoreExamples.github_request_latin1 [233]
                   Examples.evt_secret Examples.evt_secret eq_refl _ eq_refl)
            eq_refl).
  discriminate.
Defined.

(** X16.  The same for WooCommerce, whose handler turns the TypeError into
    its own 500, and for the tokens of GitLab and OpenClaw: a token with a
    character outside ASCII is answered 500, not 401. *)
Theorem non_ascii_token_answers_500 request h secret key :
  is_ascii h = false -> secret <> [] -> encode secret = Return key ->
  (header "x-wc-webhook-signature" request = Some h ->
   body request <> [] ->
   status (Woocommerce.handle_webhook (Some secret) request) = Some 500)
  /\ (header "x-gitlab-token" request = Some h ->
      status (Gitlab.handle_gitlab_webhook (Some secret) request) = Some 500)
  /\ (header "x-openclaw-token" request = Some h ->
      status (Openclaw.openclaw_wake_hook (Some secret) request) = Some 500).
Proof.
  intros Hh Hs Hk.
  destruct (not_ascii_nonempty h Hh) as (h0 & hr & ->).
  destruct secret as [|c0 cr]; [congruence|].
  repeat split; intros Hhdr.
  - intros Hb. unfold Woocommerce.handle_webhook. cbv zeta.
    unfold status. rewrite result_catch, result_bind_guard, Hhdr.
    unfold Woocommerce.verify_woocommerce_webhook.
    destruct (body request) as [|b0 br]; [congruence|].
    rewrite Hk, bind_lift_Return.
    rewrite decode_ascii by apply is_ascii_b64encode.
    rewrite bind_lift_Return.
    rewrite compare_digest_non_ascii; [reflexivity|]. now rewrite Hh.
  - unfold Gitlab.handle_gitlab_webhook. rewrite status_bind_guard, Hhdr.
    unfold Gitlab.verify_gitlab_webhook.
    rewrite compare_digest_non_ascii; [reflexivity|]. now rewrite Hh.
  - unfold Openclaw.openclaw_wake_hook. cbv zeta.
    rewrite status_bind_guard, Hhdr.
    unfold Openclaw.verify_openclaw_webhook, Openclaw.extract_token.
    cbn [truthy]. cbv zeta.
    rewrite compare_digest_non_ascii; [reflexivity|]. now rewrite Hh.
Qed.

Lemma non_ascii_token_answers_500_witness :
  status (Gitlab.handle_gitlab_webhook (Some Examples.evt_secret)
            MoreExamples.gitlab_request_latin1) = Some 500.
Proof.
  refine (proj1 (proj2 (non_ascii_token_answers_500
                          MoreExamples.gitlab_request_latin1 [233]
                          Examples.evt_secret Examples.evt_secret eq_refl _
                          eq_refl)) eq_refl).
  discriminate.
Defined.

(** X17.  A body that is not UTF-8 is answered 400 by ElevenLabs, Clerk
    and Replicate, whatever else the request carries: the UnicodeDecodeError
    is caught as a failed verification. *)
Theorem non_utf8_body_answers_400 request e :
  decode (body request) = Raise e ->
  (forall now secret,
     status (Elevenlabs.elevenlabs_webhook now secret request) = Some 400)
  /\ (forall now secret,
        startswith (lit "whsec_") secret = true ->
        status (Clerk.clerk_webhook now (Some secret) request) = Some 400)
  /\ (forall now secret,
        truthy secret = true ->
        status (Replicate.handle_replicate_webhook now secret request)
        = Some 400).
Proof.
  intros He. pose proof (decode_raises _ _ He) as ->.
  split; [|split].
  - intros now secret. unfold Elevenlabs.elevenlabs_webhook.
    destruct (header "elevenlabs-signature" request) as [[|h0 hr]|];
      try reflexivity.
    cbv zeta. unfold status. rewrite result_catch, result_bind.
    unfold Elevenlabs.verify_elevenlabs_webhook.
    destruct (fold_left _ _ _) as [[[|t0 tr]|] [|s0 sr]]; try reflexivity.
    rewrite result_bind. cbn [lift result snd].
    destruct (int_of_str (t0 :: tr)) as [t|e] eqn:Ht.
    2:{ apply int_of_str_raises in Ht. subst e. reflexivity. }
    cbv zeta. destruct (1800 <? Z.abs (now - t))%Z; [reflexivity|].
    rewrite He. reflexivity.
  - intros now secret Hs. unfold Clerk.clerk_webhook.
    destruct (header "svix-id" request) as [[|i0 ir]|]; try reflexivity.
    destruct (header "svix-timestamp" request) as [[|t0 tr]|];
      try reflexivity.
    destruct (header "svix-signature" request) as [[|s0 sr]|];
      try reflexivity.
    destruct secret as [|c0 cr]; [discriminate|]. rewrite Hs. cbn [negb].
    cbv zeta. unfold status. rewrite result_bind.
    unfold Clerk.verify_clerk_signature. rewrite result_catch, He.
    reflexivity.
  - intros now secret Hs. unfold Replicate.handle_replicate_webhook.
    destruct (header "webhook-id" request) as [[|i0 ir]|]; try reflexivity.
    destruct (header "webhook-timestamp" request) as [[|t0 tr]|];
      try reflexivity.
    destruct (header "webhook-signature" request) as [[|s0 sr]|];
      try reflexivity.
    destruct secret as [[|c0 cr]|]; try discriminate.
    cbv zeta. unfold status. rewrite result_bind, result_catch.
    unfold Replicate.verify_replicate_signature.
    rewrite result_bind.
    destruct (result (item1 (split 95 (c0 :: cr)))) as [k|e]; [|reflexivity].
    rewrite result_bind. cbn [lift result snd].
    destruct (b64decode k) as [key|e]; [|reflexivity].
    rewrite He. reflexivity.
Qed.

Lemma non_utf8_body_answers_400_witness :
  status (Elevenlabs.elevenlabs_webhook 2000 Examples.evt_secret
            MoreExamples.request_not_utf8) = Some 400.
Proof.
  apply (proj1 (non_utf8_body_answers_400 MoreExamples.request_not_utf8
                  UnicodeDecodeError eq_refl)).
Defined.



(** X19.  A configured secret [whsec_...] whose key part is not base64:
    OpenAI, Clerk and Replicate answer 400, Resend lets the exception of
    [b64decode] escape and answers 500. *)
Theorem undecodable_secret_status request secret e :
  b64decode (skipn 6 secret) = Raise e ->
  startswith (lit "whsec_") secret = true ->
  ~ In 95 (skipn 6 secret) ->
  (forall now text,
     decode (body request) = Return text ->
     status (Openai.openai_webhook now (Some secret) request) = Some 400)
  /\ (forall now,
        status (Clerk.clerk_webhook now (Some secret) request) = Some 400)
  /\ (forall now,
        status (Replicate.handle_replicate_webhook now (Some secret) request)
        = Some 400)
  /\ (forall now id ts signature t,
        header "svix-id" request = Some id ->
        header "svix-timestamp" request = Some ts ->
        header "svix-signature" request = Some signature ->
        id <> [] -> signature <> [] ->
        int_of_str ts = Return t -> (Z.abs (now - t) <= 300)%Z ->
        status (Resend.resend_webhook now (Some secret) request) = Some 500).
Proof.
  intros He Hp Hu.
  assert (Hsplit : split 95 secret = [lit "whsec"; skipn 6 secret]).
  { apply startswith_decompose in Hp. cbn [length lit] in Hp.
    rewrite Hp at 1.
    change (lit "whsec_" ++ ?x) with (lit "whsec" ++ 95 :: x).
    rewrite split_app by (cbv; intuition discriminate).
    now rewrite split_absent. }
  destruct secret as [|c0 cr]; [discriminate|].
  split; [|split; [|split]].
  - intros now text Ht. unfold Openai.openai_webhook. cbv zeta.
    rewrite status_bind_guard.
    unfold Openai.verify_openai_signature.
    destruct (header "webhook-id" request) as [[|i0 ir]|]; try reflexivity.
    destruct (header "webhook-timestamp" request) as [[|t0 tr]|];
      try reflexivity.
    destruct (header "webhook-signature" request) as [[|s0 sr]|];
      try reflexivity.
    destruct (negb (contains 44 (s0 :: sr))); [reflexivity|]. cbv zeta.
    destruct (int_of_str (t0 :: tr)) as [t|e'] eqn:Hi.
    2:{ apply int_of_str_raises in Hi. subst e'. reflexivity. }
    destruct ((300 <? now - t) || (now - t <? -300))%Z; [reflexivity|].
    destruct (split1 44 (s0 :: sr)) as [|v [|s [|x l]]]; try reflexivity.
    destruct (negb (str_eqb v (lit "v1"))); [reflexivity|].
    rewrite Ht, bind_lift_Return. cbv zeta. rewrite Hp.
    match goal with
    | |- context [b64decode ?x] =>
        replace (b64decode x) with (@Raise bytes e) by (symmetry; exact He)
    end.
    reflexivity.
  - intros now. unfold Clerk.clerk_webhook.
    destruct (header "svix-id" request) as [[|i0 ir]|]; try reflexivity.
    destruct (header "svix-timestamp" request) as [[|t0 tr]|];
      try reflexivity.
    destruct (header "svix-signature" request) as [[|s0 sr]|];
      try reflexivity.
    rewrite Hp. cbn [negb]. cbv zeta. unfold status. rewrite result_bind.
    unfold Clerk.verify_clerk_signature. rewrite result_catch, result_bind.
    cbn [lift result snd].
    destruct (decode (body request)) as [text|e']; [|reflexivity].
    cbv zeta. rewrite Hsplit. cbn [item1]. rewrite bind_ret, result_bind.
    cbn [lift result snd]. rewrite He. reflexivity.
  - intros now. unfold Replicate.handle_replicate_webhook.
    destruct (header "webhook-id" request) as [[|i0 ir]|]; try reflexivity.
    destruct (header "webhook-timestamp" request) as [[|t0 tr]|];
      try reflexivity.
    destruct (header "webhook-signature" request) as [[|s0 sr]|];
      try reflexivity.
    cbv zeta. unfold status. rewrite result_bind, result_catch.
    unfold Replicate.verify_replicate_signature.
    rewrite Hsplit. cbn [item1]. rewrite bind_ret, result_bind.
    cbn [lift result snd]. rewrite He. reflexivity.
  - intros now id ts signature t Hid Hts Hsig Hi Hg Ht Hw.
    unfold Resend.resend_webhook. cbv zeta.
    rewrite !svix_headers_lookup by auto. rewrite Hid, Hts, Hsig.
    destruct id as [|i0 ir]; [congruence|].
    destruct ts as [|t0 tr]; [discriminate|].
    destruct signature as [|g0 gr]; [congruence|].
    cbn [truthy andb negb].
    unfold status. rewrite result_bind.
    unfold Resend.verify_svix_signature.
    rewrite !svix_headers_lookup by auto. rewrite Hid, Hts, Hsig, Ht.
    replace (300 <? Z.abs (now - t))%Z with false
      by (symmetry; apply Z.ltb_ge; lia).
    cbv zeta. rewrite Hp.
    match goal with
    | |- context [b64decode ?x] =>
        replace (b64decode x) with (@Raise bytes e) by (symmetry; exact He)
    end.
    destruct (b64decode_raises _ _ He) as [-> | ->]; reflexivity.
Qed.

Lemma undecodable_secret_status_witness :
  status (Clerk.clerk_webhook 2000 (Some (lit "whsec_a"))
            Examples.clerk_request_2000) = Some 400.
Proof.
  refine (proj1 (proj2 (undecodable_secret_status
                          Examples.clerk_request_2000 (lit "whsec_a")
                          BinasciiError eq_refl eq_refl _)) 2000%Z).
  cbv. intuition discriminate.
Defined.
(** * After the verification: the payload *)

Lemma verified_Return h : result h = Return tt -> Json.verified h = Json.Ok tt.
Proof. unfold Json.verified. now intros ->. Qed.

Lemma verified_Raise h e :
  result h = Raise e -> Json.verified h = Json.Err (Json.Builtin e).
Proof. unfold Json.verified. now intros ->. Qed.

Lemma and_then_Ok_inv {A B} (m : Json.res A) (k : A -> Json.res B) b :
  Json.and_then m k = Json.Ok b ->
  exists a, m = Json.Ok a /\ k a = Json.Ok b.
Proof. destruct m as [a|e]; cbn; [eauto|discriminate]. Qed.

(** ** Cursor *)

Section CursorPayload.

Variable json_loads : str -> Json.res Json.value.

(** X20.  Cursor: nothing is decoded or parsed before the signature is
    verified (the handler raises what the verification raises); once it is
    verified, a body that is not UTF-8 is answered 500 and a body that
    [json.loads] rejects is answered 400. *)
Theorem cursor_body_is_parsed_after_verification secret request :
  (forall e,
     result (Cursor.handle_cursor_webhook secret request) = Raise e ->
     CursorHandler.handle_cursor_webhook json_loads secret request
     = Json.Err (Json.Builtin e))
  /\ (result (Cursor.handle_cursor_webhook secret request) = Return tt ->
      (forall e,
         decode (body request) = Raise e ->
         Json.status
           (CursorHandler.handle_cursor_webhook json_loads secret request)
         = Some 500)
      /\ (forall text,
            decode (body request) = Return text ->
            json_loads text = Json.Err Json.JSONDecodeError ->
            Json.status
              (CursorHandler.handle_cursor_webhook json_loads secret request)
            = Some 400)).
Proof.
  unfold CursorHandler.handle_cursor_webhook. cbv zeta. split.
  - intros e He. now rewrite (verified_Raise _ _ He).
  - intros Hv. rewrite (verified_Return _ Hv). cbn [Json.and_then]. split.
    + intros e He. rewrite He. apply decode_raises in He. subst e.
      reflexivity.
    + intros text Ht Hj. rewrite Ht. cbn [Json.of_outcome Json.and_then].
      rewrite Hj. reflexivity.
Qed.

(** X21.  Cursor: an event other than [statusChange] is acknowledged
    whatever the payload is. *)
Theorem cursor_other_events_ignore_payload secret request text payload :
  result (Cursor.handle_cursor_webhook secret request) = Return tt ->
  decode (body request) = Return text ->
  json_loads text = Json.Ok payload ->
  header "x-webhook-event" request <> Some (lit "statusChange") ->
  CursorHandler.handle_cursor_webhook json_loads secret request
  = Json.Ok (Json.Object [(lit "received", Json.Bool true)]).
Proof.
  intros Hv Ht Hj He. unfold CursorHandler.handle_cursor_webhook. cbv zeta.
  rewrite (verified_Return _ Hv), Ht. cbn [Json.of_outcome Json.and_then].
  rewrite Hj. cbn [Json.and_then].
  replace (Json.eq_str (Json.of_option (header "x-webhook-event" request))
             "statusChange") with false; [reflexivity|].
  symmetry. destruct (header "x-webhook-event" request) as [ev|];
    [|reflexivity].
  cbn [Json.of_option Json.eq_str]. apply str_eqb_neq. congruence.
Qed.

(** X22.  Cursor: a [statusChange] event is acknowledged exactly when the
    payload is an object whose [source] and [target], where present, are
    objects; any other payload raises AttributeError, which is answered
    500. *)
Theorem cursor_status_change_needs_objects secret request text payload :
  result (Cursor.handle_cursor_webhook secret request) = Return tt ->
  decode (body request) = Return text ->
  json_loads text = Json.Ok payload ->
  header "x-webhook-event" request = Some (lit "statusChange") ->
  CursorHandler.handle_cursor_webhook json_loads secret request
  = if match payload with
       | Json.Object members =>
           match Json.member (lit "source") members with
           | Some source => Json.is_object source
           | None => true
           end
           && match Json.member (lit "target") members with
              | Some target => Json.is_object target
              | None => true
              end
       | _ => false
       end
    then Json.Ok (Json.Object [(lit "received", Json.Bool true)])
    else Json.Err (Json.Builtin AttributeError).
Proof.
  intros Hv Ht Hj He. unfold CursorHandler.handle_cursor_webhook. cbv zeta.
  rewrite (verified_Return _ Hv), Ht. cbn [Json.of_outcome Json.and_then].
  rewrite Hj, He. cbn [Json.and_then Json.of_option Json.eq_str].
  rewrite str_eqb_refl.
  destruct payload as [| | | | |items|members]; try reflexivity.
  unfold Json.get.
  cbn [Json.get_default Json.and_then Json.contains Json.getitem].
  unfold Json.field.
  destruct (Json.member (lit "source") members) as [source|].
  - destruct source as [| | | | |items|smembers]; try reflexivity.
    cbn [Json.get_default Json.and_then Json.is_object andb].
    destruct (Json.member (lit "target") members) as [target|].
    + destruct target as [| | | | |items|tmembers]; try reflexivity.
      cbn [Json.get_default Json.and_then Json.contains Json.getitem
           Json.is_object].
      destruct (Json.member (lit "prUrl") tmembers);
        cbn [Json.and_then];
        destruct (Json.eq_str _ "FINISHED"); reflexivity.
    + cbn [Json.and_then].
      destruct (Json.eq_str _ "FINISHED"); reflexivity.
  - cbn [Json.and_then andb].
    destruct (Json.member (lit "target") members) as [target|].
    + destruct target as [| | | | |items|tmembers]; try reflexivity.
      cbn [Json.get_default Json.and_then Json.contains Json.getitem
           Json.is_object].
      destruct (Json.member (lit "prUrl") tmembers);
        cbn [Json.and_then];
        destruct (Json.eq_str _ "FINISHED"); reflexivity.
    + cbn [Json.and_then].
      destruct (Json.eq_str _ "FINISHED"); reflexivity.
Qed.

End CursorPayload.

Lemma cursor_body_is_parsed_after_verification_witness :
  Json.status
    (CursorHandler.handle_cursor_webhook MoreExamples.loads_fails
       (Some Examples.evt_secret)
       (MoreExamples.cursor_request (lit "statusChange")))
  = Some 400.
Proof.
  refine (proj2 (proj2 (cursor_body_is_parsed_after_verification
                          MoreExamples.loads_fails (Some Examples.evt_secret)
                          (MoreExamples.cursor_request (lit "statusChange")))
                   _) Examples.evt_body eq_refl eq_refl).
  vm_compute. reflexivity.
Defined.

Lemma cursor_other_events_ignore_payload_witness :
  CursorHandler.handle_cursor_webhook
    (MoreExamples.loads_as (Json.Array [])) (Some Examples.evt_secret)
    (MoreExamples.cursor_request (lit "ping"))
  = Json.Ok (Json.Object [(lit "received", Json.Bool true)]).
Proof.
  apply (cursor_other_events_ignore_payload
           (MoreExamples.loads_as (Json.Array [])) (Some Examples.evt_secret)
           (MoreExamples.cursor_request (lit "ping")) Examples.evt_body
           (Json.Array [])).
  - vm_compute. reflexivity.
  - reflexivity.
  - reflexivity.
  - vm_compute. discriminate.
Defined.

Lemma cursor_status_change_needs_objects_witness :
  CursorHandler.handle_cursor_webhook
    (MoreExamples.loads_as MoreExamples.status_change_payload)
    (Some Examples.evt_secret)
    (MoreExamples.cursor_request (lit "statusChange"))
  = Json.Err (Json.Builtin AttributeError).
Proof.
  apply (cursor_status_change_needs_objects
           (MoreExamples.loads_as MoreExamples.status_change_payload)
           (Some Examples.evt_secret)
           (MoreExamples.cursor_request (lit "statusChange"))
           Examples.evt_body MoreExamples.status_change_payload).
  - vm_compute. reflexivity.
  - reflexivity.
  - reflexivity.
  - reflexivity.
Defined.

(** ** GitLab *)

Lemma aot_and_then {A B} (m : Json.res A) (k : A -> Json.res B) :
  Json.attribute_or_type_error m ->
  (forall a, Json.attribute_or_type_error (k a)) ->
  Json.attribute_or_type_error (Json.and_then m k).
Proof.
  destruct m as [a|e]; cbn [Json.and_then]; intros Hm Hk; [apply Hk|exact Hm].
Qed.

Lemma aot_get_default k d v :
  Json.attribute_or_type_error (Json.get_default k d v).
Proof. destruct v; exact I. Qed.

Lemma aot_get k v : Json.attribute_or_type_error (Json.get k v).
Proof. apply aot_get_default. Qed.

Lemma aot_slice_to n v : Json.attribute_or_type_error (Json.slice_to n v).
Proof. destruct v; exact I. Qed.

Lemma aot_len v : Json.attribute_or_type_error (Json.len v).
Proof. destruct v; exact I. Qed.

Lemma aot_replace old new v :
  Json.attribute_or_type_error (Json.replace old new v).
Proof. destruct v; exact I. Qed.

Ltac aot :=
  repeat first
    [ exact I
    | apply aot_get | apply aot_get_default | apply aot_slice_to
    | apply aot_len | apply aot_replace
    | apply aot_and_then; [|intros ?]
    | match goal with
      | |- Json.attribute_or_type_error (if ?c then _ else _) => destruct c
      end ].

Lemma aot_status {A} (r : Json.res A) :
  Json.attribute_or_type_error r ->
  (exists a, r = Json.Ok a) \/ Json.status r = Some 500.
Proof.
  destruct r as [a|[| |[]]]; cbn; intros H; try contradiction; eauto.
Qed.

Lemma aot_cases {A} (r : Json.res A) :
  Json.attribute_or_type_error r ->
  (exists a, r = Json.Ok a)
  \/ r = Json.Err (Json.Builtin AttributeError)
  \/ r = Json.Err (Json.Builtin TypeError).
Proof.
  destruct r as [a|[| |[]]]; cbn; intros H; try contradiction; eauto.
Qed.

Section GitlabPayload.

Variable request_json : bytes -> Json.res Json.value.
Variable JSONResponse : Json.value -> Json.res bytes.

Lemma gitlab_content_aot env_token request payload :
  result (Gitlab.handle_gitlab_webhook env_token request) = Return tt ->
  request_json (body request) = Json.Ok payload ->
  Json.attribute_or_type_error
    (GitlabHandler.response_content request_json env_token request).
Proof.
  intros Hv Hp. unfold GitlabHandler.response_content. cbv zeta.
  rewrite (verified_Return _ Hv). cbn [Json.and_then].
  rewrite Hp. cbn [Json.and_then]. aot.
Qed.

Lemma gitlab_content_inv env_token request payload content :
  result (Gitlab.handle_gitlab_webhook env_token request) = Return tt ->
  request_json (body request) = Json.Ok payload ->
  GitlabHandler.response_content request_json env_token request
  = Json.Ok content ->
  exists members project,
    payload = Json.Object members
    /\ Json.field "project" (Json.Object []) members = Json.Object project
    /\ content
       = Json.Object
           [(lit "received", Json.Bool true);
            (lit "event",
             Json.or_else (Json.field "object_kind" Json.Null members)
               (Json.of_option (header "x-gitlab-event" request)));
            (lit "project",
             Json.field "path_with_namespace" Json.Null project)].
Proof.
  intros Hv Hp. unfold GitlabHandler.response_content. cbv zeta.
  rewrite (verified_Return _ Hv). cbn [Json.and_then].
  rewrite Hp. cbn [Json.and_then].
  destruct payload as [| | | | |items|members]; try discriminate.
  unfold Json.get at 1 2.
  cbn [Json.get_default Json.and_then].
  intros H. apply and_then_Ok_inv in H as (u & _ & H).
  apply and_then_Ok_inv in H as (p & Hproj & H).
  destruct (Json.field "project" (Json.Object []) members)
    as [| | | | |items|project] eqn:Hf; try discriminate.
  exists members, project. split; [reflexivity|]. split; [exact Hf|].
  cbn in Hproj. injection Hproj as <-. injection H as <-. reflexivity.
Qed.


(** X24.  GitLab: whenever the handler answers with a response, its body is
    the rendering of a content that names as [event] the [object_kind] of
    the payload, or the header [X-Gitlab-Event] when the payload has none,
    and as [project] the [path_with_namespace] of its project; the payload
    and its project are then objects. *)
Theorem gitlab_response_content env_token request payload rendered :
  result (Gitlab.handle_gitlab_webhook env_token request) = Return tt ->
  request_json (body request) = Json.Ok payload ->
  GitlabHandler.handle_gitlab_webhook request_json JSONResponse env_token
    request
  = Json.Ok rendered ->
  exists members project,
    payload = Json.Object members
    /\ Json.field "project" (Json.Object []) members = Json.Object project
    /\ JSONResponse
         (Json.Object
            [(lit "received", Json.Bool true);
             (lit "event",
              Json.or_else (Json.field "object_kind" Json.Null members)
                (Json.of_option (header "x-gitlab-event" request)));
             (lit "project",
              Json.field "path_with_namespace" Json.Null project)])
       = Json.Ok rendered.
Proof.
  intros Hv Hp Hr. unfold GitlabHandler.handle_gitlab_webhook in Hr.
  apply and_then_Ok_inv in Hr as (content & Hc & Hr).
  destruct (gitlab_content_inv _ _ _ _ Hv Hp Hc)
    as (members & project & Hm & Hpr & Hcontent).
  exists members, project. subst content. auto.
Qed.

(** X25.  GitLab: a payload that is not an object, or whose [project] is
    not an object, is answered 500 whatever the event is. *)
Theorem gitlab_project_must_be_an_object env_token request payload :
  result (Gitlab.handle_gitlab_webhook env_token request) = Return tt ->
  request_json (body request) = Json.Ok payload ->
  match payload with
  | Json.Object members =>
      Json.is_object (Json.field "project" (Json.Object []) members)
  | _ => false
  end = false ->
  Json.status
    (GitlabHandler.handle_gitlab_webhook request_json JSONResponse env_token
       request)
  = Some 500.
Proof.
  intros Hv Hp Hproj. unfold GitlabHandler.handle_gitlab_webhook.
  destruct (aot_cases _ (gitlab_content_aot env_token request _ Hv Hp))
    as [[content Hc]|[Hc|Hc]]; try (rewrite Hc; reflexivity).
  destruct (gitlab_content_inv _ _ _ _ Hv Hp Hc)
    as (m & project & -> & Hpr & _).
  rewrite Hpr in Hproj. discriminate.
Qed.



End GitlabPayload.


Lemma gitlab_response_content_witness :
  exists members project,
    MoreExamples.build_payload = Json.Object members
    /\ Json.field "project" (Json.Object []) members = Json.Object project
    /\ MoreExamples.renders_as (lit "{}")
         (Json.Object
            [(lit "received", Json.Bool true);
             (lit "event",
              Json.or_else (Json.field "object_kind" Json.Null members)
                (Json.of_option
                   (header "x-gitlab-event" Examples.gitlab_request)));
             (lit "project",
              Json.field "path_with_namespace" Json.Null project)])
       = Json.Ok (lit "{}").
Proof.
  apply (gitlab_response_content
           (MoreExamples.loads_as MoreExamples.build_payload)
           (MoreExamples.renders_as (lit "{}"))
           (Some (lit "test_gitlab_webhook_token")) Examples.gitlab_request
           MoreExamples.build_payload).
  - reflexivity.
  - reflexivity.
  - reflexivity.
Defined.

Lemma gitlab_project_must_be_an_object_witness :
  Json.status
    (GitlabHandler.handle_gitlab_webhook
       (MoreExamples.loads_as (Json.Array [])) (MoreExamples.renders_as [])
       (Some (lit "test_gitlab_webhook_token")) Examples.gitlab_request)
  = Some 500.
Proof.
  apply (gitlab_project_must_be_an_object
           (MoreExamples.loads_as (Json.Array [])) (MoreExamples.renders_as [])
           (Some (lit "test_gitlab_webhook_token")) Examples.gitlab_request
           (Json.Array [])).
  - reflexivity.
  - reflexivity.
  - reflexivity.
Defined.



(** ** Postmark *)

Section PostmarkPayload.

Variable request_json : bytes -> Json.res Json.value.
Variable process : string -> Json.value -> Json.res unit.

(** X28.  Postmark, once the token is verified: the answer depends on the
    shape of the payload only, never on what the processing of the event
    does: 400 when the body cannot be parsed, 500 when it is not an object,
    400 when [RecordType] or [MessageID] is missing or false, and the
    acknowledgement otherwise. *)
Theorem postmark_answer_ignores_processing token request :
  result (Postmark.handle_webhook token request) = Return tt ->
  (forall e,
     request_json (body request) = Json.Err e ->
     PostmarkHandler.handle_webhook request_json process token request
     = Json.http_error 400)
  /\ (forall payload,
        request_json (body request) = Json.Ok payload ->
        PostmarkHandler.handle_webhook request_json process token request
        = match payload with
          | Json.Object members =>
              if Json.truth (Json.field "RecordType" Json.Null members)
                 && Json.truth (Json.field "MessageID" Json.Null members)
              then Json.Ok (Json.Object [(lit "received", Json.Bool true)])
              else Json.http_error 400
          | _ => Json.Err (Json.Builtin AttributeError)
          end).
Proof.
  intros Hv. unfold PostmarkHandler.handle_webhook.
  rewrite (verified_Return _ Hv). cbn [Json.and_then]. split.
  - intros e He. rewrite He. reflexivity.
  - intros payload Hp. rewrite Hp. cbn [Json.and_then].
    destruct payload as [| | | | |items|members]; try reflexivity.
    unfold Json.get. cbn [Json.get_default Json.and_then].
    destruct (Json.truth (Json.field "RecordType" Json.Null members)) eqn:Hr;
      cbn [negb andb Json.and_then]; [|reflexivity].
    destruct (Json.truth (Json.field "MessageID" Json.Null members)) eqn:Hm;
      cbn [negb Json.and_then]; [|reflexivity].
    unfold Json.field in Hr, Hm. unfold Json.getitem.
    destruct (Json.member (lit "RecordType") members) as [record_type|];
      [|discriminate].
    destruct (Json.member (lit "MessageID") members) as [message_id|];
      [|discriminate].
    cbn [Json.and_then].
    repeat match goal with
    | |- context [if Json.eq_str record_type ?k then _ else _] =>
        destruct (Json.eq_str record_type k)
    end;
    try (destruct (process _ _)); reflexivity.
Qed.

End PostmarkPayload.

Lemma postmark_answer_ignores_processing_witness :
  PostmarkHandler.handle_webhook
    (MoreExamples.loads_as MoreExamples.bounce_payload)
    MoreExamples.process_fails Examples.postmark_token
    Examples.postmark_request
  = Json.Ok (Json.Object [(lit "received", Json.Bool true)]).
Proof.
  apply (proj2 (postmark_answer_ignores_processing
                  (MoreExamples.loads_as MoreExamples.bounce_payload)
                  MoreExamples.process_fails Examples.postmark_token
                  Examples.postmark_request eq_refl)
           MoreExamples.bounce_payload eq_refl).
Defined.

(** ** ElevenLabs *)

Section ElevenlabsPayload.

Variable json_loads : bytes -> Json.res Json.value.

(** X29.  ElevenLabs: the whole handler answers with its acknowledgement,
    with 400 or with 500, and nothing else; while the signature is not
    verified its answer is that of the verification. *)
Theorem elevenlabs_handler_answers now secret request :
  (Json.status
     (ElevenlabsHandler.elevenlabs_webhook json_loads now secret request)
   = None
   \/ Json.status
        (ElevenlabsHandler.elevenlabs_webhook json_loads now secret request)
      = Some 400
   \/ Json.status
        (ElevenlabsHandler.elevenlabs_webhook json_loads now secret request)
      = Some 500)
  /\ (status (Elevenlabs.elevenlabs_webhook now secret request) <> None ->
      Json.status
        (ElevenlabsHandler.elevenlabs_webhook json_loads now secret request)
      = status (Elevenlabs.elevenlabs_webhook now secret request)).
Proof.
  unfold ElevenlabsHandler.elevenlabs_webhook, Elevenlabs.elevenlabs_webhook.
  destruct (header "elevenlabs-signature" request) as [[|h0 hr]|];
    try (split; [right; left; reflexivity|reflexivity]).
  cbv zeta. split.
  - match goal with
    | |- context [match ?m with Json.Ok _ => _ | Json.Err _ => _ end] =>
        destruct m as [content|e]
    end; [left; reflexivity|].
    destruct (ElevenlabsHandler.is_ValueError e);
      [right; left|right; right]; reflexivity.
  - unfold status at 1 2. rewrite result_catch, result_bind.
    destruct (result (Elevenlabs.verify_elevenlabs_webhook _ _ _ _))
      as [b|e]; [intros H; exfalso; apply H; reflexivity|]. intros _.
    cbn [Json.of_outcome Json.and_then ElevenlabsHandler.is_ValueError
         any_exn].
    destruct (is_ValueError e); reflexivity.
Qed.

(** X30.  ElevenLabs, once the signature is verified: a body that is not
    JSON is answered 400, like a bad signature; a payload is acknowledged
    exactly when it is an object with a [type], with a [data] that is an
    object for the two events of a finished call and any [data] for a
    failed call; every other payload is answered 500. *)
Theorem elevenlabs_payload_shape now secret request signature :
  header "elevenlabs-signature" request = Some signature ->
  result (Elevenlabs.verify_elevenlabs_webhook now (body request)
            (Some signature) secret) = Return true ->
  (json_loads (body request) = Json.Err Json.JSONDecodeError ->
   Json.status
     (ElevenlabsHandler.elevenlabs_webhook json_loads now secret request)
   = Some 400)
  /\ (forall payload,
        json_loads (body request) = Json.Ok payload ->
        Json.status
          (ElevenlabsHandler.elevenlabs_webhook json_loads now secret request)
        = if match payload with
             | Json.Object members =>
                 match Json.member (lit "type") members with
                 | Some type =>
                     if Json.eq_str type "post_call_transcription"
                        || Json.eq_str type "post_call_audio"
                     then match Json.member (lit "data") members with
                          | Some data => Json.is_object data
                          | None => false
                          end
                     else if Json.eq_str type "call_initiation_failure"
                     then match Json.member (lit "data") members with
                          | Some _ => true
                          | None => false
                          end
                     else true
                 | None => false
                 end
             | _ => false
             end
          then None else Some 500).
Proof.
  intros Hh Hv. unfold ElevenlabsHandler.elevenlabs_webhook. rewrite Hh.
  destruct signature as [|s0 sr]; [discriminate Hv|].
  cbv zeta. rewrite Hv. cbn [Json.of_outcome Json.and_then]. split.
  - intros Hj. rewrite Hj. reflexivity.
  - intros payload Hj. rewrite Hj. cbn [Json.and_then].
    destruct payload as [| | | | |items|members]; try reflexivity.
    cbn [Json.getitem].
    destruct (Json.member (lit "type") members) as [type|]; [|reflexivity].
    cbn [Json.and_then].
    destruct (Json.eq_str type "post_call_transcription");
      cbn [orb].
    { destruct (Json.member (lit "data") members) as [data|];
        [|reflexivity].
      destruct data; reflexivity. }
    destruct (Json.eq_str type "post_call_audio").
    { destruct (Json.member (lit "data") members) as [data|];
        [|reflexivity].
      destruct data; reflexivity. }
    destruct (Json.eq_str type "call_initiation_failure").
    { destruct (Json.member (lit "data") members) as [data|]; reflexivity. }
    reflexivity.
Qed.

End ElevenlabsPayload.

Lemma elevenlabs_handler_answers_witness :
  Json.status
    (ElevenlabsHandler.elevenlabs_webhook MoreExamples.loads_fails 2000
       Examples.evt_secret Examples.bare_request)
  = status (Elevenlabs.elevenlabs_webhook 2000 Examples.evt_secret
              Examples.bare_request).
Proof.
  apply (proj2 (elevenlabs_handler_answers MoreExamples.loads_fails 2000
                  Examples.evt_secret Examples.bare_request)).
  discriminate.
Defined.

Lemma elevenlabs_payload_shape_witness :
  Json.status
    (ElevenlabsHandler.elevenlabs_webhook
       (MoreExamples.loads_as MoreExamples.call_payload) 2000
       Examples.evt_secret MoreExamples.elevenlabs_request)
  = Some 500.
Proof.
  refine (proj2 (elevenlabs_payload_shape
                   (MoreExamples.loads_as MoreExamples.call_payload) 2000
                   Examples.evt_secret MoreExamples.elevenlabs_request
                   _ eq_refl _) MoreExamples.call_payload eq_refl).
  vm_compute. reflexivity.
Defined.
